(** * Production-plan backend: parser, record materializer and query layer

    A shallow embedding of [backend/parser.py], [backend/models.py] and
    [backend/database.py], and the properties of the extraction-and-
    normalization pipeline and of the persistence gateway proved over it.

    Python objects are modelled by the inductive type [value]; a [dict] is
    an insertion-ordered association list with unique keys; an exception is
    the [Raise] constructor of [result].

    What the code takes from its libraries is modelled as follows.
    - Model validation: a [str] field takes a string only, [Optional]
      keeps [None], keyword arguments that name no field are ignored; the
      coercions of an [int] field are a parameter ([LaxInt]).
    - The document store: a list of documents in insertion order, each
      with the [ObjectId] the driver gave it; its regular expressions and
      its sort are an interface ([Engine]) with a reference instance for
      the literal-and-dot fragment of patterns; [$set] is modelled on
      fields of the document itself.
    - The clock: the sequence of its readings, one taken by each call of
      [datetime.utcnow()].
    - Logging is left out. *)

From Stdlib Require Import List String Ascii ZArith Bool Arith Lia Permutation.
From Stdlib Require Import Sorted.
From Stdlib Require Import Floats.SpecFloat.
Import ListNotations.

Local Open Scope string_scope.
Local Open Scope list_scope.
Local Open Scope nat_scope.

Set Implicit Arguments.
Set Warnings "-register-all".

(* ================================================================== *)
(** ** Exceptions and results *)

Inductive exn : Type :=
| TypeError
| AttributeError
| ValueError
| ValidationError
| InvalidId
| OverflowError
| OperationFailure.

Inductive result (A : Type) : Type :=
| Ok (a : A)
| Raise (e : exn).

Arguments Ok {A} a.
Arguments Raise {A} e.

Definition bind {A B : Type} (r : result A) (k : A -> result B) : result B :=
  match r with
  | Ok a => k a
  | Raise e => Raise e
  end.

Notation "x <- r ;; k" := (bind r (fun x => k))
  (at level 61, r at next level, right associativity).

Definition is_ok {A : Type} (r : result A) : bool :=
  match r with Ok _ => true | Raise _ => false end.

(* ================================================================== *)
(** ** Python values *)

Module Py.

(** A 12-byte BSON object identifier, kept as the list of its bytes. *)
Definition ObjectId := list nat.

(** The objects the code handles: what [json.loads] builds ([None], [bool],
    [int], [float], [str], [list], [dict]) and the two BSON types found in
    stored documents ([datetime], [ObjectId]). *)
Inductive value : Type :=
| PNone
| PBool (b : bool)
| PInt (z : Z)
| PFloat (f : spec_float)
| PStr (s : string)
| PList (l : list value)
| PDict (d : list (string * value))
| PDatetime (t : Z)
| POid (o : ObjectId).

Definition dict := list (string * value).

(** [bool(v)]: Python truthiness. *)
Definition truthy (v : value) : bool :=
  match v with
  | PNone => false
  | PBool b => b
  | PInt z => negb (Z.eqb z 0)
  | PFloat (S754_zero _) => false
  | PFloat _ => true
  | PStr s => negb (String.eqb s "")
  | PList l => match l with [] => false | _ => true end
  | PDict d => match d with [] => false | _ => true end
  | PDatetime _ => true
  | POid _ => true
  end.

(** [len(v)]: only sized objects have a length. *)
Definition len (v : value) : result nat :=
  match v with
  | PStr s => Ok (String.length s)
  | PList l => Ok (List.length l)
  | PDict d => Ok (List.length d)
  | _ => Raise TypeError
  end.

(** [isinstance(v, list)] and [isinstance(v, dict)]. *)
Definition is_list (v : value) : bool :=
  match v with PList _ => true | _ => false end.

Definition is_dict (v : value) : bool :=
  match v with PDict _ => true | _ => false end.

(** [d.get(k)] as an option ([None] when the key is absent). *)
Fixpoint dict_get (k : string) (d : dict) : option value :=
  match d with
  | [] => None
  | (k', v) :: d' => if String.eqb k k' then Some v else dict_get k d'
  end.

(** [k in d]. *)
Definition dict_contains (k : string) (d : dict) : bool :=
  match dict_get k d with Some _ => true | None => false end.

(** [d.get(k, default)]. *)
Definition dict_get_default (k : string) (default : value) (d : dict) : value :=
  match dict_get k d with Some v => v | None => default end.

(** The dictionary left once key [k] is deleted. *)
Definition dict_remove (k : string) (d : dict) : dict :=
  filter (fun kv => negb (String.eqb k (fst kv))) d.

(** [d.pop(k, default)]: the value and the dictionary after the call. *)
Definition dict_pop (k : string) (default : value) (d : dict) : value * dict :=
  (dict_get_default k default d, dict_remove k d).

(** [d[k] = v]: an existing key keeps its position, a new one goes last. *)
Fixpoint dict_set (k : string) (v : value) (d : dict) : dict :=
  match d with
  | [] => [(k, v)]
  | (k', v') :: d' =>
      if String.eqb k k' then (k, v) :: d' else (k', v') :: dict_set k v d'
  end.

(** [d.values()], [d.keys()] in iteration order. *)
Definition dict_values (d : dict) : list value := map snd d.
Definition dict_keys (d : dict) : list string := map fst d.

(** The elements a [for] loop over [v] visits; a string yields its
    one-character strings, a dictionary its keys. *)
Fixpoint chars (s : string) : list value :=
  match s with
  | EmptyString => []
  | String c s' => PStr (String c EmptyString) :: chars s'
  end.

Definition iter (v : value) : result (list value) :=
  match v with
  | PList l => Ok l
  | PStr s => Ok (chars s)
  | PDict d => Ok (map PStr (dict_keys d))
  | _ => Raise TypeError
  end.

End Py.
Import Py.

(* ================================================================== *)
(** ** parser.py: reconciling the reply shapes *)

(** Lines 121-135 of [extract_production_data]: the value bound to [items]
    for a parsed reply. *)
Definition select_items (parsed_data : value) : value :=
  match parsed_data with
  | PDict d =>
      match dict_get "items" d with
      | Some v => v
      | None =>
          match dict_get "production_items" d with
          | Some v => v
          | None =>
              match find is_list (dict_values d) with
              | Some v => v
              | None => PList [parsed_data]
              end
          end
      end
  | _ => parsed_data
  end.

(** Lines 121-138: [items] is returned once [len(items)] has been logged;
    an object without a length makes that line raise. *)
Definition normalize_reply (parsed_data : value) : result value :=
  let items := select_items parsed_data in
  _ <- len items ;;
  Ok items.

(* ================================================================== *)
(** ** models.py: field validation *)

(** The library's lax validator of an [int] field on an input other than
    [None]: which floats, strings and booleans it coerces is the
    library's business, so it is an interface the development is
    parametric in. *)
Class LaxInt : Type := lax_int : value -> option Z.

(** [Optional[T]]: [None] is kept, anything else goes to [T]'s validator. *)
Definition validate_optional {A : Type} (inner : value -> option A)
    (v : value) : option (option A) :=
  match v with
  | PNone => Some None
  | _ => option_map Some (inner v)
  end.

(** [str]: only a string is a valid string. *)
Definition validate_str (v : value) : option string :=
  match v with PStr s => Some s | _ => None end.

(** [Dict[str, Any]]: any dictionary (its keys are strings already). *)
Definition validate_dict_any (v : value) : option dict :=
  match v with PDict d => Some d | _ => None end.

(** [Dict[str, str]]: a dictionary whose values are all strings. *)
Fixpoint validate_str_items (d : dict) : option (list (string * string)) :=
  match d with
  | [] => Some []
  | (k, v) :: d' =>
      match validate_str v, validate_str_items d' with
      | Some s, Some r => Some ((k, s) :: r)
      | _, _ => None
      end
  end.

Definition validate_dict_str (v : value) : option (list (string * string)) :=
  match v with PDict d => validate_str_items d | _ => None end.

(** A keyword argument that was not passed takes the field's default. *)
Definition field {A : Type} (validate : value -> option A) (default : A)
    (name : string) (kwargs : dict) : option A :=
  match dict_get name kwargs with
  | Some v => validate v
  | None => Some default
  end.

(** Unpacking [v] into keyword arguments: [v] must be a mapping. *)
Definition kwargs_of (v : value) : result dict :=
  match v with PDict d => Ok d | _ => Raise TypeError end.

Definition dump_str (o : option string) : value :=
  match o with Some s => PStr s | None => PNone end.

(** ** models.py: [ProductionDates] *)

Module ProductionDates.

Record t : Type := Build {
  fabric : option string;
  cutting : option string;
  sewing : option string;
  finishing : option string;
  packing : option string;
  shipping : option string;
  delivery : option string;
  other_milestones : option (list (string * string));
  model_fields_set : list string
}.

Definition field_names : list string :=
  ["fabric"; "cutting"; "sewing"; "finishing"; "packing"; "shipping";
   "delivery"; "other_milestones"].

(** [ProductionDates()]: every field at its default, none set. *)
Definition default : t :=
  Build None None None None None None None (Some []) [].

(** [ProductionDates] called with keyword arguments [kwargs]; keys that
    name no field are ignored. *)
Definition init (kwargs : dict) : result t :=
  let date := field (validate_optional validate_str) None in
  match date "fabric" kwargs, date "cutting" kwargs, date "sewing" kwargs,
        date "finishing" kwargs, date "packing" kwargs,
        date "shipping" kwargs, date "delivery" kwargs,
        field (validate_optional validate_dict_str) (Some [])
          "other_milestones" kwargs with
  | Some fa, Some cu, Some se, Some fi, Some pa, Some sh, Some de, Some om =>
      Ok (Build fa cu se fi pa sh de om
            (filter (fun n => dict_contains n kwargs) field_names))
  | _, _, _, _, _, _, _, _ => Raise ValidationError
  end.

(** [model_dump(exclude_unset=True)]. *)
Definition model_dump_exclude_unset (m : t) : dict :=
  filter (fun kv => existsb (String.eqb (fst kv)) (model_fields_set m))
    [("fabric", dump_str (fabric m));
     ("cutting", dump_str (cutting m));
     ("sewing", dump_str (sewing m));
     ("finishing", dump_str (finishing m));
     ("packing", dump_str (packing m));
     ("shipping", dump_str (shipping m));
     ("delivery", dump_str (delivery m));
     ("other_milestones",
       match other_milestones m with
       | Some l => PDict (map (fun ks => (fst ks, PStr (snd ks))) l)
       | None => PNone
       end)].

End ProductionDates.

(** ** models.py: [ProductionItemCreate] *)

Module ProductionItemCreate.

Record t : Type := Build {
  order_number : option string;
  style : option string;
  fabric : option string;
  color : option string;
  quantity : option Z;
  status : option string;
  dates : option ProductionDates.t;
  source_file : option string;
  additional_data : option dict;
  model_fields_set : list string
}.

Definition field_names : list string :=
  ["order_number"; "style"; "fabric"; "color"; "quantity"; "status";
   "dates"; "source_file"; "additional_data"].

(** The call of line 172: all nine fields are passed by keyword, [dates]
    as a model instance and [source_file] as a string. *)
Definition init {LI : LaxInt}
    (order_number style fabric color quantity status : value)
    (dates : ProductionDates.t) (source_file : string)
    (additional_data : value) : result t :=
  match validate_optional validate_str order_number,
        validate_optional validate_str style,
        validate_optional validate_str fabric,
        validate_optional validate_str color,
        validate_optional lax_int quantity,
        validate_optional validate_str status,
        validate_optional validate_dict_any additional_data with
  | Some o, Some s, Some f, Some c, Some q, Some st, Some ad =>
      Ok (Build o s f c q st (Some dates) (Some source_file) ad field_names)
  | _, _, _, _, _, _, _ => Raise ValidationError
  end.

(** [model_dump(exclude_unset=True)]. *)
Definition model_dump_exclude_unset (m : t) : dict :=
  filter (fun kv => existsb (String.eqb (fst kv)) (model_fields_set m))
    [("order_number", dump_str (order_number m));
     ("style", dump_str (style m));
     ("fabric", dump_str (fabric m));
     ("color", dump_str (color m));
     ("quantity", match quantity m with Some z => PInt z | None => PNone end);
     ("status", dump_str (status m));
     ("dates",
       match dates m with
       | Some d => PDict (ProductionDates.model_dump_exclude_unset d)
       | None => PNone
       end);
     ("source_file", dump_str (source_file m));
     ("additional_data",
       match additional_data m with Some d => PDict d | None => PNone end)].

End ProductionItemCreate.

(* ================================================================== *)
(** ** parser.py: materializing the records *)

Section Materializer.

Context {LI : LaxInt}.

(** Lines 164-182, the body of the [try]: one raw item to one record. *)
Definition construct (filename : string) (item_data : value)
    : result ProductionItemCreate.t :=
  match item_data with
  | PDict d =>
      let (dates_data, item_data) := dict_pop "dates" (PDict []) d in
      dates <- (if truthy dates_data
                then kw <- kwargs_of dates_data ;; ProductionDates.init kw
                else ProductionDates.init []) ;;
      ProductionItemCreate.init
        (dict_get_default "order_number" PNone item_data)
        (dict_get_default "style" PNone item_data)
        (dict_get_default "fabric" PNone item_data)
        (dict_get_default "color" PNone item_data)
        (dict_get_default "quantity" PNone item_data)
        (dict_get_default "status" (PStr "pending") item_data)
        dates
        filename
        (dict_get_default "additional_data" (PDict []) item_data)
  | PList _ => Raise TypeError
  | _ => Raise AttributeError
  end.

(** Lines 162-188: the loop; an exception in the body is logged and the
    loop goes on with the next item. *)
Fixpoint materialize_loop (filename : string) (extracted_items : list value)
    (production_items : list ProductionItemCreate.t)
    : list ProductionItemCreate.t :=
  match extracted_items with
  | [] => production_items
  | item_data :: rest =>
      match construct filename item_data with
      | Ok production_item =>
          materialize_loop filename rest (production_items ++ [production_item])
      | Raise _ => materialize_loop filename rest production_items
      end
  end.

(** Step 4 of [parse_excel_to_production_items] (lines 161-191). *)
Definition materialize (filename : string) (extracted_items : value)
    : result (list ProductionItemCreate.t) :=
  l <- iter extracted_items ;;
  Ok (materialize_loop filename l []).

(** The whole pipeline, over what the spreadsheet reader, the oracle and
    the JSON decoder give. *)
Section Pipeline.

Variable DataFrame : Type.
Variable read_excel_file : string -> string -> result DataFrame.
Variable dataframe_to_text : DataFrame -> string.
Variable chat_completion : string -> result string.
Variable json_loads : string -> result value.

Definition extract_production_data (excel_text : string) : result value :=
  reply <- chat_completion excel_text ;;
  parsed_data <- json_loads reply ;;
  normalize_reply parsed_data.

Definition parse_excel_to_production_items (file_content filename : string)
    : result (list ProductionItemCreate.t) :=
  df <- read_excel_file file_content filename ;;
  extracted_items <- extract_production_data (dataframe_to_text df) ;;
  materialize filename extracted_items.

End Pipeline.

End Materializer.

(** The validator used to run the code on concrete inputs: it takes the
    exact integers and nothing else. *)
#[export] Instance int_exact : LaxInt :=
  fun v => match v with PInt z => Some z | _ => None end.

(* ================================================================== *)
(** ** Object identifiers (the [bson] library) *)

Definition hex_digit (c : ascii) : option nat :=
  let n := nat_of_ascii c in
  if (48 <=? n) && (n <=? 57) then Some (n - 48)
  else if (97 <=? n) && (n <=? 102) then Some (n - 87)
  else if (65 <=? n) && (n <=? 70) then Some (n - 55)
  else None.

Definition is_space (c : ascii) : bool :=
  let n := nat_of_ascii c in
  (n =? 32) || ((9 <=? n) && (n <=? 13)).

(** [bytes.fromhex]: pairs of hexadecimal digits, white space skipped
    between the pairs. *)
Fixpoint fromhex (s : string) : option (list nat) :=
  match s with
  | EmptyString => Some []
  | String c s' =>
      if is_space c then fromhex s'
      else
        match s' with
        | EmptyString => None
        | String c' s'' =>
            match hex_digit c, hex_digit c', fromhex s'' with
            | Some top, Some bot, Some r => Some (16 * top + bot :: r)
            | _, _, _ => None
            end
        end
  end.

(** [ObjectId(oid)] for a string: 24 characters that decode as
    hexadecimal, or [InvalidId]. *)
Definition ObjectId_of_str (oid : string) : result ObjectId :=
  if String.length oid =? 24
  then match fromhex oid with
       | Some b => Ok b
       | None => Raise InvalidId
       end
  else Raise InvalidId.

Definition hex_char (n : nat) : ascii :=
  if n <? 10 then ascii_of_nat (48 + n) else ascii_of_nat (87 + n).

(** [str(oid)]: two lower-case hexadecimal digits a byte. *)
Fixpoint str_of_ObjectId (o : ObjectId) : string :=
  match o with
  | [] => EmptyString
  | b :: o' =>
      String (hex_char (b / 16)) (String (hex_char (b mod 16))
        (str_of_ObjectId o'))
  end.

(* ================================================================== *)
(** ** The document store *)

(** Structural equality of values. *)
Definition float_eqb (x y : spec_float) : bool :=
  match x, y with
  | S754_zero a, S754_zero b => Bool.eqb a b
  | S754_infinity a, S754_infinity b => Bool.eqb a b
  | S754_nan, S754_nan => true
  | S754_finite a m e, S754_finite b m' e' =>
      Bool.eqb a b && Pos.eqb m m' && Z.eqb e e'
  | _, _ => false
  end.

Fixpoint list_eqb {A : Type} (eqb : A -> A -> bool) (l1 l2 : list A) : bool :=
  match l1, l2 with
  | [], [] => true
  | x :: l1', y :: l2' => eqb x y && list_eqb eqb l1' l2'
  | _, _ => false
  end.

Fixpoint value_eqb (a b : value) {struct a} : bool :=
  match a, b with
  | PNone, PNone => true
  | PBool x, PBool y => Bool.eqb x y
  | PInt x, PInt y => Z.eqb x y
  | PFloat x, PFloat y => float_eqb x y
  | PStr x, PStr y => String.eqb x y
  | PList l1, PList l2 =>
      (fix go (l1 l2 : list value) {struct l1} : bool :=
         match l1, l2 with
         | [], [] => true
         | x :: l1', y :: l2' => value_eqb x y && go l1' l2'
         | _, _ => false
         end) l1 l2
  | PDict d1, PDict d2 =>
      (fix go (d1 d2 : list (string * value)) {struct d1} : bool :=
         match d1, d2 with
         | [], [] => true
         | kv1 :: d1', kv2 :: d2' =>
             String.eqb (fst kv1) (fst kv2)
             && value_eqb (snd kv1) (snd kv2) && go d1' d2'
         | _, _ => false
         end) d1 d2
  | PDatetime x, PDatetime y => Z.eqb x y
  | POid x, POid y => list_eqb Nat.eqb x y
  | _, _ => false
  end.

(** A stored document: the identifier the driver gave it and its other
    fields. *)
Record document : Type := Document {
  _id : ObjectId;
  fields : dict
}.

(** The document as the driver hands it back: [_id] first. *)
Definition as_dict (d : document) : dict :=
  ("_id", POid (_id d)) :: fields d.

(** The date a document was created at, when it holds one. *)
Definition created_at_of (d : document) : option Z :=
  match dict_get "created_at" (fields d) with
  | Some (PDatetime t) => Some t
  | _ => None
  end.

(** Of two documents that both hold a date, the first is not the older. *)
Definition newer_first (a b : document) : Prop :=
  forall x y, created_at_of a = Some x -> created_at_of b = Some y ->
              (y <= x)%Z.

(** What the code relies on from the store's query engine: its regular
    expressions, compiled case-insensitively ([None]: the pattern is
    refused), and the order [sort("created_at", -1)] puts documents in.
    The code sorts on [created_at] alone, so the order among documents
    with the same date (or with none) is the store's choice and need not
    be the same from one call to the next: the order takes the number of
    the call. *)
Class Engine : Type := {
  regex : Type;
  compile_i : string -> option regex;
  search : regex -> string -> bool;
  sort_created_at_desc : nat -> list document -> list document;
  sort_created_at_desc_perm :
    forall n l, Permutation (sort_created_at_desc n l) l;
  sort_created_at_desc_sorted :
    forall n l, StronglySorted newer_first (sort_created_at_desc n l)
}.

(** A condition on one field: [{"$regex": p, "$options": "i"}] or the
    string the field must equal. *)
Inductive cond : Type :=
| RegexI (pattern : string)
| Equals (s : string).

Definition query := list (string * cond).

Section Store.

Context {E : Engine}.

Inductive compiled_cond : Type :=
| CRegex (r : regex)
| CEquals (s : string).

Fixpoint compile_query (q : query) : option (list (string * compiled_cond)) :=
  match q with
  | [] => Some []
  | (f, c) :: q' =>
      match (match c with
             | RegexI p => option_map CRegex (compile_i p)
             | Equals s => Some (CEquals s)
             end), compile_query q' with
      | Some cc, Some r => Some ((f, cc) :: r)
      | _, _ => None
      end
  end.

(** A field satisfies a condition by its own value or, when it holds an
    array, by one of the array's elements. *)
Definition str_satisfies (c : compiled_cond) (v : value) : bool :=
  match v with
  | PStr s =>
      match c with
      | CRegex r => search r s
      | CEquals s' => String.eqb s' s
      end
  | _ => false
  end.

Definition satisfies (c : compiled_cond) (field : option value) : bool :=
  match field with
  | Some (PList l) => existsb (str_satisfies c) l
  | Some v => str_satisfies c v
  | None => false
  end.

Definition doc_matches (cq : list (string * compiled_cond)) (d : document)
    : bool :=
  forallb (fun fc => satisfies (snd fc) (dict_get (fst fc) (fields d))) cq.

End Store.

(** What the code relies on from the driver and the store when it
    writes. The driver encodes every document it sends and raises on a
    value it cannot encode (an integer that does not fit 64 bits raises
    [OverflowError]). The store decides which field paths a [$set] may
    name, and what it makes of the value of a field when the path goes
    below it (through embedded documents and arrays). *)
Class Writes : Type := {
  encode : dict -> result unit;
  takes_path : list string -> bool;
  set_below : list string -> value -> option value -> result value
}.

(* ================================================================== *)
(** ** The world the gateway runs in *)

(** The methods of the collection the code calls. *)
Inductive call : Type :=
| insert_one
| insert_many
| find_one
| count_documents
| find
| update_one
| delete_one
| delete_many.

(** The clock as the sequence of its readings, the supply of identifiers
    of the driver, the stored documents in insertion order, and the calls
    made to the store so far (the latest last). *)
Record World : Type := MkWorld {
  clock : nat -> Z;
  reads : nat;
  fresh : nat -> ObjectId;
  issued : nat;
  collection : list document;
  calls : list call
}.

(** Code that reads and changes the world and may raise. *)
Definition M (A : Type) : Type := World -> result A * World.

Definition ret {A : Type} (a : A) : M A := fun w => (Ok a, w).

Definition raise {A : Type} (e : exn) : M A := fun w => (Raise e, w).

Definition bindM {A B : Type} (m : M A) (k : A -> M B) : M B :=
  fun w =>
    match m w with
    | (Ok a, w') => k a w'
    | (Raise e, w') => (Raise e, w')
    end.

Notation "x <~ m ;; k" := (bindM m (fun x => k))
  (at level 61, m at next level, right associativity).

Definition lift {A : Type} (r : result A) : M A := fun w => (r, w).

(** [try: m except Exception: return a]. *)
Definition try_except {A : Type} (m : M A) (a : A) : M A :=
  fun w =>
    match m w with
    | (Ok x, w') => (Ok x, w')
    | (Raise _, w') => (Ok a, w')
    end.

(** [datetime.utcnow()]: the next reading of the clock. *)
Definition utcnow : M value :=
  fun w =>
    (Ok (PDatetime (clock w (reads w))),
     MkWorld (clock w) (S (reads w)) (fresh w) (issued w)
       (collection w) (calls w)).

Definition called (c : call) : M unit :=
  fun w =>
    (Ok tt,
     MkWorld (clock w) (reads w) (fresh w) (issued w)
       (collection w) (calls w ++ [c])).

Definition get_collection : M (list document) :=
  fun w => (Ok (collection w), w).

(** The number of calls made to the store so far. *)
Definition call_count : M nat :=
  fun w => (Ok (List.length (calls w)), w).

Definition put_collection (l : list document) : M unit :=
  fun w =>
    (Ok tt, MkWorld (clock w) (reads w) (fresh w) (issued w) l (calls w)).

(** [ObjectId()]: the next identifier of the driver. *)
Definition new_ObjectId : M ObjectId :=
  fun w =>
    (Ok (fresh w (issued w)),
     MkWorld (clock w) (reads w) (fresh w) (S (issued w))
       (collection w) (calls w)).

(** *** The collection's methods *)

Section Writing.

Context {W : Writes}.

(** [insert_one(doc)] for a document without [_id]: the driver gives it a
    new identifier, then encodes it and sends it; returns [inserted_id].
    A document the driver cannot encode is not sent. *)
Definition collection_insert_one (doc : dict) : M ObjectId :=
  _ <~ called insert_one ;;
  oid <~ new_ObjectId ;;
  _ <~ lift (encode doc) ;;
  l <~ get_collection ;;
  _ <~ put_collection (l ++ [Document oid doc]) ;;
  ret oid.

(** The driver gives every document of a batch its identifier. *)
Fixpoint assign_ids (docs : list dict) : M (list document) :=
  match docs with
  | [] => ret []
  | doc :: docs' =>
      oid <~ new_ObjectId ;;
      ds <~ assign_ids docs' ;;
      ret (Document oid doc :: ds)
  end.

Fixpoint encode_all (docs : list dict) : result unit :=
  match docs with
  | [] => Ok tt
  | doc :: docs' => _ <- encode doc ;; encode_all docs'
  end.

(** [insert_many(docs)]; returns [inserted_ids]. The identifiers are
    given first, then the batch is encoded into one message and sent: a
    document the driver cannot encode stops the batch before anything is
    sent. *)
Definition collection_insert_many (docs : list dict) : M (list ObjectId) :=
  _ <~ called insert_many ;;
  new <~ assign_ids docs ;;
  _ <~ lift (encode_all docs) ;;
  l <~ get_collection ;;
  _ <~ put_collection (l ++ new) ;;
  ret (map _id new).

End Writing.

Definition has_id (oid : ObjectId) (d : document) : bool :=
  list_eqb Nat.eqb oid (_id d).

(** [find_one({"_id": oid})]. *)
Definition collection_find_one (oid : ObjectId) : M (option dict) :=
  _ <~ called find_one ;;
  l <~ get_collection ;;
  ret (option_map as_dict (List.find (has_id oid) l)).

(** The key of a [$set] read as a field path: its components, which
    dots separate. *)
Fixpoint path_of (k : string) : list string :=
  match k with
  | EmptyString => [EmptyString]
  | String c k' =>
      if Ascii.eqb c "."
      then EmptyString :: path_of k'
      else match path_of k' with
           | [] => [String c EmptyString]
           | p :: ps => String c p :: ps
           end
  end.

(** The field of the document itself that a key addresses. *)
Definition top_of (k : string) : string := hd EmptyString (path_of k).

(** One path goes through the other. *)
Fixpoint is_prefix (p q : list string) : bool :=
  match p, q with
  | [], _ => true
  | x :: p', y :: q' => String.eqb x y && is_prefix p' q'
  | _ :: _, [] => false
  end.

(** Two keys of one [$set] of which one addresses a field on the path of
    the other: the store refuses the update. *)
Fixpoint conflicting (paths : list (list string)) : bool :=
  match paths with
  | [] => false
  | p :: paths' =>
      existsb (fun q => is_prefix p q || is_prefix q p) paths'
      || conflicting paths'
  end.

Section Setting.

Context {W : Writes}.

(** One key of a [$set] applied to the fields of the document with
    identifier [oid]. [_id] cannot change. A key that names a field of
    the document sets it, at its place or as the last field; a path
    below a field sets the field to what the store makes of its value. *)
Definition set_field (oid : ObjectId) (k : string) (v : value) (f : dict)
    : result dict :=
  match path_of k with
  | [] => Raise OperationFailure
  | top :: rest =>
      if negb (takes_path (top :: rest)) then Raise OperationFailure
      else if String.eqb top "_id"
      then match rest with
           | [] => if value_eqb v (POid oid) then Ok f
                   else Raise OperationFailure
           | _ :: _ => Raise OperationFailure
           end
      else match rest with
           | [] => Ok (dict_set top v f)
           | _ :: _ =>
               new <- set_below rest v (dict_get top f) ;;
               Ok (dict_set top new f)
           end
  end.

Fixpoint set_fields (oid : ObjectId) (update : dict) (f : dict)
    : result dict :=
  match update with
  | [] => Ok f
  | (k, v) :: update' =>
      f' <- set_field oid k v f ;;
      set_fields oid update' f'
  end.

(** [{"$set": update}] applied to a document. *)
Definition apply_set (update : dict) (d : document) : result document :=
  if conflicting (map path_of (dict_keys update))
  then Raise OperationFailure
  else f <- set_fields (_id d) update (fields d) ;;
       Ok (Document (_id d) f).

Definition document_eqb (a b : document) : bool :=
  value_eqb (PDict (as_dict a)) (PDict (as_dict b)).

(** The first document with identifier [oid] replaced by its update: the
    new collection and [modified_count]. *)
Fixpoint update_first (oid : ObjectId) (update : dict) (l : list document)
    : result (list document * nat) :=
  match l with
  | [] => Ok ([], 0)
  | d :: l' =>
      if has_id oid d
      then d' <- apply_set update d ;;
           Ok (d' :: l', if document_eqb d d' then 0 else 1)
      else r <- update_first oid update l' ;;
           Ok (d :: fst r, snd r)
  end.

(** [update_one({"_id": oid}, {"$set": update})]; returns
    [modified_count]. The driver encodes the update before it sends
    it. *)
Definition collection_update_one (oid : ObjectId) (update : dict) : M nat :=
  _ <~ called update_one ;;
  _ <~ lift (encode update) ;;
  l <~ get_collection ;;
  r <~ lift (update_first oid update l) ;;
  _ <~ put_collection (fst r) ;;
  ret (snd r).

End Setting.

Fixpoint delete_first (oid : ObjectId) (l : list document)
    : list document * nat :=
  match l with
  | [] => ([], 0)
  | d :: l' =>
      if has_id oid d then (l', 1)
      else let r := delete_first oid l' in (d :: fst r, snd r)
  end.

(** [delete_one({"_id": oid})]; returns [deleted_count]. *)
Definition collection_delete_one (oid : ObjectId) : M nat :=
  _ <~ called delete_one ;;
  l <~ get_collection ;;
  let r := delete_first oid l in
  _ <~ put_collection (fst r) ;;
  ret (snd r).

(** [delete_many({})]; returns [deleted_count]. *)
Definition collection_delete_many : M nat :=
  _ <~ called delete_many ;;
  l <~ get_collection ;;
  _ <~ put_collection [] ;;
  ret (List.length l).

Section Queries.

Context {E : Engine}.

(** [count_documents(query)]. *)
Definition collection_count_documents (q : query) : M nat :=
  _ <~ called count_documents ;;
  l <~ get_collection ;;
  match compile_query q with
  | Some cq => ret (List.length (filter (doc_matches cq) l))
  | None => raise OperationFailure
  end.

(** [find(query).skip(skip).limit(limit).sort("created_at", -1)] read
    with [to_list(length=limit)]: the cursor refuses a negative [skip]
    when it is built, [to_list] a negative length, and the store sorts
    before it skips and limits, in the order it has for this call. *)
Definition collection_find_page (q : query) (skip limit : Z)
    : M (list dict) :=
  if (skip <? 0)%Z then raise ValueError
  else if (limit <? 0)%Z then raise ValueError
  else
    n <~ call_count ;;
    _ <~ called find ;;
    l <~ get_collection ;;
    match compile_query q with
    | Some cq =>
        ret (map as_dict
               (firstn (Z.to_nat limit)
                  (List.skipn (Z.to_nat skip)
                     (sort_created_at_desc n
                        (filter (doc_matches cq) l)))))
    | None => raise OperationFailure
    end.

End Queries.

(* ================================================================== *)
(** ** database.py *)

Module Database.

(** Lines 21-23 and 31-34: the dump of an item, stamped. *)
Definition stamped (item : ProductionItemCreate.t) : M dict :=
  let item_dict := ProductionItemCreate.model_dump_exclude_unset item in
  t <~ utcnow ;;
  let item_dict := dict_set "created_at" t item_dict in
  t <~ utcnow ;;
  let item_dict := dict_set "updated_at" t item_dict in
  ret item_dict.

Definition create_production_item {W : Writes}
    (item : ProductionItemCreate.t) : M string :=
  item_dict <~ stamped item ;;
  inserted_id <~ collection_insert_one item_dict ;;
  ret (str_of_ObjectId inserted_id).

(** Lines 29-34: the loop that fills [items_dict]. *)
Fixpoint stamp_all (items : list ProductionItemCreate.t)
    (items_dict : list dict) : M (list dict) :=
  match items with
  | [] => ret items_dict
  | item :: items' =>
      item_dict <~ stamped item ;;
      stamp_all items' (items_dict ++ [item_dict])
  end.

Definition create_many_production_items {W : Writes}
    (items : list ProductionItemCreate.t) : M (list string) :=
  items_dict <~ stamp_all items [] ;;
  match items_dict with
  | [] => ret []
  | _ =>
      inserted_ids <~ collection_insert_many items_dict ;;
      ret (map str_of_ObjectId inserted_ids)
  end.

(** [item["_id"] = str(item["_id"])]. *)
Definition id_to_str (item : dict) : dict :=
  match dict_get "_id" item with
  | Some (POid o) => dict_set "_id" (PStr (str_of_ObjectId o)) item
  | _ => item
  end.

Definition get_production_item (item_id : string) : M (option dict) :=
  try_except
    (oid <~ lift (ObjectId_of_str item_id) ;;
     item <~ collection_find_one oid ;;
     ret (option_map id_to_str item))
    None.

(** [if style:] on an optional string: set and not empty. *)
Definition given (o : option string) : option string :=
  match o with
  | Some s => if truthy (PStr s) then Some s else None
  | None => None
  end.

(** Lines 56-64: the query built from the filters. *)
Definition build_query (style status order_number : option string) : query :=
  (match given style with
   | Some s => [("style", RegexI s)]
   | None => []
   end)
  ++ (match given status with
      | Some s => [("status", Equals s)]
      | None => []
      end)
  ++ (match given order_number with
      | Some s => [("order_number", RegexI s)]
      | None => []
      end).

Definition get_production_items {E : Engine} (skip limit : Z)
    (style status order_number : option string) : M (list dict * nat) :=
  let query := build_query style status order_number in
  total <~ collection_count_documents query ;;
  items <~ collection_find_page query skip limit ;;
  ret (map id_to_str items, total).

Definition update_production_item {W : Writes} (item_id : string)
    (update_data : dict) : M bool :=
  try_except
    (t <~ utcnow ;;
     let update_data := dict_set "updated_at" t update_data in
     oid <~ lift (ObjectId_of_str item_id) ;;
     modified_count <~ collection_update_one oid update_data ;;
     ret (0 <? modified_count))
    false.

Definition delete_production_item (item_id : string) : M bool :=
  try_except
    (oid <~ lift (ObjectId_of_str item_id) ;;
     deleted_count <~ collection_delete_one oid ;;
     ret (0 <? deleted_count))
    false.

Definition delete_all_production_items : M nat :=
  collection_delete_many.

End Database.

(* ================================================================== *)
(** ** A reference query engine *)

(** The fragment of the store's regular expressions made of literal
    characters and the dot, matched case-insensitively over 7-bit
    characters. A pattern with any other metacharacter, or with a
    character that is not printable ASCII, is outside the fragment and
    is not compiled. *)
Module Pcre.

Inductive atom : Type :=
| Lit (c : ascii)
| AnyChar.

Definition metacharacters : list ascii :=
  ["\"; "^"; "$"; "."; "["; "]"; "|"; "("; ")"; "?"; "*"; "+"; "{"; "}"]%char.

Definition printable (c : ascii) : bool :=
  (32 <=? nat_of_ascii c) && (nat_of_ascii c <=? 126).

(** A character that stands for itself in a pattern. *)
Definition plain (c : ascii) : bool :=
  printable c && negb (existsb (Ascii.eqb c) metacharacters).

Definition lower (c : ascii) : ascii :=
  let n := nat_of_ascii c in
  if (65 <=? n) && (n <=? 90) then ascii_of_nat (n + 32) else c.

Fixpoint compile_i (pattern : string) : option (list atom) :=
  match pattern with
  | EmptyString => Some []
  | String c p' =>
      match (if Ascii.eqb c "." then Some AnyChar
             else if plain c then Some (Lit (lower c)) else None),
            compile_i p' with
      | Some a, Some r => Some (a :: r)
      | _, _ => None
      end
  end.

Definition atom_matches (a : atom) (c : ascii) : bool :=
  match a with
  | Lit l => Ascii.eqb (lower c) l
  | AnyChar => negb (Ascii.eqb c "010")
  end.

(** The pattern matches at the start of the subject. *)
Fixpoint match_here (r : list atom) (s : string) : bool :=
  match r, s with
  | [], _ => true
  | a :: r', String c s' => atom_matches a c && match_here r' s'
  | _ :: _, EmptyString => false
  end.

(** The pattern matches somewhere in the subject. *)
Fixpoint search (r : list atom) (s : string) : bool :=
  match_here r s
  || match s with
     | EmptyString => false
     | String _ s' => search r s'
     end.

End Pcre.

(** Documents by decreasing [created_at], by insertion, the same at
    every call; documents with the same date keep their order, and those
    with none come last. *)
Definition newer_or_same (a b : document) : bool :=
  match created_at_of a, created_at_of b with
  | Some x, Some y => (y <=? x)%Z
  | Some _, None => true
  | None, Some _ => false
  | None, None => true
  end.

Fixpoint insert_desc (d : document) (l : list document) : list document :=
  match l with
  | [] => [d]
  | d' :: l' =>
      if newer_or_same d d' then d :: d' :: l' else d' :: insert_desc d l'
  end.

Fixpoint sort_desc (l : list document) : list document :=
  match l with
  | [] => []
  | d :: l' => insert_desc d (sort_desc l')
  end.

Lemma insert_desc_perm (d : document) (l : list document) :
  Permutation (insert_desc d l) (d :: l).
Proof.
  induction l as [|d' l' IH]; simpl.
  - apply Permutation_refl.
  - destruct (newer_or_same d d').
    + apply Permutation_refl.
    + eapply Permutation_trans.
      * apply perm_skip, IH.
      * apply perm_swap.
Qed.

Lemma sort_desc_perm (l : list document) : Permutation (sort_desc l) l.
Proof.
  induction l as [|d l' IH]; simpl.
  - constructor.
  - eapply Permutation_trans.
    + apply insert_desc_perm.
    + apply perm_skip, IH.
Qed.

Lemma newer_or_same_trans (a b c : document) :
  newer_or_same a b = true -> newer_or_same b c = true ->
  newer_or_same a c = true.
Proof.
  unfold newer_or_same.
  destruct (created_at_of a), (created_at_of b), (created_at_of c);
    try discriminate; try reflexivity.
  rewrite !Z.leb_le. lia.
Qed.

Lemma newer_or_same_total (a b : document) :
  newer_or_same a b = false -> newer_or_same b a = true.
Proof.
  unfold newer_or_same.
  destruct (created_at_of a), (created_at_of b);
    try discriminate; try reflexivity.
  rewrite Z.leb_gt, Z.leb_le. lia.
Qed.

Lemma insert_desc_sorted (d : document) (l : list document) :
  StronglySorted (fun a b => newer_or_same a b = true) l ->
  StronglySorted (fun a b => newer_or_same a b = true) (insert_desc d l).
Proof.
  induction 1 as [|d' l' Hs IH Hall]; simpl.
  - constructor; constructor.
  - destruct (newer_or_same d d') eqn:E.
    + constructor; [constructor; assumption|].
      constructor; [exact E|].
      eapply Forall_impl; [|exact Hall].
      intros c Hc. exact (newer_or_same_trans _ _ _ E Hc).
    + constructor; [exact IH|].
      apply (Permutation_Forall (Permutation_sym (insert_desc_perm d l'))).
      constructor; [exact (newer_or_same_total _ _ E)|exact Hall].
Qed.

Lemma sort_desc_sorted (l : list document) :
  StronglySorted newer_first (sort_desc l).
Proof.
  assert (H : StronglySorted (fun a b => newer_or_same a b = true)
                (sort_desc l)).
  { induction l as [|d l IH]; simpl; [constructor|].
    apply insert_desc_sorted. exact IH. }
  induction H as [|d l' Hs IH Hall]; constructor; [exact IH|].
  eapply Forall_impl; [|exact Hall].
  intros b Hb x y Hx Hy. unfold newer_or_same in Hb.
  rewrite Hx, Hy in Hb. apply Z.leb_le. exact Hb.
Qed.

#[export] Instance reference_engine : Engine := {
  regex := list Pcre.atom;
  compile_i := Pcre.compile_i;
  search := Pcre.search;
  sort_created_at_desc := fun _ => sort_desc;
  sort_created_at_desc_perm := fun _ => sort_desc_perm;
  sort_created_at_desc_sorted := fun _ => sort_desc_sorted
}.

(* ================================================================== *)
(** ** A reference for the writes *)

(** The driver encodes the integers that fit 64 bits. *)
Definition int64 (z : Z) : bool :=
  ((- 2 ^ 63 <=? z) && (z <? 2 ^ 63))%Z.

Fixpoint encodable (v : value) : bool :=
  match v with
  | PInt z => int64 z
  | PList l =>
      (fix go (l : list value) : bool :=
         match l with
         | [] => true
         | x :: l' => encodable x && go l'
         end) l
  | PDict d =>
      (fix go (d : list (string * value)) : bool :=
         match d with
         | [] => true
         | kv :: d' => encodable (snd kv) && go d'
         end) d
  | _ => true
  end.

(** A field name the store takes in a path: not empty, and no operator
    (no name that starts with [$]). *)
Definition field_name (k : string) : bool :=
  match k with
  | EmptyString => false
  | String c _ => negb (Ascii.eqb c "$")
  end.

(** [$set] below a field, through embedded documents: a document that is
    missing on the path is made, and anything else on the path (a null,
    a number, a string, a date) is refused. A path into an array is
    outside this fragment and is refused too. *)
Fixpoint set_in (path : list string) (v : value) (current : option value)
    : result value :=
  match path with
  | [] => Ok v
  | k :: path' =>
      match current with
      | None =>
          new <- set_in path' v None ;;
          Ok (PDict [(k, new)])
      | Some (PDict d) =>
          new <- set_in path' v (dict_get k d) ;;
          Ok (PDict (dict_set k new d))
      | Some _ => Raise OperationFailure
      end
  end.

Definition reference_writes : Writes := {|
  encode := fun doc =>
    if encodable (PDict doc) then Ok tt else Raise OverflowError;
  takes_path := forallb field_name;
  set_below := set_in
|}.

(* ================================================================== *)
(** ** models.py: [PyObjectId] *)

(** [PyObjectId.validate] on a string: [ObjectId.is_valid(v)] is whether
    [ObjectId(v)] does not raise. *)
Definition PyObjectId_validate (v : string) : result ObjectId :=
  if is_ok (ObjectId_of_str v) then ObjectId_of_str v else Raise ValueError.

(* ================================================================== *)
(** ** parser.py: the parser object, the digest and the pipeline *)

From Stdlib Require Import DecimalString.

(** What the pipeline takes from outside: [pandas.read_excel] on the
    uploaded bytes, the rendering [DataFrame.to_string], the chat
    completion for the prompts built around a digest (the content of its
    first choice, which may be [None]) and [json.loads]. *)
Record DataFrame : Type := MkFrame {
  columns : list value;
  rows : list (list value)
}.

Class Externals : Type := {
  read_excel : string -> result DataFrame;
  to_string : DataFrame -> string;
  chat_completion : string -> result (option string);
  json_loads : string -> result value
}.

Module Parser.

Record ProductionPlanParser : Type := MkParser {
  api_key : string;
  model : string
}.

(** [__init__]: [openai_api_key or os.getenv("OPENAI_API_KEY")], and a
    key that is [None] or empty is refused. *)
Definition init (openai_api_key env_OPENAI_API_KEY : option string)
    : result ProductionPlanParser :=
  let api_key :=
    match Database.given openai_api_key with
    | Some k => Some k
    | None => env_OPENAI_API_KEY
    end in
  match Database.given api_key with
  | Some k => Ok (MkParser k "gpt-4o-mini")
  | None => Raise ValueError
  end.

(** [df.head(n)]. *)
Definition head (n : nat) (df : DataFrame) : DataFrame :=
  MkFrame (columns df) (firstn n (rows df)).

(** [sep.join(items)]: every item must be a string. *)
Fixpoint str_items (items : list value) : result (list string) :=
  match items with
  | [] => Ok []
  | PStr s :: items' => r <- str_items items' ;; Ok (s :: r)
  | _ :: _ => Raise TypeError
  end.

Definition join (sep : string) (items : list value) : result string :=
  r <- str_items items ;;
  Ok (String.concat sep r).

(** A number as an f-string writes it. *)
Definition decimal (n : nat) : string :=
  NilEmpty.string_of_uint (Nat.to_uint n).

Definition newline : string := String "010" EmptyString.

Definition dataframe_to_text {X : Externals} (df : DataFrame)
    : result string :=
  names <- join ", " (columns df) ;;
  let text_parts :=
    ["Excel Data Summary:";
     ("Total Rows: " ++ decimal (List.length (rows df)))%string;
     ("Total Columns: " ++ decimal (List.length (columns df)))%string;
     (newline ++ "Column Names: " ++ names)%string;
     (newline ++ "First 10 rows of data:" ++ newline)%string] in
  let text_parts := text_parts ++ [to_string (head 10 df)] in
  Ok (String.concat newline text_parts).

(** Lines 103-142: the call, [len(result)] for the log, the decoding and
    the reconciliation of shapes; an exception is logged and raised
    again. *)
Definition extract_production_data {X : Externals} (excel_text : string)
    : result value :=
  content <- chat_completion excel_text ;;
  result <- match content with
            | Some s => Ok s
            | None => Raise TypeError
            end ;;
  parsed_data <- json_loads result ;;
  normalize_reply parsed_data.

Definition parse_excel_to_production_items {LI : LaxInt} {X : Externals}
    (file_content filename : string)
    : result (list ProductionItemCreate.t) :=
  df <- read_excel file_content ;;
  excel_text <- dataframe_to_text df ;;
  extracted_items <- extract_production_data excel_text ;;
  materialize filename extracted_items.

Definition parse_uploaded_file {LI : LaxInt} {X : Externals}
    (file_content filename : string)
    (openai_api_key env_OPENAI_API_KEY : option string)
    : result (list ProductionItemCreate.t) :=
  _ <- init openai_api_key env_OPENAI_API_KEY ;;
  parse_excel_to_production_items file_content filename.

End Parser.

(* ================================================================== *)
(** ** main.py *)

(** The validation of a stored document as a [ProductionItem], which the
    endpoints run on what the gateway returns. *)
Class ItemModel : Type := {
  ProductionItem : Type;
  ProductionItem_of : dict -> result ProductionItem
}.

Module Main.

(** The handles the module keeps: whether [client] and [database] are
    set, and the parser. *)
Record App : Type := MkApp {
  client : bool;
  database : bool;
  parser : option Parser.ProductionPlanParser
}.

(** The startup half of [lifespan]: [connects] is whether the client is
    built, [reachable] whether [server_info()] returns; an exception
    anywhere ends the block, logged. *)
Definition startup (connects reachable : bool)
    (OPENAI_API_KEY : option string) : App :=
  if negb connects then MkApp false false None
  else if negb reachable then MkApp true false None
  else
    match Database.given OPENAI_API_KEY with
    | Some _ =>
        match Parser.init OPENAI_API_KEY OPENAI_API_KEY with
        | Ok p => MkApp true true (Some p)
        | Raise _ => MkApp true true None
        end
    | None => MkApp true true None
    end.

(** What an endpoint answers: its value, or the [HTTPException] it
    raises. The detail of an internal error quotes the exception. *)
Inductive detail : Type :=
| Message (s : string)
| Quoting (prefix : string) (e : exn).

Inductive http (A : Type) : Type :=
| Reply (a : A)
| HTTPException (status_code : nat) (d : detail).

Arguments Reply {A} a.
Arguments HTTPException {A} status_code d.

Record FileUploadResponse : Type := MkUpload {
  message : string;
  filename : string;
  items_processed : nat;
  items_stored : nat;
  status : string;
  errors : option (list string)
}.

(** [s.endswith(suffix)]. *)
Fixpoint endswith (s suffix : string) : bool :=
  String.eqb s suffix
  || match s with
     | EmptyString => false
     | String _ s' => endswith s' suffix
     end.

Definition upload_file {LI : LaxInt} {X : Externals} {W : Writes}
    (app : App)
    (file_name file_content : string)
    : World -> http FileUploadResponse * World :=
  fun w =>
    if negb (endswith file_name ".xlsx" || endswith file_name ".xls")
    then (HTTPException 400
            (Message
               "Invalid file type. Please upload an Excel file (.xlsx or .xls)"),
          w)
    else
      match parser app with
      | None =>
          (HTTPException 503
             (Message "Parser not available. Please configure OpenAI API key."),
           w)
      | Some _ =>
          if negb (database app)
          then (HTTPException 503 (Message "Database not available."), w)
          else
            match Parser.parse_excel_to_production_items
                    file_content file_name with
            | Raise e =>
                (HTTPException 500 (Quoting "Error processing file: " e), w)
            | Ok [] =>
                (Reply
                   (MkUpload "No items found in file" file_name 0 0
                      "completed"
                      (Some
                         ["No production items could be extracted from the file"])),
                 w)
            | Ok production_items =>
                match Database.create_many_production_items
                        production_items w with
                | (Ok item_ids, w') =>
                    (Reply
                       (MkUpload "File processed successfully" file_name
                          (List.length production_items)
                          (List.length item_ids) "completed" None),
                     w')
                | (Raise e, w') =>
                    (HTTPException 500
                       (Quoting "Error processing file: " e), w')
                end
            end
      end.

Fixpoint to_models {IM : ItemModel} (items : list dict)
    : result (list ProductionItem) :=
  match items with
  | [] => Ok []
  | item :: items' =>
      m <- ProductionItem_of item ;;
      ms <- to_models items' ;;
      Ok (m :: ms)
  end.

Record ProductionItemsResponse {IM : ItemModel} : Type := MkItems {
  items : list ProductionItem;
  total : nat;
  skip : Z;
  limit : Z
}.

Arguments MkItems {IM} items total skip limit.

Definition get_production_items {E : Engine} {IM : ItemModel} (app : App)
    (skip limit : Z) (style status order_number : option string)
    : World -> http ProductionItemsResponse * World :=
  fun w =>
    if negb (database app)
    then (HTTPException 503 (Message "Database not available"), w)
    else
      match Database.get_production_items skip limit style status
              order_number w with
      | (Ok (items, total), w') =>
          match to_models items with
          | Ok production_items =>
              (Reply (MkItems production_items total skip limit), w')
          | Raise e =>
              (HTTPException 500 (Quoting "Error retrieving items: " e), w')
          end
      | (Raise e, w') =>
          (HTTPException 500 (Quoting "Error retrieving items: " e), w')
      end.

Definition get_production_item {IM : ItemModel} (app : App)
    (item_id : string) : World -> http ProductionItem * World :=
  fun w =>
    if negb (database app)
    then (HTTPException 503 (Message "Database not available"), w)
    else
      match Database.get_production_item item_id w with
      | (Ok None, w') =>
          (HTTPException 404
             (Message ("Production item " ++ item_id ++ " not found")%string),
           w')
      | (Ok (Some item), w') =>
          if negb (truthy (PDict item))
          then (HTTPException 404
                  (Message
                     ("Production item " ++ item_id ++ " not found")%string),
                w')
          else
            match ProductionItem_of item with
            | Ok m => (Reply m, w')
            | Raise e =>
                (HTTPException 500 (Quoting "Error retrieving item: " e), w')
            end
      | (Raise e, w') =>
          (HTTPException 500 (Quoting "Error retrieving item: " e), w')
      end.

(** The body of the answer of a deletion: [message] and [id]. *)
Definition delete_production_item (app : App) (item_id : string)
    : World -> http (string * string) * World :=
  fun w =>
    if negb (database app)
    then (HTTPException 503 (Message "Database not available"), w)
    else
      match Database.delete_production_item item_id w with
      | (Ok true, w') =>
          (Reply (("Item " ++ item_id ++ " deleted successfully")%string,
                  item_id), w')
      | (Ok false, w') =>
          (HTTPException 404
             (Message ("Production item " ++ item_id ++ " not found")%string),
           w')
      | (Raise e, w') =>
          (HTTPException 500 (Quoting "Error deleting item: " e), w')
      end.

End Main.

(* ================================================================== *)
(** * The vocabulary of the properties *)

(** ** The materializer *)

(** The dates [construct] builds from the value popped under [dates]. *)
Definition dates_of (dates_data : value) : result ProductionDates.t :=
  if truthy dates_data
  then kw <- kwargs_of dates_data ;; ProductionDates.init kw
  else ProductionDates.init [].

(** The records of the raw items that construct, in order. *)
Definition successes {LI : LaxInt} (filename : string) (l : list value)
    : list ProductionItemCreate.t :=
  flat_map (fun v => match construct filename v with
                     | Ok r => [r]
                     | Raise _ => []
                     end) l.

Definition fails {LI : LaxInt} (filename : string) (v : value) : bool :=
  negb (is_ok (construct filename v)).

Import Database.

(** ** Creation *)

(** The world after [n] more readings of the clock. *)
Definition advance (n : nat) (w : World) : World :=
  MkWorld (clock w) (n + reads w) (fresh w) (issued w)
    (collection w) (calls w).

(** The dump of [item] stamped with readings [n] and [n + 1]. *)
Definition stamp_at (w : World) (n : nat) (item : ProductionItemCreate.t)
    : dict :=
  dict_set "updated_at" (PDatetime (clock w (S n)))
    (dict_set "created_at" (PDatetime (clock w n))
       (ProductionItemCreate.model_dump_exclude_unset item)).

Fixpoint stamps_from (w : World) (n : nat)
    (items : list ProductionItemCreate.t) : list dict :=
  match items with
  | [] => []
  | item :: items' => stamp_at w n item :: stamps_from w (S (S n)) items'
  end.

(** ** A store with one record *)

Definition sample_oid : ObjectId :=
  [80; 127; 31; 119; 188; 248; 108; 215; 153; 67; 144; 17].

Definition sample_world : World :=
  MkWorld (fun n => Z.of_nat (10 * n)) 3 (fun n => repeat 0 11 ++ [n]) 1
    [Document sample_oid
       [("style", PStr "Classic-Fit"); ("status", PStr "pending");
        ("created_at", PDatetime 10); ("updated_at", PDatetime 20)]]
    [insert_one].

(** ** Queries *)

(** The documents a compiled query selects. *)
Definition matching {E : Engine} (cq : list (string * compiled_cond))
    (w : World) : list document :=
  filter (doc_matches cq) (collection w).

(** The order the store has for the listing run in [w]: the listing
    counts first, so its [find] is the call after the next. *)
Definition sorted_matching {E : Engine} (cq : list (string * compiled_cond))
    (w : World) : list document :=
  sort_created_at_desc (S (List.length (calls w))) (matching cq w).

(** The page the cursor gives for them. *)
Definition page_of {E : Engine} (cq : list (string * compiled_cond))
    (skip limit : Z) (w : World) : list document :=
  firstn (Z.to_nat limit)
    (List.skipn (Z.to_nat skip) (sorted_matching cq w)).

(** The documents all hold a date, no two the same. *)
Definition distinct_dates (l : list document) : Prop :=
  Forall (fun d => created_at_of d <> None) l
  /\ NoDup (map created_at_of l).

(** A pattern the reference engine takes literally: printable characters,
    none of them a metacharacter. *)
Fixpoint plain_text (s : string) : bool :=
  match s with
  | EmptyString => true
  | String c s' => Pcre.plain c && plain_text s'
  end.

Fixpoint ascii_only (s : string) : bool :=
  match s with
  | EmptyString => true
  | String c s' => (nat_of_ascii c <? 128) && ascii_only s'
  end.

Fixpoint lower_str (s : string) : string :=
  match s with
  | EmptyString => EmptyString
  | String c s' => String (Pcre.lower c) (lower_str s')
  end.

(** [s] contains [f] somewhere, the case of letters ignored. *)
Definition contains_icase (f s : string) : Prop :=
  exists pre post, lower_str s = (pre ++ lower_str f ++ post)%string.

(** A field of a record as [models.py] types it: absent, null or a string
    (here of 7-bit characters). *)
Definition text_field (v : option value) : bool :=
  match v with
  | None => true
  | Some PNone => true
  | Some (PStr s) => ascii_only s
  | Some _ => false
  end.

Definition record_typed (d : document) : bool :=
  text_field (dict_get "style" (fields d))
  && text_field (dict_get "status" (fields d))
  && text_field (dict_get "order_number" (fields d)).

(** Whether the query built from the filters selects [d]; [None] when the
    store refuses the query. *)
Definition selected {E : Engine} (style status order_number : option string)
    (d : document) : option bool :=
  option_map (fun cq => doc_matches cq d)
    (compile_query (build_query style status order_number)).

(** The filters read as the specification words them: a substring
    filter asks that the field contains it, the status filter that the
    field equals it, and a filter that is not given asks nothing. *)
Definition field_contains (k : string) (filter : option string)
    (d : document) : Prop :=
  match given filter with
  | Some f =>
      exists s, dict_get k (fields d) = Some (PStr s) /\ contains_icase f s
  | None => True
  end.

Definition field_equals (k : string) (filter : option string)
    (d : document) : Prop :=
  match given filter with
  | Some f => dict_get k (fields d) = Some (PStr f)
  | None => True
  end.

Definition plain_filter (filter : option string) : bool :=
  match filter with
  | Some f => plain_text f
  | None => true
  end.

(** The compiled form of a literal pattern. *)
Fixpoint literals (f : string) : list Pcre.atom :=
  match f with
  | EmptyString => []
  | String c f' => Pcre.Lit (Pcre.lower c) :: literals f'
  end.

(** The parts of the query the filters contribute. *)
Definition regex_part (k : string) (o : option string) : query :=
  match given o with Some s => [(k, RegexI s)] | None => [] end.

Definition equals_part (k : string) (o : option string) : query :=
  match given o with Some s => [(k, Equals s)] | None => [] end.

(** ** Timestamps *)

(** Successive readings of the clock do not go back. *)
Definition monotone (clk : nat -> Z) : Prop :=
  forall i j, i <= j -> (clk i <= clk j)%Z.

(** The two timestamps of a stored document. *)
Definition timestamps (d : document) : option (Z * Z) :=
  match dict_get "created_at" (fields d),
        dict_get "updated_at" (fields d) with
  | Some (PDatetime c), Some (PDatetime u) => Some (c, u)
  | _, _ => None
  end.

(** [created_at <= updated_at], and [updated_at] is not later than
    reading [n] of the clock. *)
Definition stamped_by (clk : nat -> Z) (n : nat) (d : document) : Prop :=
  exists c u, timestamps d = Some (c, u) /\ (c <= u)%Z /\ (u <= clk n)%Z.

(** The invariant of the store. *)
Definition well_stamped (w : World) : Prop :=
  Forall (stamped_by (clock w) (reads w)) (collection w).

(** The operations that change the store. *)
Inductive operation : Type :=
| Create (item : ProductionItemCreate.t)
| CreateMany (items : list ProductionItemCreate.t)
| Update (item_id : string) (update_data : dict)
| Delete (item_id : string)
| DeleteAll.

Definition run {W : Writes} (o : operation) (w : World) : World :=
  match o with
  | Create item => snd (create_production_item item w)
  | CreateMany items => snd (create_many_production_items items w)
  | Update item_id update_data =>
      snd (update_production_item item_id update_data w)
  | Delete item_id => snd (delete_production_item item_id w)
  | DeleteAll => snd (delete_all_production_items w)
  end.

(** A partial update that leaves [created_at] alone: none of its keys
    addresses that field, neither the field itself nor a path below
    it. *)
Definition keeps_created_at (update_data : dict) : Prop :=
  forall k, In k (dict_keys update_data) -> top_of k <> "created_at".


Definition admissible (o : operation) : Prop :=
  match o with
  | Update _ update_data => keeps_created_at update_data
  | _ => True
  end.


(** The new document is stamped with readings [n] and [n + 1] of the
    clock, [n] not before [lo], and the first is not after the second. *)
Definition created_at_reading (w : World) (lo : nat) (d : document) : Prop :=
  exists n,
    lo <= n
    /\ timestamps d = Some (clock w n, clock w (S n))
    /\ (clock w n <= clock w (S n))%Z.

(** Documents whose fields are stamps taken between readings [lo] and
    [hi] of the clock. *)
Definition stamp_between (w : World) (lo hi : nat) (doc : dict) : Prop :=
  exists n item, lo <= n /\ S n < hi /\ doc = stamp_at w n item.

(** ** Identifiers *)

(** An identifier as the driver makes them: twelve bytes. *)
Definition oid_wf (o : ObjectId) : Prop :=
  List.length o = 12 /\ Forall (fun b => b < 256) o.

(** The driver never issues the same identifier twice. *)
Definition fresh_injective (w : World) : Prop :=
  forall i j, fresh w i = fresh w j -> i = j.

(** The stored documents have distinct identifiers, all issued by the
    driver. *)
Definition ids_issued (w : World) : Prop :=
  NoDup (map _id (collection w))
  /\ Forall (fun d => exists n, n < issued w /\ _id d = fresh w n)
       (collection w).

(** The documents [insert_many] makes of [docs], from identifier [n] of
    the supply [f] on. *)
Fixpoint docs_from (f : nat -> ObjectId) (n : nat) (docs : list dict)
    : list document :=
  match docs with
  | [] => []
  | doc :: docs' => Document (f n) doc :: docs_from f (S n) docs'
  end.

(** The items created one by one. *)
Fixpoint create_each {W : Writes} (items : list ProductionItemCreate.t)
    : M (list string) :=
  match items with
  | [] => ret []
  | item :: items' =>
      item_id <~ create_production_item item ;;
      item_ids <~ create_each items' ;;
      ret (item_id :: item_ids)
  end.

(** A store that holds nothing yet. *)
Definition empty_world : World :=
  MkWorld (fun n => Z.of_nat (10 * n)) 0 (fun n => repeat 0 11 ++ [n]) 0 [] [].

(** An item with every field set, as the parser builds them. *)
Definition sample_item : ProductionItemCreate.t :=
  ProductionItemCreate.Build (Some "PO1") (Some "A1") None None (Some 5%Z)
    (Some "pending") (Some ProductionDates.default) (Some "plan.xlsx")
    (Some []) ProductionItemCreate.field_names.

(** The store after one item is created in the empty one. *)
Definition one_record_world : World :=
  snd (@create_production_item reference_writes sample_item empty_world).

(** The store after a second item is created. *)
Definition two_record_world : World :=
  snd (@create_production_item reference_writes sample_item
         one_record_world).

(** An item whose quantity does not fit 64 bits. *)
Definition huge_item : ProductionItemCreate.t :=
  ProductionItemCreate.Build (Some "PO2") (Some "A2") None None
    (Some (2 ^ 63)%Z) (Some "pending") (Some ProductionDates.default)
    (Some "plan.xlsx") (Some []) ProductionItemCreate.field_names.

(** ** An upload, for running the pipeline *)

(** A sheet of three rows with columns [PO], [Style], [Qty], and an
    oracle whose reply decodes to one item under [items]. *)
Definition sample_frame : DataFrame :=
  MkFrame [PStr "PO"; PStr "Style"; PStr "Qty"]
    [[PStr "PO1"; PStr "A1"; PInt 5]; [PStr "PO2"; PStr "A2"; PInt 6];
     [PStr "PO3"; PStr "A3"; PInt 7]].

#[export] Instance sample_externals : Externals := {
  read_excel := fun _ => Ok sample_frame;
  to_string := fun _ => "PO Style Qty";
  chat_completion := fun _ => Ok (Some "reply");
  json_loads := fun _ =>
    Ok (PDict [("items",
                PList [PDict [("order_number", PStr "PO1");
                              ("style", PStr "A1"); ("quantity", PInt 5);
                              ("status", PStr "pending")]])])
}.

(** The same sheet with a number as the label of its third column. *)
Definition numeric_label_externals : Externals := {|
  read_excel := fun _ =>
    Ok (MkFrame [PStr "PO"; PStr "Style"; PInt 2024] []);
  to_string := fun _ => "PO Style 2024";
  chat_completion := fun _ => Ok (Some "reply");
  json_loads := fun _ => Ok (PList [])
|}.


(** Stored documents handed back as they are. *)
#[export] Instance documents_as_items : ItemModel := {
  ProductionItem := dict;
  ProductionItem_of := fun item => Ok item
}.

(** The file name has one of the two extensions the upload takes. *)
Definition spreadsheet_name (file_name : string) : Prop :=
  exists stem,
    file_name = (stem ++ ".xlsx")%string
    \/ file_name = (stem ++ ".xls")%string.

(** The application with both services up. *)
Definition sample_app : Main.App :=
  Main.startup true true (Some "sk-test").

(** [isinstance(v, str)]. *)
Definition is_str (v : value) : bool :=
  match v with PStr _ => true | _ => false end.

(** What the two item endpoints answer for an identifier they do not
    find. *)
Definition not_found {A : Type} (item_id : string) : Main.http A :=
  Main.HTTPException 404
    (Main.Message ("Production item " ++ item_id ++ " not found")%string).

(* ================================================================== *)
(** * Properties *)

(** ** Dictionaries *)

Lemma dict_get_remove_other (k k' : string) (d : dict) :
  k <> k' -> dict_get k (dict_remove k' d) = dict_get k d.
Proof.
  intros Hne. induction d as [|[k0 v0] d IH]; simpl; [reflexivity|].
  destruct (String.eqb k' k0) eqn:E'; simpl.
  - apply String.eqb_eq in E'. subst k0.
    destruct (String.eqb k k') eqn:E; [|exact IH].
    apply String.eqb_eq in E. contradiction.
  - rewrite IH. reflexivity.
Qed.

Lemma dict_get_remove_same (k : string) (d : dict) :
  dict_get k (dict_remove k d) = None.
Proof.
  induction d as [|[k0 v0] d IH]; simpl; [reflexivity|].
  destruct (String.eqb k k0) eqn:E; simpl; [exact IH|].
  rewrite E. exact IH.
Qed.

Lemma dict_get_set_same (k : string) (v : value) (d : dict) :
  dict_get k (dict_set k v d) = Some v.
Proof.
  induction d as [|[k0 v0] d IH]; simpl.
  - rewrite String.eqb_refl. reflexivity.
  - destruct (String.eqb k k0) eqn:E; simpl.
    + rewrite String.eqb_refl. reflexivity.
    + rewrite E. exact IH.
Qed.

Lemma dict_get_set_other (k k' : string) (v : value) (d : dict) :
  k <> k' -> dict_get k (dict_set k' v d) = dict_get k d.
Proof.
  intros Hne. apply String.eqb_neq in Hne.
  induction d as [|[k0 v0] d IH]; simpl.
  - rewrite Hne. reflexivity.
  - destruct (String.eqb k' k0) eqn:E'; simpl.
    + apply String.eqb_eq in E'. subst k0. rewrite Hne. reflexivity.
    + rewrite IH. reflexivity.
Qed.

Lemma dict_get_In (k : string) (v : value) (d : dict) :
  dict_get k d = Some v -> In (k, v) d.
Proof.
  induction d as [|[k0 v0] d IH]; simpl; [discriminate|].
  destruct (String.eqb k k0) eqn:E.
  - apply String.eqb_eq in E. intros [= ->]. left. congruence.
  - intro H. right. exact (IH H).
Qed.

Lemma dict_get_None_notin (k : string) (d : dict) :
  dict_get k d = None -> forall v, ~ In (k, v) d.
Proof.
  induction d as [|[k0 v0] d IH]; simpl; intros H v; [tauto|].
  destruct (String.eqb k k0) eqn:E; [discriminate|].
  apply String.eqb_neq in E.
  intros [Heq | Hin].
  - inversion Heq. congruence.
  - exact (IH H v Hin).
Qed.

(** ** The reply shapes *)

(** [find] returns the first element that passes the test. *)
Lemma find_first {A : Type} (p : A -> bool) (pre post : list A) (x : A) :
  (forall y, In y pre -> p y = false) -> p x = true ->
  List.find p (pre ++ x :: post) = Some x.
Proof.
  induction pre as [|y pre IH]; simpl; intros Hpre Hx.
  - rewrite Hx. reflexivity.
  - rewrite (Hpre y (or_introl eq_refl)). apply IH; auto.
Qed.

Lemma find_none_all {A : Type} (p : A -> bool) (l : list A) :
  (forall y, In y l -> p y = false) -> List.find p l = None.
Proof.
  induction l as [|y l IH]; simpl; intros H; [reflexivity|].
  rewrite (H y (or_introl eq_refl)). apply IH. auto.
Qed.

(** C1, as the code has it. The value bound to [items] follows the
    ordered precedence on an object: the value under key [items] if the
    key is there; else the value under key [production_items] if that key
    is there; else the first list-valued field in the object's iteration
    order; else the object wrapped as a one-element list. A reply that is
    not an object (a list, but also a string, a number or null) is used as
    it is and never wrapped. The value chosen is returned when it has a
    length and the call raises otherwise. *)
Theorem normalize_reply_precedence (parsed_data : value) :
  (is_dict parsed_data = false -> select_items parsed_data = parsed_data)
  /\ (forall d, parsed_data = PDict d ->
        (forall v, dict_get "items" d = Some v ->
           select_items parsed_data = v)
        /\ (forall v, dict_get "items" d = None ->
              dict_get "production_items" d = Some v ->
              select_items parsed_data = v)
        /\ (forall pre k l post,
              dict_get "items" d = None ->
              dict_get "production_items" d = None ->
              d = pre ++ (k, PList l) :: post ->
              (forall kv, In kv pre -> is_list (snd kv) = false) ->
              select_items parsed_data = PList l)
        /\ (dict_get "items" d = None ->
            dict_get "production_items" d = None ->
            (forall kv, In kv d -> is_list (snd kv) = false) ->
            select_items parsed_data = PList [parsed_data]))
  /\ normalize_reply parsed_data =
       (if is_ok (len (select_items parsed_data))
        then Ok (select_items parsed_data)
        else Raise TypeError).
Proof.
  split; [|split].
  - destruct parsed_data; simpl; intros H; try reflexivity. discriminate.
  - intros d ->. simpl. repeat split.
    + intros v ->. reflexivity.
    + intros v -> ->. reflexivity.
    + intros pre k l post -> -> -> Hpre.
      unfold dict_values. rewrite map_app. simpl.
      rewrite (@find_first _ is_list (map snd pre) (map snd post) (PList l));
        [reflexivity| |reflexivity].
      intros y Hy. apply in_map_iff in Hy. destruct Hy as [kv [<- Hin]].
      exact (Hpre kv Hin).
    + intros -> -> Hall.
      rewrite find_none_all; [reflexivity|].
      intros y Hy. apply in_map_iff in Hy. destruct Hy as [kv [<- Hin]].
      exact (Hall kv Hin).
  - unfold normalize_reply.
    destruct (len (select_items parsed_data)) as [n|e] eqn:El; simpl.
    + reflexivity.
    + destruct (select_items parsed_data); simpl in El;
        try discriminate; inversion El; reflexivity.
Qed.

(** C1, as the claim has it, fails on a reply that is neither a list nor
    an object: the JSON string ["abc"] comes back as it is, not wrapped
    as a one-element list. *)
Lemma normalize_reply_scalar_not_wrapped :
  normalize_reply (PStr "abc") = Ok (PStr "abc")
  /\ normalize_reply (PStr "abc") <> Ok (PList [PStr "abc"]).
Proof.
  split; [reflexivity|]. intro H. discriminate H.
Qed.

(** The five shapes of the specification, run. *)
Example reply_shapes :
  let item := PDict [("style", PStr "A1")] in
  normalize_reply (PList [item]) = Ok (PList [item])
  /\ normalize_reply (PDict [("items", PList [item])]) = Ok (PList [item])
  /\ normalize_reply (PDict [("production_items", PList [item])])
     = Ok (PList [item])
  /\ normalize_reply (PDict [("n", PInt 1); ("foo", PList [item]);
                             ("bar", PList [])]) = Ok (PList [item])
  /\ normalize_reply item = Ok (PList [item]).
Proof. repeat split. Qed.

(** ** The record materializer *)

Section MaterializerProperties.

Context {LI : LaxInt}.

(** What [construct] read and built when it returns a record. *)
Lemma init_inv (o s f c q st : value) (dates : ProductionDates.t)
    (source_file : string) (ad : value) (r : ProductionItemCreate.t) :
  ProductionItemCreate.init o s f c q st dates source_file ad = Ok r ->
  validate_optional validate_str st = Some (ProductionItemCreate.status r)
  /\ validate_optional validate_dict_any ad
     = Some (ProductionItemCreate.additional_data r)
  /\ ProductionItemCreate.dates r = Some dates
  /\ ProductionItemCreate.source_file r = Some source_file.
Proof.
  unfold ProductionItemCreate.init.
  destruct (validate_optional validate_str o); [|discriminate].
  destruct (validate_optional validate_str s); [|discriminate].
  destruct (validate_optional validate_str f); [|discriminate].
  destruct (validate_optional validate_str c); [|discriminate].
  destruct (validate_optional lax_int q); [|discriminate].
  destruct (validate_optional validate_str st); [|discriminate].
  destruct (validate_optional validate_dict_any ad); [|discriminate].
  intros [= <-]. simpl. repeat split.
Qed.

Lemma construct_inv (filename : string) (d : dict)
    (r : ProductionItemCreate.t) :
  construct filename (PDict d) = Ok r ->
  exists dates,
    dates_of (dict_get_default "dates" (PDict []) d) = Ok dates
    /\ ProductionItemCreate.dates r = Some dates
    /\ ProductionItemCreate.source_file r = Some filename
    /\ validate_optional validate_str
         (dict_get_default "status" (PStr "pending") d)
       = Some (ProductionItemCreate.status r)
    /\ validate_optional validate_dict_any
         (dict_get_default "additional_data" (PDict []) d)
       = Some (ProductionItemCreate.additional_data r).
Proof.
  unfold construct, dict_pop.
  fold (dates_of (dict_get_default "dates" (PDict []) d)).
  destruct (dates_of (dict_get_default "dates" (PDict []) d)) as [dates|e];
    simpl; [|discriminate].
  intros H. apply init_inv in H. destruct H as (Hst & Had & Hd & Hsf).
  exists dates. unfold dict_get_default in *.
  rewrite dict_get_remove_other in Hst by discriminate.
  rewrite dict_get_remove_other in Had by discriminate.
  repeat split; assumption.
Qed.

Lemma materialize_loop_successes (filename : string) (l : list value) :
  forall acc, materialize_loop filename l acc = acc ++ successes filename l.
Proof.
  induction l as [|v l IH]; intros acc; simpl.
  - rewrite app_nil_r. reflexivity.
  - destruct (construct filename v) as [r|e]; rewrite IH; simpl.
    + rewrite <- app_assoc. reflexivity.
    + reflexivity.
Qed.

Lemma successes_length (filename : string) (l : list value) :
  List.length (successes filename l)
  + List.length (filter (fails filename) l) = List.length l.
Proof.
  induction l as [|v l IH]; simpl; [reflexivity|].
  unfold fails at 1. destruct (construct filename v) as [r|e]; simpl; lia.
Qed.

Lemma successes_filter (filename : string) (l : list value) :
  map Ok (successes filename l) = filter is_ok (map (construct filename) l).
Proof.
  induction l as [|v l IH]; simpl; [reflexivity|].
  destruct (construct filename v) as [r|e] eqn:Ec; simpl.
  - f_equal. exact IH.
  - exact IH.
Qed.

(** C2. A batch of N raw items of which M fail record construction
    materializes to exactly N - M records, the records of the other
    items in their order: the call returns, and a failure skips its own
    item only. *)
Theorem materialize_skips_failures (filename : string)
    (extracted_items : list value) :
  exists production_items,
    materialize filename (PList extracted_items) = Ok production_items
    /\ List.length production_items
       = List.length extracted_items
         - List.length (filter (fails filename) extracted_items)
    /\ map Ok production_items
       = filter is_ok (map (construct filename) extracted_items).
Proof.
  exists (successes filename extracted_items). split; [|split].
  - unfold materialize. simpl. rewrite materialize_loop_successes. reflexivity.
  - pose proof (successes_length filename extracted_items). lia.
  - apply successes_filter.
Qed.

(** C3, as the code has it. The [additional_data] of a materialized
    record is the raw map's own [additional_data] entry: the empty
    mapping when the entry is absent, null when it is null, the mapping
    it holds otherwise. The other keys of the raw map that no named
    field consumes are dropped. *)
Theorem additional_data_from_own_entry (filename : string) (d : dict)
    (r : ProductionItemCreate.t) :
  construct filename (PDict d) = Ok r ->
  (dict_get "additional_data" d = None ->
   ProductionItemCreate.additional_data r = Some [])
  /\ (dict_get "additional_data" d = Some PNone ->
      ProductionItemCreate.additional_data r = None)
  /\ (forall a, dict_get "additional_data" d = Some (PDict a) ->
      ProductionItemCreate.additional_data r = Some a)
  /\ (forall v, dict_get "additional_data" d = Some v ->
      v = PNone \/ exists a, v = PDict a).
Proof.
  intros H. apply construct_inv in H.
  destruct H as (dates & _ & _ & _ & _ & Had).
  unfold dict_get_default in Had.
  repeat split.
  - intros E. rewrite E in Had. injection Had as <-. reflexivity.
  - intros E. rewrite E in Had. injection Had as <-. reflexivity.
  - intros a E. rewrite E in Had. injection Had as <-. reflexivity.
  - intros v E. rewrite E in Had.
    destruct v; simpl in Had; try discriminate; eauto.
Qed.

(** C10. When a raw map holds [status] with an explicit null, the
    record's status is null; it is ["pending"] when the key is absent, and
    when the key is there only if the map says ["pending"] itself. *)
Theorem status_default_only_when_absent (filename : string) (d : dict)
    (r : ProductionItemCreate.t) :
  construct filename (PDict d) = Ok r ->
  (dict_get "status" d = Some PNone -> ProductionItemCreate.status r = None)
  /\ (dict_get "status" d = None ->
      ProductionItemCreate.status r = Some "pending")
  /\ (forall v, dict_get "status" d = Some v ->
      ProductionItemCreate.status r = Some "pending" -> v = PStr "pending").
Proof.
  intros H. apply construct_inv in H.
  destruct H as (dates & _ & _ & _ & Hst & _).
  unfold dict_get_default in Hst.
  repeat split.
  - intros E. rewrite E in Hst. injection Hst as <-. reflexivity.
  - intros E. rewrite E in Hst. injection Hst as <-. reflexivity.
  - intros v E Hp. rewrite E, Hp in Hst.
    destruct v; simpl in Hst; try discriminate.
    injection Hst as ->. reflexivity.
Qed.

End MaterializerProperties.

Section DatesProperties.

Context {LI : LaxInt}.

Lemma dict_remove_idem (k : string) (d : dict) :
  dict_remove k (dict_remove k d) = dict_remove k d.
Proof.
  unfold dict_remove. induction d as [|kv d IH]; simpl; [reflexivity|].
  destruct (negb (String.eqb k (fst kv))) eqn:E; simpl.
  - rewrite E, IH. reflexivity.
  - exact IH.
Qed.

(** [construct] on a mapping, with the pop spelled out. *)
Lemma construct_dict (filename : string) (d : dict) :
  construct filename (PDict d)
  = (dates <- dates_of (dict_get_default "dates" (PDict []) d) ;;
     let item_data := dict_remove "dates" d in
     ProductionItemCreate.init
       (dict_get_default "order_number" PNone item_data)
       (dict_get_default "style" PNone item_data)
       (dict_get_default "fabric" PNone item_data)
       (dict_get_default "color" PNone item_data)
       (dict_get_default "quantity" PNone item_data)
       (dict_get_default "status" (PStr "pending") item_data)
       dates filename
       (dict_get_default "additional_data" (PDict []) item_data)).
Proof. reflexivity. Qed.

(** C4, as the code has it. When the [dates] entry of a raw map is absent,
    null or otherwise falsy (an empty mapping, list or string, zero,
    false), the map materializes as it would without the entry, with the
    empty [ProductionDates]. A truthy entry that is not a mapping, and a
    mapping that [ProductionDates] does not validate, make the
    construction raise: the record is skipped. *)
Theorem dates_empty_when_absent_or_falsy (filename : string) (d : dict) :
  (truthy (dict_get_default "dates" (PDict []) d) = false ->
   construct filename (PDict d)
   = construct filename (PDict (dict_remove "dates" d))
   /\ forall r, construct filename (PDict d) = Ok r ->
        ProductionItemCreate.dates r = Some ProductionDates.default)
  /\ (forall v, dict_get "dates" d = Some v -> truthy v = true ->
      is_dict v = false -> construct filename (PDict d) = Raise TypeError)
  /\ (forall kw e, dict_get "dates" d = Some (PDict kw) -> kw <> [] ->
      ProductionDates.init kw = Raise e ->
      construct filename (PDict d) = Raise e).
Proof.
  split; [|split].
  - intros Hf. split.
    + rewrite !construct_dict.
      assert (Hd : dict_get_default "dates" (PDict []) (dict_remove "dates" d)
                   = PDict []).
      { unfold dict_get_default. rewrite dict_get_remove_same. reflexivity. }
      rewrite Hd, dict_remove_idem. unfold dates_of. rewrite Hf. reflexivity.
    + intros r Hr. apply construct_inv in Hr.
      destruct Hr as (dates & Hd & Hr & _).
      unfold dates_of in Hd. rewrite Hf in Hd.
      simpl in Hd. injection Hd as <-. exact Hr.
  - intros v Hv Ht Hnd. rewrite construct_dict.
    unfold dates_of, dict_get_default.
    rewrite Hv, Ht. destruct v; simpl in Hnd; try discriminate; reflexivity.
  - intros kw e Hv Hne Hinit. rewrite construct_dict.
    unfold dates_of, dict_get_default.
    rewrite Hv. destruct kw as [|kv kw]; [contradiction|].
    simpl truthy. cbv iota. simpl kwargs_of. unfold bind at 2.
    rewrite Hinit. reflexivity.
Qed.

End DatesProperties.

(** *** The materializer, run *)

(** C2: of three raw items the second is not a mapping; two records. *)
Example batch_of_three :
  exists r1 r2,
    materialize "plan.xlsx"
      (PList [PDict [("style", PStr "A1")]; PInt 4;
              PDict [("quantity", PInt 7)]]) = Ok [r1; r2]
    /\ ProductionItemCreate.style r1 = Some "A1"
    /\ ProductionItemCreate.quantity r2 = Some 7%Z.
Proof. do 2 eexists. repeat split. Qed.

(** C3, as the claim has it, fails: the key [buyer] is consumed by no
    named field and the record's [additional_data] is empty. *)
Lemma unconsumed_key_dropped :
  exists r,
    construct "plan.xlsx"
      (PDict [("style", PStr "A1"); ("buyer", PStr "ACME")]) = Ok r
    /\ ProductionItemCreate.additional_data r = Some [].
Proof. eexists. split; reflexivity. Qed.

(** The entry under [additional_data] is what the record gets. *)
Lemma additional_data_from_own_entry_witness :
  exists r,
    construct "plan.xlsx"
      (PDict [("style", PStr "A1");
              ("additional_data", PDict [("buyer", PStr "ACME")])]) = Ok r
    /\ ProductionItemCreate.additional_data r
       = Some [("buyer", PStr "ACME")].
Proof.
  eexists. split; [reflexivity|].
  apply (proj1 (proj2 (proj2
    (@additional_data_from_own_entry int_exact "plan.xlsx"
       [("style", PStr "A1");
        ("additional_data", PDict [("buyer", PStr "ACME")])] _ eq_refl)))).
  reflexivity.
Defined.

(** C4, as the claim has it, fails: a [dates] entry that is a string is
    malformed, and the record is not materialized with empty dates, it is
    skipped. *)
Lemma malformed_dates_skips_record :
  construct "plan.xlsx"
    (PDict [("style", PStr "A1"); ("dates", PStr "2024-01-05")])
  = Raise TypeError
  /\ materialize "plan.xlsx"
       (PList [PDict [("style", PStr "A1"); ("dates", PStr "2024-01-05")]])
     = Ok [].
Proof. split; reflexivity. Qed.

Example dates_null_or_absent :
  exists r1 r2,
    construct "plan.xlsx" (PDict [("style", PStr "A1"); ("dates", PNone)])
    = Ok r1
    /\ construct "plan.xlsx" (PDict [("style", PStr "A1")]) = Ok r2
    /\ r1 = r2
    /\ ProductionItemCreate.dates r1 = Some ProductionDates.default.
Proof. do 2 eexists. repeat split. Qed.

Example dates_ill_typed_milestone :
  construct "plan.xlsx"
    (PDict [("style", PStr "A1"); ("dates", PDict [("fabric", PInt 3)])])
  = Raise ValidationError.
Proof. reflexivity. Qed.

(** An explicit null status stays null. *)
Lemma status_default_only_when_absent_witness :
  exists r,
    construct "plan.xlsx" (PDict [("style", PStr "A1"); ("status", PNone)])
    = Ok r
    /\ ProductionItemCreate.status r = None.
Proof.
  eexists. split; [reflexivity|].
  apply (proj1
    (@status_default_only_when_absent int_exact "plan.xlsx"
       [("style", PStr "A1"); ("status", PNone)] _ eq_refl)).
  reflexivity.
Defined.

(* ================================================================== *)
(** ** The persistence gateway *)

Section GatewayProperties.

Context {W : Writes}.

Lemma stamped_run (item : ProductionItemCreate.t) (w : World) :
  stamped item w = (Ok (stamp_at w (reads w) item), advance 2 w).
Proof. reflexivity. Qed.

Lemma stamps_from_advance (k : nat) (w : World) (n : nat)
    (items : list ProductionItemCreate.t) :
  stamps_from (advance k w) n items = stamps_from w n items.
Proof.
  revert n. induction items as [|item items IH]; intros n; simpl.
  - reflexivity.
  - rewrite IH. reflexivity.
Qed.

Lemma stamp_all_run (items : list ProductionItemCreate.t) :
  forall (acc : list dict) (w : World),
    stamp_all items acc w
    = (Ok (acc ++ stamps_from w (reads w) items),
       advance (2 * List.length items) w).
Proof.
  induction items as [|item items IH]; intros acc w.
  - simpl. rewrite app_nil_r. destruct w; reflexivity.
  - simpl stamp_all. unfold bindM. rewrite stamped_run. rewrite IH.
    f_equal.
    + rewrite <- app_assoc. simpl. rewrite stamps_from_advance.
      reflexivity.
    + unfold advance. simpl. f_equal. lia.
Qed.

(** C9. For the empty list [create_many_production_items] returns the
    empty list of identifiers and leaves the world as it was: the store
    is not called (and the clock is not read). *)
Theorem create_many_empty_no_call (w : World) :
  create_many_production_items [] w = (Ok [], w)
  /\ calls (snd (create_many_production_items [] w)) = calls w
  /\ collection (snd (create_many_production_items [] w)) = collection w.
Proof. repeat split. Qed.

(** What a creation does, by whether the driver encodes the stamped
    document: either way the clock is read twice, the store is called
    once and an identifier is used. *)
Lemma create_run (item : ProductionItemCreate.t) (w : World) :
  create_production_item item w
  = match encode (stamp_at w (reads w) item) with
    | Ok _ =>
        (Ok (str_of_ObjectId (fresh w (issued w))),
         MkWorld (clock w) (2 + reads w) (fresh w) (S (issued w))
           (collection w
            ++ [Document (fresh w (issued w)) (stamp_at w (reads w) item)])
           (calls w ++ [insert_one]))
    | Raise e =>
        (Raise e,
         MkWorld (clock w) (2 + reads w) (fresh w) (S (issued w))
           (collection w) (calls w ++ [insert_one]))
    end.
Proof.
  unfold create_production_item, bindM. rewrite stamped_run.
  unfold collection_insert_one, bindM, called, new_ObjectId, lift,
    get_collection, put_collection, ret, advance.
  cbn [clock reads fresh issued collection calls].
  destruct (encode (stamp_at w (reads w) item)) as [[]|e]; reflexivity.
Qed.

Lemma assign_ids_run (docs : list dict) :
  forall w,
    assign_ids docs w
    = (Ok (docs_from (fresh w) (issued w) docs),
       MkWorld (clock w) (reads w) (fresh w) (List.length docs + issued w)
         (collection w) (calls w)).
Proof.
  induction docs as [|doc docs IH]; intros w.
  - destruct w; reflexivity.
  - simpl assign_ids. unfold bindM at 1. unfold new_ObjectId.
    unfold bindM. rewrite IH. unfold ret.
    cbn [clock reads fresh issued collection calls docs_from List.length].
    replace (List.length docs + S (issued w))
      with (S (List.length docs + issued w)) by lia.
    reflexivity.
Qed.

(** What the creation of a batch that is not empty does, by whether the
    driver encodes every stamped document. *)
Lemma create_many_run (item : ProductionItemCreate.t)
    (items : list ProductionItemCreate.t) (w : World) :
  create_many_production_items (item :: items) w
  = match encode_all (stamps_from w (reads w) (item :: items)) with
    | Ok _ =>
        (Ok (map str_of_ObjectId
               (map _id
                  (docs_from (fresh w) (issued w)
                     (stamps_from w (reads w) (item :: items))))),
         MkWorld (clock w) (2 * List.length (item :: items) + reads w)
           (fresh w) (List.length (item :: items) + issued w)
           (collection w
            ++ docs_from (fresh w) (issued w)
                 (stamps_from w (reads w) (item :: items)))
           (calls w ++ [insert_many]))
    | Raise e =>
        (Raise e,
         MkWorld (clock w) (2 * List.length (item :: items) + reads w)
           (fresh w) (List.length (item :: items) + issued w)
           (collection w) (calls w ++ [insert_many]))
    end.
Proof.
  assert (Hl : forall n its,
             List.length (stamps_from w n its) = List.length its).
  { intros n its. revert n. induction its as [|it its IH]; intros n;
      simpl; [reflexivity|]. rewrite IH. reflexivity. }
  unfold create_many_production_items, bindM at 1.
  rewrite stamp_all_run. cbn [app].
  remember (stamps_from w (reads w) (item :: items)) as docs eqn:Ed.
  destruct docs as [|doc docs]; [discriminate Ed|].
  unfold collection_insert_many, bindM, called. rewrite assign_ids_run.
  unfold lift, get_collection, put_collection, ret, advance.
  cbn [clock reads fresh issued collection calls].
  assert (Hn : List.length (doc :: docs) = List.length (item :: items)).
  { rewrite Ed. apply Hl. }
  rewrite Hn.
  destruct (encode_all (doc :: docs)) as [[]|e]; reflexivity.
Qed.

(** A list that is not empty does reach the store, in one call. *)
Lemma create_many_nonempty_calls (item : ProductionItemCreate.t)
    (items : list ProductionItemCreate.t) (w : World) :
  calls (snd (create_many_production_items (item :: items) w))
  = calls w ++ [insert_many].
Proof.
  rewrite create_many_run.
  destruct (encode_all _) as [[]|e]; reflexivity.
Qed.

End GatewayProperties.

(** ** Identifiers that are not in the store's format *)

Lemma delete_first_absent (oid : ObjectId) (l : list document) :
  List.find (has_id oid) l = None -> delete_first oid l = (l, 0).
Proof.
  induction l as [|d l IH]; simpl; [reflexivity|].
  destruct (has_id oid d); [discriminate|].
  intros H. rewrite (IH H). reflexivity.
Qed.

(** C7. For an identifier that [ObjectId] refuses, [get_production_item]
    returns [None] and [delete_production_item] returns [False], without
    raising and without a call to the store; an identifier in the valid
    format that no stored document has gets the same two answers. *)
Theorem invalid_id_is_not_found (item_id : string) (w : World) :
  is_ok (ObjectId_of_str item_id) = false ->
  get_production_item item_id w = (Ok None, w)
  /\ delete_production_item item_id w = (Ok false, w)
  /\ (forall other oid,
        ObjectId_of_str other = Ok oid ->
        List.length oid = 12 ->
        List.find (has_id oid) (collection w) = None ->
        fst (get_production_item other w) = Ok None
        /\ fst (delete_production_item other w) = Ok false).
Proof.
  intros Hinv. split; [|split].
  - unfold get_production_item, try_except, bindM, lift.
    destruct (ObjectId_of_str item_id); [discriminate|reflexivity].
  - unfold delete_production_item, try_except, bindM, lift.
    destruct (ObjectId_of_str item_id); [discriminate|reflexivity].
  - intros other oid Hoid _ Habs. split.
    + unfold get_production_item, try_except, bindM, lift.
      rewrite Hoid. simpl. rewrite Habs. reflexivity.
    + unfold delete_production_item, try_except, bindM, lift.
      rewrite Hoid. simpl. rewrite (delete_first_absent _ _ Habs).
      reflexivity.
Qed.

(** An identifier that is not hexadecimal, on a store with one record. *)
Lemma invalid_id_is_not_found_witness :
  get_production_item "not-an-id" sample_world = (Ok None, sample_world)
  /\ delete_production_item "not-an-id" sample_world
     = (Ok false, sample_world).
Proof.
  pose proof (@invalid_id_is_not_found "not-an-id" sample_world eq_refl)
    as H.
  split; [exact (proj1 H)|exact (proj1 (proj2 H))].
Defined.

Example stored_id_is_found :
  fst (get_production_item "507f1f77bcf86cd799439011" sample_world)
  = Ok (Some [("_id", PStr "507f1f77bcf86cd799439011");
              ("style", PStr "Classic-Fit"); ("status", PStr "pending");
              ("created_at", PDatetime 10); ("updated_at", PDatetime 20)])
  /\ fst (delete_production_item "507f1f77bcf86cd799439011" sample_world)
     = Ok true.
Proof. split; reflexivity. Qed.

(** ** The query engine *)

Section QueryProperties.

Context {E : Engine}.

Lemma In_firstn {A : Type} (n : nat) (l : list A) (x : A) :
  In x (firstn n l) -> In x l.
Proof.
  revert l. induction n as [|n IH]; intros [|y l]; simpl; try tauto.
  intros [H|H]; [left; exact H|right; exact (IH l H)].
Qed.

Lemma In_skipn {A : Type} (n : nat) (l : list A) (x : A) :
  In x (List.skipn n l) -> In x l.
Proof.
  revert l. induction n as [|n IH]; intros [|y l]; simpl; try tauto.
  intros H. right. exact (IH l H).
Qed.

Lemma page_of_matches (cq : list (string * compiled_cond)) (skip limit : Z)
    (w : World) (d : document) :
  In d (page_of cq skip limit w) ->
  In d (collection w) /\ doc_matches cq d = true.
Proof.
  unfold page_of, sorted_matching, matching. intros H.
  apply In_firstn, In_skipn in H.
  apply (Permutation_in _ (sort_created_at_desc_perm _ _)) in H.
  apply filter_In in H. exact H.
Qed.

(** What a query returns, by cases on the compilation of the filter and
    the signs of [skip] and [limit]. *)
Lemma get_production_items_run (skip limit : Z)
    (style status order_number : option string) (w : World) :
  fst (get_production_items skip limit style status order_number w)
  = match compile_query (build_query style status order_number) with
    | None => Raise OperationFailure
    | Some cq =>
        if (skip <? 0)%Z then Raise ValueError
        else if (limit <? 0)%Z then Raise ValueError
        else Ok (map id_to_str (map as_dict (page_of cq skip limit w)),
                 List.length (matching cq w))
    end.
Proof.
  unfold get_production_items, bindM, collection_count_documents,
    collection_find_page, bindM, called, get_collection, call_count.
  cbv beta iota.
  destruct (compile_query (build_query style status order_number)) as [cq|];
    [|reflexivity].
  unfold ret. cbv beta iota.
  destruct (skip <? 0)%Z; [reflexivity|].
  destruct (limit <? 0)%Z; [reflexivity|].
  cbn [fst calls collection]. unfold page_of, sorted_matching, matching.
  rewrite length_app. cbn [List.length]. rewrite Nat.add_1_r.
  reflexivity.
Qed.

(** C5. When a query returns, its total is the number of stored records
    that satisfy the predicate built from the style, status and
    order_number filters, every record of its page satisfies that same
    predicate, and the total is the same for any other [skip] and
    [limit] with these filters; and the query returns for every
    non-negative [skip] and [limit] once the store accepts the filter. *)
Theorem query_total_counts_all_matches (skip limit : Z)
    (style status order_number : option string) (w : World) :
  (forall items total,
     fst (get_production_items skip limit style status order_number w)
     = Ok (items, total) ->
     exists cq,
       compile_query (build_query style status order_number) = Some cq
       /\ total = List.length (filter (doc_matches cq) (collection w))
       /\ items = map id_to_str (map as_dict (page_of cq skip limit w))
       /\ (forall d, In d (page_of cq skip limit w) ->
             In d (collection w) /\ doc_matches cq d = true)
       /\ (forall skip' limit' items' total',
             fst (get_production_items skip' limit' style status
                    order_number w) = Ok (items', total') ->
             total' = total))
  /\ (forall cq,
        compile_query (build_query style status order_number) = Some cq ->
        (0 <= skip)%Z -> (0 <= limit)%Z ->
        fst (get_production_items skip limit style status order_number w)
        = Ok (map id_to_str (map as_dict (page_of cq skip limit w)),
              List.length (filter (doc_matches cq) (collection w)))).
Proof.
  split.
  - intros items total H. rewrite get_production_items_run in H.
    destruct (compile_query (build_query style status order_number))
      as [cq|] eqn:Ecq; [|discriminate].
    destruct (skip <? 0)%Z; [discriminate|].
    destruct (limit <? 0)%Z; [discriminate|].
    injection H as <- <-. exists cq. repeat split.
    + apply page_of_matches in H. tauto.
    + apply page_of_matches in H. tauto.
    + intros skip' limit' items' total' H'.
      rewrite get_production_items_run, Ecq in H'.
      destruct (skip' <? 0)%Z; [discriminate|].
      destruct (limit' <? 0)%Z; [discriminate|].
      injection H' as _ <-. reflexivity.
  - intros cq Ecq Hs Hl. rewrite get_production_items_run, Ecq.
    apply Z.ltb_ge in Hs, Hl. rewrite Hs, Hl. reflexivity.
Qed.

End QueryProperties.

Example query_total_ignores_pagination :
  fst (get_production_items 0 100 (Some "classic") None None sample_world)
  = Ok ([[("_id", PStr "507f1f77bcf86cd799439011");
          ("style", PStr "Classic-Fit"); ("status", PStr "pending");
          ("created_at", PDatetime 10); ("updated_at", PDatetime 20)]], 1)
  /\ fst (get_production_items 1 1 (Some "classic") None None sample_world)
     = Ok ([], 1).
Proof. split; reflexivity. Qed.

(** ** What the filters select *)

Module PcreFacts.

Import Pcre.

Lemma plain_not_dot (c : ascii) : plain c = true -> Ascii.eqb c "." = false.
Proof.
  unfold plain. intros H. apply andb_prop in H. destruct H as [_ H].
  destruct (Ascii.eqb c ".") eqn:E; [|reflexivity].
  apply Ascii.eqb_eq in E. subst c. discriminate H.
Qed.

Lemma compile_i_plain (f : string) :
  plain_text f = true -> compile_i f = Some (literals f).
Proof.
  induction f as [|c f IH]; simpl; [reflexivity|].
  intros H. apply andb_prop in H. destruct H as [Hc Hf].
  rewrite (plain_not_dot _ Hc), Hc, (IH Hf). reflexivity.
Qed.

(** A literal pattern matches at the start exactly when the subject
    starts with it, case ignored. *)
Lemma match_here_literals (f : string) :
  forall s, match_here (literals f) s = true
            <-> exists post, lower_str s = (lower_str f ++ post)%string.
Proof.
  induction f as [|c f IH]; intros s; simpl.
  - split; [intros _; exists (lower_str s); reflexivity|reflexivity].
  - destruct s as [|c' s]; simpl.
    + split; [discriminate|]. intros [post H]. discriminate H.
    + rewrite andb_true_iff, IH, Ascii.eqb_eq. split.
      * intros [Hc [post Hs]]. exists post. rewrite Hc, Hs. reflexivity.
      * intros [post H]. injection H as Hc Hs. split; [exact Hc|].
        exists post. exact Hs.
Qed.

(** It matches somewhere exactly when the subject contains it. *)
Lemma search_literals (f s : string) :
  search (literals f) s = true <-> contains_icase f s.
Proof.
  unfold contains_icase. induction s as [|c s IH].
  - simpl search. rewrite orb_false_r, match_here_literals. split.
    + intros [post H]. exists EmptyString, post. exact H.
    + intros [pre [post H]]. destruct pre as [|p pre]; [|discriminate H].
      exists post. exact H.
  - simpl search. rewrite orb_true_iff, match_here_literals, IH. split.
    + intros [[post H]|[pre [post H]]].
      * exists EmptyString, post. exact H.
      * exists (String (lower c) pre), post. simpl. rewrite H. reflexivity.
    + intros [pre [post H]]. destruct pre as [|p pre].
      * left. exists post. exact H.
      * right. simpl in H. injection H as _ H. exists pre, post. exact H.
Qed.

End PcreFacts.

Lemma compile_query_app {E : Engine} (q1 q2 : query) :
  compile_query (q1 ++ q2)
  = match compile_query q1, compile_query q2 with
    | Some c1, Some c2 => Some (c1 ++ c2)
    | _, _ => None
    end.
Proof.
  induction q1 as [|[f c] q1 IH]; simpl.
  - destruct (compile_query q2); reflexivity.
  - rewrite IH.
    destruct (match c with
              | RegexI p => option_map CRegex (compile_i p)
              | Equals s => Some (CEquals s)
              end); [|reflexivity].
    destruct (compile_query q1); [|reflexivity].
    destruct (compile_query q2); reflexivity.
Qed.

Lemma doc_matches_app {E : Engine} (c1 c2 : list (string * compiled_cond))
    (d : document) :
  doc_matches (c1 ++ c2) d = doc_matches c1 d && doc_matches c2 d.
Proof. unfold doc_matches. apply forallb_app. Qed.

Lemma given_Some (o : option string) (f : string) :
  given o = Some f -> o = Some f /\ f <> "".
Proof.
  destruct o as [s|]; simpl; [|discriminate].
  destruct (String.eqb s "") eqn:E; simpl; [discriminate|].
  intros [= ->]. split; [reflexivity|]. apply String.eqb_neq. exact E.
Qed.

Lemma build_query_parts (style status order_number : option string) :
  build_query style status order_number
  = regex_part "style" style ++ equals_part "status" status
    ++ regex_part "order_number" order_number.
Proof. reflexivity. Qed.

Lemma regex_filter_selects (k : string) (o : option string) (d : document) :
  plain_filter o = true ->
  text_field (dict_get k (fields d)) = true ->
  exists cq,
    @compile_query reference_engine (regex_part k o) = Some cq
    /\ (doc_matches cq d = true <-> field_contains k o d).
Proof.
  intros Hp Ht. unfold field_contains, regex_part.
  destruct (given o) as [f|] eqn:Eg.
  - apply given_Some in Eg. destruct Eg as [-> _]. simpl in Hp.
    exists [(k, @CRegex reference_engine (literals f))]. split.
    + simpl. rewrite (PcreFacts.compile_i_plain _ Hp). reflexivity.
    + unfold doc_matches. simpl. rewrite andb_true_r.
      destruct (dict_get k (fields d)) as [v|]; simpl.
      * destruct v; simpl in Ht; try discriminate.
        -- split; [discriminate|]. intros [s [H _]]. discriminate H.
        -- split.
           ++ intros H. exists s. split; [reflexivity|].
              apply PcreFacts.search_literals. exact H.
           ++ intros [s' [[= <-] H]].
              apply PcreFacts.search_literals in H. exact H.
      * split; [discriminate|]. intros [s [H _]]. discriminate H.
  - exists []. split; [reflexivity|]. simpl. tauto.
Qed.

Lemma equals_filter_selects (k : string) (o : option string) (d : document) :
  text_field (dict_get k (fields d)) = true ->
  exists cq,
    @compile_query reference_engine (equals_part k o) = Some cq
    /\ (doc_matches cq d = true <-> field_equals k o d).
Proof.
  intros Ht. unfold field_equals, equals_part.
  destruct (given o) as [f|] eqn:Eg.
  - exists [(k, @CEquals reference_engine f)]. split; [reflexivity|].
    unfold doc_matches. simpl. rewrite andb_true_r.
    destruct (dict_get k (fields d)) as [v|]; simpl.
    + destruct v; simpl in Ht; try discriminate.
      * split; discriminate.
      * split.
        -- intros H. apply String.eqb_eq in H. rewrite H. reflexivity.
        -- intros [= ->]. apply String.eqb_refl.
    + split; discriminate.
  - exists []. split; [reflexivity|]. simpl. tauto.
Qed.

(** C6, as the code has it. The style and order_number filters are
    regular expressions. When they are made of printable characters other
    than the metacharacters [\ ^ $ . [ ] | ( ) ? * + { }], the query
    selects exactly the records whose style and order_number contain the
    filter strings, the case of letters ignored, and whose status equals
    the status filter; an empty filter selects everything. *)
Theorem plain_filters_select_by_containment
    (style status order_number : option string) (d : document) :
  plain_filter style = true ->
  plain_filter order_number = true ->
  record_typed d = true ->
  exists b,
    @selected reference_engine style status order_number d = Some b
    /\ (b = true <->
        field_contains "style" style d
        /\ field_equals "status" status d
        /\ field_contains "order_number" order_number d).
Proof.
  intros Hs Ho Ht. unfold record_typed in Ht.
  apply andb_prop in Ht. destruct Ht as [Ht Hto].
  apply andb_prop in Ht. destruct Ht as [Hts Htt].
  destruct (regex_filter_selects "style" style d Hs Hts) as (c1 & E1 & M1).
  destruct (equals_filter_selects "status" status d Htt) as (c2 & E2 & M2).
  destruct (regex_filter_selects "order_number" order_number d Ho Hto)
    as (c3 & E3 & M3).
  exists (doc_matches (c1 ++ c2 ++ c3) d). split.
  - unfold selected.
    rewrite build_query_parts, !compile_query_app, E1, E2, E3. reflexivity.
  - rewrite !doc_matches_app, !andb_true_iff, M1, M2, M3. tauto.
Qed.

(** C6, as the claim has it, fails: the style filter ["."] selects a
    record whose style is ["abc"], which does not contain it. *)
Lemma dot_filter_selects_without_containment :
  @selected reference_engine (Some ".") None None
    (Document sample_oid [("style", PStr "abc")]) = Some true
  /\ ~ contains_icase "." "abc".
Proof.
  split; [reflexivity|].
  intros [pre [post H]]. simpl in H.
  destruct pre as [|c1 pre]; [discriminate H|].
  destruct pre as [|c2 pre]; [discriminate H|].
  destruct pre as [|c3 pre]; [discriminate H|].
  destruct pre as [|c4 pre]; discriminate H.
Qed.

(** The filters [style="classic"], [status="pending"] on a record. *)
Lemma plain_filters_select_by_containment_witness :
  exists b,
    @selected reference_engine (Some "classic") (Some "pending") None
      (Document sample_oid
         [("style", PStr "Classic-Fit"); ("status", PStr "pending")])
    = Some b
    /\ (b = true <->
        field_contains "style" (Some "classic")
          (Document sample_oid
             [("style", PStr "Classic-Fit"); ("status", PStr "pending")])
        /\ field_equals "status" (Some "pending")
             (Document sample_oid
                [("style", PStr "Classic-Fit"); ("status", PStr "pending")])
        /\ field_contains "order_number" None
             (Document sample_oid
                [("style", PStr "Classic-Fit"); ("status", PStr "pending")])).
Proof.
  exact (@plain_filters_select_by_containment
           (Some "classic") (Some "pending") None
           (Document sample_oid
              [("style", PStr "Classic-Fit"); ("status", PStr "pending")])
           eq_refl eq_refl eq_refl).
Defined.

(** The example of the specification: style ["Classic-Fit"] is selected
    by the filter ["classic"]. *)
Example classic_fit_selected :
  @selected reference_engine (Some "classic") None None
    (Document sample_oid [("style", PStr "Classic-Fit")]) = Some true
  /\ contains_icase "classic" "Classic-Fit".
Proof.
  split; [reflexivity|]. exists EmptyString, "-fit". reflexivity.
Qed.

(** ** Timestamps *)

Unset Implicit Arguments.

Lemma existsb_false_all {A : Type} (p : A -> bool) (l : list A) :
  existsb p l = false <-> forall x, In x l -> p x = false.
Proof.
  induction l as [|a l IH]; simpl.
  - split; [intros _ x []|reflexivity].
  - rewrite orb_false_iff, IH. split.
    + intros [Ha Hl] x [<-|Hx]; [exact Ha|exact (Hl x Hx)].
    + intros H. split; [apply H; left; reflexivity|].
      intros x Hx. apply H. right. exact Hx.
Qed.

Lemma stamped_by_later (clk : nat -> Z) (n m : nat) (d : document) :
  monotone clk -> n <= m -> stamped_by clk n d -> stamped_by clk m d.
Proof.
  intros Hm Hle (c & u & Ht & Hcu & Hu). exists c, u.
  repeat split; try assumption.
  specialize (Hm n m Hle). lia.
Qed.

Lemma timestamps_stamp_at (oid : ObjectId) (w : World) (n : nat)
    (item : ProductionItemCreate.t) :
  timestamps (Document oid (stamp_at w n item))
  = Some (clock w n, clock w (S n)).
Proof.
  unfold timestamps, stamp_at. simpl fields.
  rewrite dict_get_set_other by discriminate.
  rewrite !dict_get_set_same. reflexivity.
Qed.

Lemma stamps_from_between (w : World) (items : list ProductionItemCreate.t) :
  forall n,
    Forall (stamp_between w n (n + 2 * List.length items))
      (stamps_from w n items).
Proof.
  induction items as [|item items IH]; intros n; simpl; constructor.
  - exists n, item. repeat split; lia.
  - eapply Forall_impl; [|apply (IH (S (S n)))].
    intros doc (m & it & Hlo & Hhi & ->). exists m, it.
    repeat split; lia.
Qed.

Lemma stamp_between_stamped (w : World) (lo hi : nat) (d : document) :
  monotone (clock w) -> stamp_between w lo hi (fields d) ->
  stamped_by (clock w) hi d.
Proof.
  intros Hm (n & item & Hlo & Hhi & Hd).
  exists (clock w n), (clock w (S n)). repeat split.
  - destruct d as [oid f]. simpl in Hd. subst f.
    apply timestamps_stamp_at.
  - apply Hm. lia.
  - apply Hm. lia.
Qed.

Lemma docs_from_fields (f : nat -> ObjectId) (docs : list dict) :
  forall n, map fields (docs_from f n docs) = docs.
Proof.
  induction docs as [|doc docs IH]; intros n; simpl; [reflexivity|].
  rewrite IH. reflexivity.
Qed.

Lemma docs_from_length (f : nat -> ObjectId) (docs : list dict) :
  forall n, List.length (docs_from f n docs) = List.length docs.
Proof.
  induction docs as [|doc docs IH]; intros n; simpl; [reflexivity|].
  rewrite IH. reflexivity.
Qed.

Lemma stamps_from_length (w : World) (items : list ProductionItemCreate.t) :
  forall n, List.length (stamps_from w n items) = List.length items.
Proof.
  induction items as [|item items IH]; intros n; simpl; [reflexivity|].
  rewrite IH. reflexivity.
Qed.

Section TimestampProperties.

Context {W : Writes}.

(** What a creation leaves: the clock read twice, and the collection as
    it was or with the stamped document after it. *)
Lemma create_world (item : ProductionItemCreate.t) (w : World) :
  clock (snd (create_production_item item w)) = clock w
  /\ reads (snd (create_production_item item w)) = 2 + reads w
  /\ ((is_ok (fst (create_production_item item w)) = false
       /\ collection (snd (create_production_item item w)) = collection w)
      \/ (is_ok (fst (create_production_item item w)) = true
          /\ collection (snd (create_production_item item w))
             = collection w
               ++ [Document (fresh w (issued w))
                     (stamp_at w (reads w) item)])).
Proof.
  rewrite create_run.
  destruct (encode (stamp_at w (reads w) item)) as [[]|e];
    cbn [fst snd clock reads collection is_ok]; auto.
Qed.

Lemma create_many_world (items : list ProductionItemCreate.t) (w : World) :
  clock (snd (create_many_production_items items w)) = clock w
  /\ reads (snd (create_many_production_items items w))
     = 2 * List.length items + reads w
  /\ ((is_ok (fst (create_many_production_items items w)) = false
       /\ collection (snd (create_many_production_items items w))
          = collection w)
      \/ (is_ok (fst (create_many_production_items items w)) = true
          /\ collection (snd (create_many_production_items items w))
             = collection w
               ++ docs_from (fresh w) (issued w)
                    (stamps_from w (reads w) items))).
Proof.
  destruct items as [|item items].
  - cbn. rewrite app_nil_r. auto.
  - rewrite create_many_run.
    destruct (encode_all _) as [[]|e];
      cbn [fst snd clock reads collection is_ok]; auto.
Qed.

(** *** The effect of [$set] *)

Lemma path_of_not_nil (k : string) : path_of k <> [].
Proof.
  destruct k as [|c k]; simpl; [discriminate|].
  destruct (Ascii.eqb c "."); [discriminate|].
  destruct (path_of k); discriminate.
Qed.

Lemma path_of_top (k : string) :
  exists rest, path_of k = top_of k :: rest.
Proof.
  unfold top_of. destruct (path_of k) as [|top rest] eqn:E.
  - exfalso. exact (path_of_not_nil k E).
  - exists rest. reflexivity.
Qed.

(** A key changes nothing outside the field it addresses. *)
Lemma set_field_untouched (oid : ObjectId) (k : string) (v : value)
    (f f' : dict) (x : string) :
  set_field oid k v f = Ok f' -> top_of k <> x ->
  dict_get x f' = dict_get x f.
Proof.
  unfold set_field, top_of.
  destruct (path_of k) as [|top rest]; [discriminate|]. cbn [hd].
  destruct (negb (takes_path (top :: rest))); [discriminate|].
  destruct (String.eqb top "_id").
  - destruct rest; [|discriminate].
    destruct (value_eqb v (POid oid)); [|discriminate].
    intros [= <-] _. reflexivity.
  - intros H Hne.
    assert (Hx : x <> top) by congruence.
    destruct rest.
    + injection H as <-. apply dict_get_set_other. exact Hx.
    + destruct (set_below (s :: rest) v (dict_get top f)) as [new|e];
        simpl in H; [|discriminate].
      injection H as <-. apply dict_get_set_other. exact Hx.
Qed.

(** A key that names a field of the document, other than [_id], sets
    it. *)
Lemma set_field_plain (oid : ObjectId) (k : string) (v : value)
    (f f' : dict) :
  path_of k = [k] -> k <> "_id" -> set_field oid k v f = Ok f' ->
  f' = dict_set k v f.
Proof.
  unfold set_field. intros -> Hne.
  destruct (negb (takes_path [k])); [discriminate|].
  apply String.eqb_neq in Hne. rewrite Hne.
  intros [= <-]. reflexivity.
Qed.

Lemma set_fields_untouched (oid : ObjectId) (u : dict) (x : string) :
  forall f f',
    set_fields oid u f = Ok f' ->
    (forall k, In k (dict_keys u) -> top_of k <> x) ->
    dict_get x f' = dict_get x f.
Proof.
  induction u as [|[k v] u IH]; intros f f'; simpl.
  - intros [= <-] _. reflexivity.
  - destruct (set_field oid k v f) as [f1|e] eqn:E1; simpl; [|discriminate].
    intros H Hk. rewrite (IH _ _ H).
    + apply (set_field_untouched _ _ _ _ _ _ E1). apply Hk. left.
      reflexivity.
    + intros k' Hin. apply Hk. right. exact Hin.
Qed.

Lemma is_prefix_top (k : string) (q : list string) :
  is_prefix [k] q = true -> hd EmptyString q = k.
Proof.
  destruct q as [|y q]; simpl; [discriminate|].
  rewrite andb_true_r. intros H. apply String.eqb_eq in H.
  symmetry. exact H.
Qed.

Lemma set_fields_sets (oid : ObjectId) (u : dict) :
  forall f f' k v,
    conflicting (map path_of (dict_keys u)) = false ->
    set_fields oid u f = Ok f' -> In (k, v) u ->
    path_of k = [k] -> k <> "_id" -> dict_get k f' = Some v.
Proof.
  induction u as [|[k0 v0] u IH]; intros f f' k v Hc H Hin Hp Hne;
    [contradiction|].
  simpl in Hc. apply orb_false_iff in Hc. destruct Hc as [Hc0 Hc].
  simpl in H.
  destruct (set_field oid k0 v0 f) as [f1|e] eqn:E1; simpl in H;
    [|discriminate].
  destruct Hin as [Heq|Hin].
  - injection Heq as -> ->.
    apply (set_field_plain _ _ _ _ _ Hp Hne) in E1. subst f1.
    rewrite (set_fields_untouched oid u k _ _ H).
    + apply dict_get_set_same.
    + intros k' Hin' Htop.
      assert (Hq : In (path_of k') (map path_of (dict_keys u))).
      { apply in_map. exact Hin'. }
      rewrite Hp in Hc0.
      pose proof (proj1 (existsb_false_all _ _) Hc0 _ Hq) as Hno.
      apply orb_false_iff in Hno. destruct Hno as [Hno _].
      destruct (path_of_top k') as [rest Er].
      rewrite Er, Htop in Hno. simpl in Hno.
      rewrite String.eqb_refl in Hno. discriminate Hno.
  - exact (IH _ _ _ _ Hc H Hin Hp Hne).
Qed.

Lemma apply_set_inv (u : dict) (d d' : document) :
  apply_set u d = Ok d' ->
  conflicting (map path_of (dict_keys u)) = false
  /\ _id d' = _id d
  /\ set_fields (_id d) u (fields d) = Ok (fields d').
Proof.
  unfold apply_set.
  destruct (conflicting (map path_of (dict_keys u))); [discriminate|].
  destruct (set_fields (_id d) u (fields d)) as [f|e]; simpl;
    [|discriminate].
  intros [= <-]. repeat split.
Qed.

Lemma apply_set_id (u : dict) (d d' : document) :
  apply_set u d = Ok d' -> _id d' = _id d.
Proof. intros H. exact (proj1 (proj2 (apply_set_inv _ _ _ H))). Qed.

Lemma apply_set_untouched (u : dict) (x : string) (d d' : document) :
  apply_set u d = Ok d' ->
  (forall k, In k (dict_keys u) -> top_of k <> x) ->
  dict_get x (fields d') = dict_get x (fields d).
Proof.
  intros H Hk. destruct (apply_set_inv _ _ _ H) as (_ & _ & Hs).
  exact (set_fields_untouched _ _ _ _ _ Hs Hk).
Qed.

Lemma apply_set_sets (u : dict) (d d' : document) (k : string) (v : value) :
  apply_set u d = Ok d' -> In (k, v) u ->
  path_of k = [k] -> k <> "_id" -> dict_get k (fields d') = Some v.
Proof.
  intros H Hin Hp Hne. destruct (apply_set_inv _ _ _ H) as (Hc & _ & Hs).
  exact (set_fields_sets _ _ _ _ _ _ Hc Hs Hin Hp Hne).
Qed.

Lemma dict_keys_set (k : string) (v : value) (d : dict) (k' : string) :
  In k' (dict_keys (dict_set k v d)) <-> k' = k \/ In k' (dict_keys d).
Proof.
  induction d as [|[k0 v0] d IH]; simpl.
  - split; [intros [H|[]]; left; congruence|].
    intros [H|[]]. left. congruence.
  - destruct (String.eqb k k0) eqn:E; simpl.
    + apply String.eqb_eq in E. subst k0. split.
      * intros [H|H]; [left; congruence|right; right; exact H].
      * intros [H|[H|H]]; [left|left|right]; congruence.
    + rewrite IH. tauto.
Qed.


Lemma update_first_rel (oid : ObjectId) (u : dict) :
  forall l l' n,
    update_first oid u l = Ok (l', n) ->
    Forall2 (fun d d' => d' = d \/ apply_set u d = Ok d') l l'.
Proof.
  induction l as [|d l IH]; intros l' n; simpl.
  - intros [= <- _]. constructor.
  - destruct (has_id oid d).
    + destruct (apply_set u d) as [d'|e] eqn:Ea; simpl; [|discriminate].
      intros [= <- _]. constructor; [right; exact Ea|].
      clear. induction l; constructor; auto.
    + destruct (update_first oid u l) as [[l1 n1]|e] eqn:Eu; simpl;
        [|discriminate].
      intros [= <- _]. constructor; [left; reflexivity|].
      exact (IH _ _ eq_refl).
Qed.

(** What an update does, by whether the identifier is well formed, the
    driver encodes the update and the store applies it: the clock is
    read once in every case. *)
Lemma update_run (item_id : string) (update_data : dict) (w : World) :
  update_production_item item_id update_data w
  = match ObjectId_of_str item_id with
    | Ok oid =>
        match encode (dict_set "updated_at" (PDatetime (clock w (reads w)))
                        update_data) with
        | Ok _ =>
            match update_first oid
                    (dict_set "updated_at" (PDatetime (clock w (reads w)))
                       update_data) (collection w) with
            | Ok r =>
                (Ok (0 <? snd r),
                 MkWorld (clock w) (S (reads w)) (fresh w) (issued w)
                   (fst r) (calls w ++ [update_one]))
            | Raise _ =>
                (Ok false,
                 MkWorld (clock w) (S (reads w)) (fresh w) (issued w)
                   (collection w) (calls w ++ [update_one]))
            end
        | Raise _ =>
            (Ok false,
             MkWorld (clock w) (S (reads w)) (fresh w) (issued w)
               (collection w) (calls w ++ [update_one]))
        end
    | Raise _ =>
        (Ok false,
         MkWorld (clock w) (S (reads w)) (fresh w) (issued w)
           (collection w) (calls w))
    end.
Proof.
  unfold update_production_item, try_except, bindM, utcnow, lift,
    collection_update_one, bindM, called, get_collection, lift,
    put_collection, ret.
  cbv beta iota.
  destruct (ObjectId_of_str item_id) as [oid|e]; cbv beta iota;
    [|reflexivity].
  destruct (encode _) as [[]|e]; cbv beta iota; [|reflexivity].
  cbn [collection].
  destruct (update_first oid _ (collection w)) as [[l' n]|e];
    reflexivity.
Qed.

(** What an update does to the world: one reading of the clock, and the
    collection either as it was or with [$set] applied. *)
Lemma update_world (item_id : string) (update_data : dict) (w : World) :
  clock (snd (update_production_item item_id update_data w)) = clock w
  /\ reads (snd (update_production_item item_id update_data w))
     = S (reads w)
  /\ Forall2
       (fun d d' =>
          d' = d
          \/ apply_set
               (dict_set "updated_at" (PDatetime (clock w (reads w)))
                  update_data) d = Ok d')
       (collection w)
       (collection (snd (update_production_item item_id update_data w))).
Proof.
  assert (Hsame : forall l : list document,
             Forall2 (fun d d' =>
               d' = d
               \/ apply_set
                    (dict_set "updated_at" (PDatetime (clock w (reads w)))
                       update_data) d = Ok d') l l).
  { induction l; constructor; auto. }
  rewrite update_run.
  destruct (ObjectId_of_str item_id) as [oid|e]; [|simpl; auto].
  destruct (encode _) as [[]|e]; [|simpl; auto].
  destruct (update_first oid _ (collection w)) as [[l' n]|e] eqn:Eu;
    [|simpl; auto].
  cbn [fst snd clock reads collection]. repeat split.
  exact (update_first_rel _ _ _ _ _ Eu).
Qed.

Lemma timestamps_inv (d : document) (c u : Z) :
  timestamps d = Some (c, u) ->
  dict_get "created_at" (fields d) = Some (PDatetime c)
  /\ dict_get "updated_at" (fields d) = Some (PDatetime u).
Proof.
  unfold timestamps.
  destruct (dict_get "created_at" (fields d)) as [[]|]; try discriminate.
  destruct (dict_get "updated_at" (fields d)) as [[]|]; try discriminate.
  intros [= -> ->]. split; reflexivity.
Qed.

(** [$set] with the refreshed [updated_at] on a stamped document. *)
Lemma set_refreshes (clk : nat -> Z) (n : nat) (update_data : dict)
    (d d' : document) :
  keeps_created_at update_data ->
  stamped_by clk n d ->
  apply_set (dict_set "updated_at" (PDatetime (clk n)) update_data) d
  = Ok d' ->
  _id d' = _id d
  /\ exists c u,
       timestamps d = Some (c, u) /\ timestamps d' = Some (c, clk n)
       /\ (c <= u)%Z /\ (u <= clk n)%Z.
Proof.
  intros Hkeys (c & u & Ht & Hcu & Hu) Hset.
  split; [exact (apply_set_id _ _ _ Hset)|].
  exists c, u. repeat split; try assumption.
  apply timestamps_inv in Ht. destruct Ht as [Hc _].
  unfold timestamps.
  rewrite (apply_set_untouched _ "created_at" _ _ Hset), Hc.
  - rewrite (apply_set_sets
               (dict_set "updated_at" (PDatetime (clk n)) update_data)
               d d' "updated_at" (PDatetime (clk n)) Hset).
    + reflexivity.
    + apply dict_get_In. apply dict_get_set_same.
    + reflexivity.
    + discriminate.
  - intros k Hin. rewrite dict_keys_set in Hin. destruct Hin as [->|Hin].
    + discriminate.
    + exact (Hkeys _ Hin).
Qed.

Lemma Forall2_Forall {A : Type} (R : A -> A -> Prop) (P Q : A -> Prop)
    (l l' : list A) :
  (forall x y, R x y -> P x -> Q y) ->
  Forall2 R l l' -> Forall P l -> Forall Q l'.
Proof.
  intros Hstep H2. induction H2 as [|x y l l' Hxy _ IH]; intros HP.
  - constructor.
  - inversion HP; subst. constructor; [eapply Hstep; eauto|auto].
Qed.


Lemma delete_first_Forall (P : document -> Prop) (oid : ObjectId)
    (l : list document) :
  Forall P l -> Forall P (fst (delete_first oid l)).
Proof.
  induction 1 as [|d l Hd Hl IH]; simpl; [constructor|].
  destruct (has_id oid d); simpl; [exact Hl|].
  constructor; assumption.
Qed.

Lemma delete_world (item_id : string) (w : World) :
  clock (snd (delete_production_item item_id w)) = clock w
  /\ reads (snd (delete_production_item item_id w)) = reads w
  /\ (collection (snd (delete_production_item item_id w)) = collection w
      \/ exists oid,
           collection (snd (delete_production_item item_id w))
           = fst (delete_first oid (collection w))).
Proof.
  unfold delete_production_item, try_except, bindM, lift,
    collection_delete_one, bindM, called, get_collection, put_collection, ret.
  cbv beta iota.
  destruct (ObjectId_of_str item_id) as [oid|e]; simpl; [|auto].
  repeat split. right. exists oid. reflexivity.
Qed.


Lemma created_at_reading_stamped (w : World) (k : nat) (d : document) :
  monotone (clock w) ->
  created_at_reading w (reads w) d ->
  (forall n, reads w <= n ->
     timestamps d = Some (clock w n, clock w (S n)) -> S n < k + reads w) ->
  stamped_by (clock w) (k + reads w) d.
Proof.
  intros Hm (n & Hlo & Ht & Hle) Hhi.
  exists (clock w n), (clock w (S n)). repeat split; [exact Ht|exact Hle|].
  apply Hm. specialize (Hhi n Hlo Ht). lia.
Qed.

(** Every admissible operation keeps the store well stamped. *)
Lemma run_well_stamped (o : operation) (w : World) :
  monotone (clock w) -> admissible o -> well_stamped w ->
  well_stamped (run o w).
Proof.
  intros Hm Hadm Hw. unfold well_stamped in *.
  destruct o as [item|items|item_id update_data|item_id|]; unfold run.
  - destruct (create_world item w) as (Hc & Hr & [[_ Hcol]|[_ Hcol]]);
      rewrite Hc, Hr, Hcol.
    + eapply Forall_impl; [|exact Hw].
      intros d. apply stamped_by_later; [exact Hm|lia].
    + apply Forall_app. split.
      * eapply Forall_impl; [|exact Hw].
        intros d. apply stamped_by_later; [exact Hm|lia].
      * constructor; [|constructor].
        apply (stamp_between_stamped w (reads w)); [exact Hm|].
        exists (reads w), item. simpl. repeat split; lia.
  - destruct (create_many_world items w) as (Hc & Hr & [[_ Hcol]|[_ Hcol]]);
      rewrite Hc, Hr, Hcol.
    + eapply Forall_impl; [|exact Hw].
      intros d. apply stamped_by_later; [exact Hm|lia].
    + apply Forall_app. split.
      * eapply Forall_impl; [|exact Hw].
        intros d. apply stamped_by_later; [exact Hm|lia].
      * pose proof (stamps_from_between w items (reads w)) as Hb.
        rewrite <- (docs_from_fields (fresh w)
                      (stamps_from w (reads w) items) (issued w)) in Hb.
        rewrite Forall_map in Hb.
        eapply Forall_impl; [|exact Hb].
        intros d Hd.
        replace (2 * List.length items + reads w)
          with (reads w + 2 * List.length items) by lia.
        exact (stamp_between_stamped _ _ _ _ Hm Hd).
  - destruct (update_world item_id update_data w) as (Hc & Hr & H2).
    rewrite Hc, Hr.
    refine (Forall2_Forall _ _ _ _ _ _ H2 Hw).
    intros d d' [->|Hset] Hd.
    + apply (stamped_by_later _ (reads w) _ _ Hm); [lia|exact Hd].
    + destruct (set_refreshes _ _ _ _ _ Hadm Hd Hset)
        as (_ & c & u & _ & Ht' & Hcu & Hu).
      exists c, (clock w (reads w)). repeat split; [exact Ht'|lia|].
      apply Hm. lia.
  - destruct (delete_world item_id w) as (Hc & Hr & [Hcol|[oid Hcol]]);
      rewrite Hc, Hr, Hcol; [exact Hw|].
    apply delete_first_Forall. exact Hw.
  - simpl. constructor.
Qed.










(** The clock itself is not changed by an operation, so the invariant
    holds after any sequence of admissible operations on an empty
    store. *)
Lemma run_clock (o : operation) (w : World) : clock (run o w) = clock w.
Proof.
  destruct o as [item|items|item_id update_data|item_id|]; unfold run.
  - exact (proj1 (create_world item w)).
  - exact (proj1 (create_many_world items w)).
  - exact (proj1 (update_world item_id update_data w)).
  - exact (proj1 (delete_world item_id w)).
  - reflexivity.
Qed.

Lemma reachable_well_stamped (ops : list operation) :
  forall w,
    monotone (clock w) -> Forall admissible ops -> well_stamped w ->
    well_stamped (fold_left (fun w' o => run o w') ops w).
Proof.
  induction ops as [|o ops IH]; intros w Hm Hadm Hw; simpl; [exact Hw|].
  inversion Hadm; subst. apply IH.
  - rewrite run_clock. exact Hm.
  - assumption.
  - apply run_well_stamped; assumption.
Qed.

End TimestampProperties.

Set Implicit Arguments.







Example update_refreshes_updated_at :
  map timestamps
    (collection
       (@run reference_writes
          (Update "507f1f77bcf86cd799439011" [("status", PStr "completed")])
          sample_world))
  = [Some (10%Z, 30%Z)].
Proof. reflexivity. Qed.

(** A key below a field is applied too, and refreshes the record. *)
Example update_below_a_field_refreshes :
  fst (@update_production_item reference_writes
         "507f1f77bcf86cd799439011" [("dates.fabric", PStr "2024-02-01")]
         sample_world) = Ok true
  /\ map fields
       (collection
          (@run reference_writes
             (Update "507f1f77bcf86cd799439011"
                [("dates.fabric", PStr "2024-02-01")]) sample_world))
     = [[("style", PStr "Classic-Fit"); ("status", PStr "pending");
         ("created_at", PDatetime 10); ("updated_at", PDatetime 30);
         ("dates", PDict [("fabric", PStr "2024-02-01")])]].
Proof. split; reflexivity. Qed.

(** An update that would change [_id] is refused by the store: nothing
    is refreshed. *)
Example update_of_id_is_refused :
  @update_production_item reference_writes "507f1f77bcf86cd799439011"
    [("_id", PStr "x"); ("status", PStr "completed")] sample_world
  = (Ok false,
     MkWorld (clock sample_world) 4 (fresh sample_world) 1
       (collection sample_world) [insert_one; update_one]).
Proof. reflexivity. Qed.

(* ================================================================== *)
(** * Further properties of the gateway *)

Unset Implicit Arguments.

(** ** Identifiers and their text *)

Lemma list_eqb_nat_eq (a b : list nat) :
  list_eqb Nat.eqb a b = true <-> a = b.
Proof.
  revert b. induction a as [|x a IH]; intros [|y b]; simpl;
    try (split; [discriminate|discriminate]); [tauto|].
  rewrite andb_true_iff, Nat.eqb_eq, IH. split.
  - intros [-> ->]. reflexivity.
  - intros [= -> ->]. split; reflexivity.
Qed.

Lemma has_id_eq (oid : ObjectId) (d : document) :
  has_id oid d = true <-> oid = _id d.
Proof. unfold has_id. apply list_eqb_nat_eq. Qed.

Lemma has_id_neq (oid : ObjectId) (d : document) :
  has_id oid d = false <-> oid <> _id d.
Proof.
  rewrite <- has_id_eq. destruct (has_id oid d); split; congruence.
Qed.

Lemma hex_digit_char (n : nat) :
  n < 16 -> hex_digit (hex_char n) = Some n /\ is_space (hex_char n) = false.
Proof.
  intros H. do 16 (destruct n as [|n]; [split; reflexivity|]). lia.
Qed.

Lemma fromhex_pair (c c' : ascii) (s : string) (top bot : nat) :
  is_space c = false -> hex_digit c = Some top -> hex_digit c' = Some bot ->
  fromhex (String c (String c' s))
  = option_map (cons (16 * top + bot)) (fromhex s).
Proof.
  intros Hs Ht Hb. cbn [fromhex]. rewrite Hs, Ht, Hb.
  destruct (fromhex s); reflexivity.
Qed.

Lemma fromhex_str (o : ObjectId) :
  Forall (fun b => b < 256) o -> fromhex (str_of_ObjectId o) = Some o.
Proof.
  induction 1 as [|b o Hb _ IH]; [reflexivity|].
  cbn [str_of_ObjectId].
  assert (Hq : b / 16 < 16) by (apply Nat.Div0.div_lt_upper_bound; lia).
  assert (Hr : b mod 16 < 16) by (apply Nat.mod_upper_bound; lia).
  destruct (hex_digit_char _ Hq) as [Hd1 Hs1].
  destruct (hex_digit_char _ Hr) as [Hd2 _].
  rewrite (fromhex_pair _ _ _ _ _ Hs1 Hd1 Hd2), IH. cbn [option_map].
  do 2 f_equal.
  symmetry. apply Nat.div_mod_eq.
Qed.

Lemma str_of_ObjectId_length (o : ObjectId) :
  String.length (str_of_ObjectId o) = 2 * List.length o.
Proof. induction o as [|b o IH]; simpl; [reflexivity|]. rewrite IH. lia. Qed.

Lemma ObjectId_str_parse (o : ObjectId) :
  oid_wf o ->
  ObjectId_of_str (str_of_ObjectId o) = Ok o
  /\ String.length (str_of_ObjectId o) = 24.
Proof.
  intros [Hlen Hb]. split.
  - unfold ObjectId_of_str.
    rewrite str_of_ObjectId_length, Hlen, (fromhex_str _ Hb). reflexivity.
  - rewrite str_of_ObjectId_length, Hlen. reflexivity.
Qed.

(** X1. The text of an identifier reads back as that identifier: for
    every twelve-byte identifier [o], [ObjectId(str(o))] is [o], and
    [PyObjectId.validate] accepts [str(o)] with the same result. *)
Theorem ObjectId_str_round_trip (o : ObjectId) :
  oid_wf o ->
  ObjectId_of_str (str_of_ObjectId o) = Ok o
  /\ PyObjectId_validate (str_of_ObjectId o) = Ok o.
Proof.
  intros Hwf. destruct (ObjectId_str_parse o Hwf) as [H _].
  split; [exact H|]. unfold PyObjectId_validate. rewrite H. reflexivity.
Qed.

Lemma sample_oid_wf : oid_wf sample_oid.
Proof.
  split; [reflexivity|]. unfold sample_oid.
  repeat (constructor; [lia|]). constructor.
Defined.

(** The identifier of the sample record. *)
Lemma ObjectId_str_round_trip_witness :
  str_of_ObjectId sample_oid = "507f1f77bcf86cd799439011"
  /\ ObjectId_of_str (str_of_ObjectId sample_oid) = Ok sample_oid.
Proof.
  split; [reflexivity|].
  exact (proj1 (ObjectId_str_round_trip sample_oid sample_oid_wf)).
Defined.

(** ** What is stored for an item *)

Lemma dict_set_absent (k : string) (v : value) (d : dict) :
  dict_get k d = None -> dict_set k v d = d ++ [(k, v)].
Proof.
  induction d as [|[k0 v0] d IH]; simpl; [reflexivity|].
  destruct (String.eqb k k0); [discriminate|].
  intros H. rewrite (IH H). reflexivity.
Qed.

Lemma dict_get_app (k : string) (a b : dict) :
  dict_get k (a ++ b)
  = match dict_get k a with Some v => Some v | None => dict_get k b end.
Proof.
  induction a as [|[k0 v0] a IH]; simpl; [reflexivity|].
  destruct (String.eqb k k0); [reflexivity|exact IH].
Qed.

Lemma dict_get_filter_None (k : string) (p : string * value -> bool)
    (d : dict) :
  dict_get k d = None -> dict_get k (filter p d) = None.
Proof.
  induction d as [|[k0 v0] d IH]; simpl; [reflexivity|].
  destruct (String.eqb k k0) eqn:E; [discriminate|].
  intros H. destruct (p (k0, v0)); simpl; [rewrite E|]; exact (IH H).
Qed.

(** The dump of an item has no key outside the nine fields. *)
Lemma dump_no_key (k : string) (item : ProductionItemCreate.t) :
  ~ In k ProductionItemCreate.field_names ->
  dict_get k (ProductionItemCreate.model_dump_exclude_unset item) = None.
Proof.
  intros Hk. unfold ProductionItemCreate.model_dump_exclude_unset.
  apply dict_get_filter_None. simpl.
  repeat match goal with
  | |- context [String.eqb k ?s] =>
      let E := fresh "E" in
      destruct (String.eqb k s) eqn:E;
      [apply String.eqb_eq in E; subst k; exfalso; apply Hk; simpl; tauto|]
  end.
  reflexivity.
Qed.

(** The two dates are set after the fields of the dump, which holds
    neither: they come last, [created_at] then [updated_at]. *)
Lemma stamp_at_fields (w : World) (n : nat) (item : ProductionItemCreate.t) :
  stamp_at w n item
  = ProductionItemCreate.model_dump_exclude_unset item
    ++ [("created_at", PDatetime (clock w n));
        ("updated_at", PDatetime (clock w (S n)))].
Proof.
  unfold stamp_at.
  rewrite (dict_set_absent "created_at").
  - rewrite dict_set_absent.
    + rewrite <- app_assoc. reflexivity.
    + rewrite dict_get_app, dump_no_key; [reflexivity|].
      simpl. intuition discriminate.
  - apply dump_no_key. simpl. intuition discriminate.
Qed.

Lemma find_app_absent {A : Type} (p : A -> bool) (l l' : list A) :
  (forall x, In x l -> p x = false) -> List.find p (l ++ l') = List.find p l'.
Proof.
  induction l as [|x l IH]; simpl; intros H; [reflexivity|].
  rewrite (H x (or_introl eq_refl)). apply IH. auto.
Qed.

Lemma get_explicit (item_id : string) (w : World) :
  get_production_item item_id w
  = match ObjectId_of_str item_id with
    | Ok oid =>
        (Ok (option_map id_to_str
               (option_map as_dict (List.find (has_id oid) (collection w)))),
         MkWorld (clock w) (reads w) (fresh w) (issued w) (collection w)
           (calls w ++ [find_one]))
    | Raise _ => (Ok None, w)
    end.
Proof.
  unfold get_production_item, try_except, bindM, lift.
  destruct (ObjectId_of_str item_id); reflexivity.
Qed.

(** A creation that returns used the driver's next identifier. *)
Lemma create_ok {W : Writes} (item : ProductionItemCreate.t) (w : World)
    (item_id : string) :
  fst (create_production_item item w) = Ok item_id ->
  item_id = str_of_ObjectId (fresh w (issued w))
  /\ collection (snd (create_production_item item w))
     = collection w
       ++ [Document (fresh w (issued w)) (stamp_at w (reads w) item)].
Proof.
  rewrite create_run.
  destruct (encode (stamp_at w (reads w) item)) as [[]|e];
    [|discriminate].
  intros [= <-]. split; reflexivity.
Qed.

(** X2. A created item is read back: when [create_production_item]
    returns an identifier (the driver's next one, of twelve bytes, which
    no stored document has), [get_production_item] on it returns the
    fields set in the item, unchanged and in order, with [_id] as that
    same text first and [created_at], [updated_at] (the two clock
    readings taken) last. *)
Theorem create_then_get {W : Writes} (item : ProductionItemCreate.t)
    (w : World) (item_id : string) :
  fst (create_production_item item w) = Ok item_id ->
  oid_wf (fresh w (issued w)) ->
  (forall d, In d (collection w) -> _id d <> fresh w (issued w)) ->
  item_id = str_of_ObjectId (fresh w (issued w))
  /\ fst (get_production_item item_id
            (snd (create_production_item item w)))
     = Ok (Some (("_id", PStr item_id)
                 :: ProductionItemCreate.model_dump_exclude_unset item
                 ++ [("created_at", PDatetime (clock w (reads w)));
                     ("updated_at", PDatetime (clock w (S (reads w))))])).
Proof.
  intros Hc Hwf Hnew. destruct (create_ok item w item_id Hc) as [-> Hcol].
  split; [reflexivity|].
  rewrite get_explicit.
  destruct (ObjectId_str_parse _ Hwf) as [-> _].
  cbn [fst]. rewrite Hcol, find_app_absent.
  - cbn [List.find].
    rewrite (proj2 (has_id_eq _ (Document (fresh w (issued w)) _)) eq_refl).
    cbn [option_map as_dict _id fields]. rewrite stamp_at_fields.
    unfold id_to_str. cbn [dict_get String.eqb Ascii.eqb Bool.eqb].
    reflexivity.
  - intros d Hd. apply has_id_neq. intro Heq. exact (Hnew d Hd (eq_sym Heq)).
Qed.

Lemma empty_world_next_id : oid_wf (fresh empty_world (issued empty_world)).
Proof.
  split; [reflexivity|]. simpl. repeat (constructor; [lia|]). constructor.
Defined.

(** The first item created in an empty store. *)
Lemma create_then_get_witness :
  fst (@create_production_item reference_writes sample_item empty_world)
  = Ok "000000000000000000000000"
  /\ fst (get_production_item "000000000000000000000000"
            (snd (@create_production_item reference_writes sample_item
                    empty_world)))
     = Ok (Some [("_id", PStr "000000000000000000000000");
                 ("order_number", PStr "PO1"); ("style", PStr "A1");
                 ("fabric", PNone); ("color", PNone); ("quantity", PInt 5);
                 ("status", PStr "pending"); ("dates", PDict []);
                 ("source_file", PStr "plan.xlsx");
                 ("additional_data", PDict []);
                 ("created_at", PDatetime 0); ("updated_at", PDatetime 10)]).
Proof.
  split; [reflexivity|].
  exact (proj2 (@create_then_get reference_writes sample_item empty_world
                  "000000000000000000000000" eq_refl empty_world_next_id
                  (fun d (H : In d []) => match H with end))).
Defined.

(** An item whose quantity does not fit 64 bits is not stored: the
    driver raises, after the clock was read and the store called. *)
Example create_with_huge_quantity :
  @create_production_item reference_writes huge_item empty_world
  = (Raise OverflowError,
     MkWorld (clock empty_world) 2 (fresh empty_world) 1 [] [insert_one]).
Proof. reflexivity. Qed.

(** ** Creating many items *)

Lemma stamps_from_clock (w1 w : World) (items : list ProductionItemCreate.t) :
  clock w1 = clock w ->
  forall n, stamps_from w1 n items = stamps_from w n items.
Proof.
  intros Hc. induction items as [|item items IH]; intros n; simpl.
  - reflexivity.
  - rewrite IH. unfold stamp_at. rewrite Hc. reflexivity.
Qed.

Section BatchProperties.

Context {W : Writes}.

(** The batch that is stored, spelled out. *)
Lemma create_many_ok (items : list ProductionItemCreate.t) (w : World) :
  is_ok (fst (create_many_production_items items w)) = true ->
  create_many_production_items items w
  = (Ok (map str_of_ObjectId
           (map _id
              (docs_from (fresh w) (issued w)
                 (stamps_from w (reads w) items)))),
     MkWorld (clock w) (2 * List.length items + reads w) (fresh w)
       (List.length items + issued w)
       (collection w
        ++ docs_from (fresh w) (issued w) (stamps_from w (reads w) items))
       (calls w ++ match items with [] => [] | _ => [insert_many] end)).
Proof.
  destruct items as [|item items].
  - intros _. cbn. rewrite !app_nil_r. destruct w; reflexivity.
  - rewrite create_many_run.
    destruct (encode_all _) as [[]|e]; [reflexivity|discriminate].
Qed.

(** A batch is stored exactly when the driver encodes every one of its
    stamped documents. *)
Lemma create_many_is_ok (items : list ProductionItemCreate.t) (w : World) :
  is_ok (fst (create_many_production_items items w))
  = is_ok (encode_all (stamps_from w (reads w) items)).
Proof.
  destruct items as [|item items]; [reflexivity|].
  rewrite create_many_run.
  destruct (encode_all _) as [[]|e]; reflexivity.
Qed.


Lemma create_each_ok (items : list ProductionItemCreate.t) :
  forall w,
    is_ok (encode_all (stamps_from w (reads w) items)) = true ->
    create_each items w
    = (Ok (map str_of_ObjectId
             (map _id
                (docs_from (fresh w) (issued w)
                   (stamps_from w (reads w) items)))),
       MkWorld (clock w) (2 * List.length items + reads w) (fresh w)
         (List.length items + issued w)
         (collection w
          ++ docs_from (fresh w) (issued w) (stamps_from w (reads w) items))
         (calls w ++ repeat insert_one (List.length items))).
Proof.
  induction items as [|item items IH]; intros w Henc.
  - simpl. rewrite !app_nil_r. destruct w; reflexivity.
  - cbn [create_each]. unfold bindM at 1. rewrite create_run.
    cbn [stamps_from encode_all] in Henc.
    destruct (encode (stamp_at w (reads w) item)) as [[]|e];
      [|discriminate Henc].
    cbn [bind] in Henc. cbv beta iota. unfold bindM at 1.
    rewrite IH.
    + cbn [clock reads fresh issued collection calls ret].
      match goal with
      | |- context [stamps_from ?w1 ?n items] =>
          rewrite (stamps_from_clock w1 w items eq_refl n)
      end.
      cbn [stamps_from docs_from map _id List.length repeat].
      rewrite <- !app_assoc. cbn [app].
      replace (2 * List.length items + (2 + reads w))
        with (2 * S (List.length items) + reads w) by lia.
      replace (List.length items + S (issued w))
        with (S (List.length items) + issued w) by lia.
      reflexivity.
    + cbn [clock reads].
      match goal with
      | |- context [stamps_from ?w1 ?n items] =>
          rewrite (stamps_from_clock w1 w items eq_refl n)
      end.
      exact Henc.
Qed.

(** X3. A batch that [create_many_production_items] stores is stored as
    creating its items one by one stores them: the same documents with
    the same identifiers and timestamps, in the same order, and the same
    identifiers returned; the clock and the identifier supply end in the
    same state. Only the calls made to the store differ. *)
Theorem create_many_as_create_each (items : list ProductionItemCreate.t)
    (w : World) :
  is_ok (fst (create_many_production_items items w)) = true ->
  fst (create_many_production_items items w) = fst (create_each items w)
  /\ collection (snd (create_many_production_items items w))
     = collection (snd (create_each items w))
  /\ reads (snd (create_many_production_items items w))
     = reads (snd (create_each items w))
  /\ issued (snd (create_many_production_items items w))
     = issued (snd (create_each items w)).
Proof.
  intros Hok. rewrite (create_many_ok items w Hok).
  rewrite create_many_is_ok in Hok.
  rewrite (create_each_ok items w Hok). repeat split.
Qed.


End BatchProperties.

(** Two items created at once in the empty store. *)
Lemma create_many_as_create_each_witness :
  fst (@create_many_production_items reference_writes
         [sample_item; sample_item] empty_world)
  = Ok ["000000000000000000000000"; "000000000000000000000001"]
  /\ fst (@create_many_production_items reference_writes
            [sample_item; sample_item] empty_world)
     = fst (@create_each reference_writes [sample_item; sample_item]
              empty_world).
Proof.
  split; [reflexivity|].
  exact (proj1 (@create_many_as_create_each reference_writes
                  [sample_item; sample_item] empty_world eq_refl)).
Defined.

(** A batch with an item whose quantity does not fit 64 bits is not
    stored, the item before it included. *)
Example batch_with_huge_quantity :
  @create_many_production_items reference_writes [sample_item; huge_item]
    empty_world
  = (Raise OverflowError,
     MkWorld (clock empty_world) 4 (fresh empty_world) 2 [] [insert_many]).
Proof. reflexivity. Qed.

(** ** The operations, spelled out *)

Lemma delete_explicit (item_id : string) (w : World) :
  delete_production_item item_id w
  = match ObjectId_of_str item_id with
    | Ok oid =>
        (Ok (0 <? snd (delete_first oid (collection w))),
         MkWorld (clock w) (reads w) (fresh w) (issued w)
           (fst (delete_first oid (collection w)))
           (calls w ++ [delete_one]))
    | Raise _ => (Ok false, w)
    end.
Proof.
  unfold delete_production_item, try_except, bindM, lift.
  destruct (ObjectId_of_str item_id); reflexivity.
Qed.

(** [delete_one] either finds nothing or takes out the first document
    with the identifier. *)
Lemma delete_first_split (oid : ObjectId) (l : list document) :
  (List.find (has_id oid) l = None /\ delete_first oid l = (l, 0))
  \/ exists pre d post,
       l = pre ++ d :: post /\ has_id oid d = true
       /\ (forall x, In x pre -> has_id oid x = false)
       /\ delete_first oid l = (pre ++ post, 1).
Proof.
  induction l as [|d l IH]; [left; split; reflexivity|].
  simpl. destruct (has_id oid d) eqn:E.
  - right. exists [], d, l. repeat split; [exact E|intros x []].
  - destruct IH as [[Hf Hd]|(pre & d' & post & -> & Hd' & Hpre & Hd)].
    + left. rewrite Hd. split; [exact Hf|reflexivity].
    + right. exists (d :: pre), d', post. rewrite Hd. repeat split.
      * exact Hd'.
      * intros x [<-|Hx]; [exact E|exact (Hpre x Hx)].
Qed.

Lemma update_first_absent {W : Writes} (oid : ObjectId) (u : dict)
    (l : list document) :
  List.find (has_id oid) l = None -> update_first oid u l = Ok (l, 0).
Proof.
  induction l as [|d l IH]; simpl; [reflexivity|].
  destruct (has_id oid d); [discriminate|].
  intros H. rewrite (IH H). reflexivity.
Qed.

Lemma update_first_ids {W : Writes} (oid : ObjectId) (u : dict)
    (l l' : list document) (n : nat) :
  update_first oid u l = Ok (l', n) -> map _id l' = map _id l.
Proof.
  intros H. apply update_first_rel in H.
  induction H as [|d d' l l' Hd _ IH]; [reflexivity|].
  simpl. rewrite IH. f_equal.
  destruct Hd as [->|Hset]; [reflexivity|].
  exact (apply_set_id u d d' Hset).
Qed.

(** ** Identifiers stay distinct *)

Lemma docs_from_ids (f : nat -> ObjectId) (docs : list dict) :
  forall n, map _id (docs_from f n docs) = map f (seq n (List.length docs)).
Proof.
  induction docs as [|doc docs IH]; intros n; simpl; [reflexivity|].
  rewrite IH. reflexivity.
Qed.

Lemma NoDup_map_seq (f : nat -> ObjectId) :
  (forall i j, f i = f j -> i = j) ->
  forall m n, NoDup (map f (seq n m)).
Proof.
  intros Hinj m. induction m as [|m IH]; intros n; simpl; constructor.
  - rewrite in_map_iff. intros (k & Hk & Hin).
    apply Hinj in Hk. apply in_seq in Hin. lia.
  - apply IH.
Qed.

(** Appending newly issued documents keeps the identifiers distinct. *)
Lemma ids_append (f : nat -> ObjectId) (l : list document) (n : nat)
    (docs : list dict) :
  (forall i j, f i = f j -> i = j) ->
  NoDup (map _id l) ->
  Forall (fun d => exists k, k < n /\ _id d = f k) l ->
  NoDup (map _id (l ++ docs_from f n docs))
  /\ Forall (fun d => exists k, k < List.length docs + n /\ _id d = f k)
       (l ++ docs_from f n docs).
Proof.
  intros Hinj Hnd Hall. split.
  - rewrite map_app, docs_from_ids. apply NoDup_app.
    + exact Hnd.
    + apply NoDup_map_seq. exact Hinj.
    + intros a Ha Hb. apply in_map_iff in Ha. destruct Ha as (d & <- & Hd).
      rewrite Forall_forall in Hall. destruct (Hall d Hd) as (k & Hk & Hid).
      apply in_map_iff in Hb. destruct Hb as (j & Hj & Hin).
      rewrite Hid in Hj. apply Hinj in Hj. apply in_seq in Hin. lia.
  - apply Forall_app. split.
    + eapply Forall_impl; [|exact Hall].
      intros d (k & Hk & Hid). exists k. split; [lia|exact Hid].
    + clear Hnd Hall. revert n.
      induction docs as [|doc docs IH]; intros n; simpl; constructor.
      * exists n. split; [lia|reflexivity].
      * eapply Forall_impl; [|apply (IH (S n))].
        intros d (k & Hk & Hid). exists k. split; [lia|exact Hid].
Qed.

(** Identifiers that were used and not stored change nothing. *)
Lemma ids_issued_more (f : nat -> ObjectId) (l : list document) (n m : nat) :
  n <= m ->
  Forall (fun d => exists k, k < n /\ _id d = f k) l ->
  Forall (fun d => exists k, k < m /\ _id d = f k) l.
Proof.
  intros Hle. apply Forall_impl.
  intros d (k & Hk & Hid). exists k. split; [lia|exact Hid].
Qed.

Lemma ids_issued_same_ids (w w' : World) :
  fresh w' = fresh w -> issued w' = issued w ->
  map _id (collection w') = map _id (collection w) ->
  ids_issued w -> ids_issued w'.
Proof.
  unfold ids_issued. intros Hf Hi Hm [Hnd Hall].
  rewrite Hm, Hf, Hi. split; [exact Hnd|].
  apply (proj1 (Forall_map _id
           (fun o => exists n, n < issued w /\ o = fresh w n) _)).
  rewrite Hm.
  apply (proj2 (Forall_map _id
           (fun o => exists n, n < issued w /\ o = fresh w n) _)).
  exact Hall.
Qed.

(** X5. The identifiers of the stored documents stay distinct: when the
    driver never issues the same identifier twice and the stored
    documents have distinct identifiers it issued, this is so again after
    any creation or batch creation (stored or refused), update (whatever
    keys it sets, paths below a field included) or deletion. *)
Theorem ids_stay_distinct {W : Writes} (o : operation) (w : World) :
  fresh_injective w -> ids_issued w ->
  ids_issued (run o w) /\ fresh_injective (run o w).
Proof.
  intros Hinj [Hnd Hall].
  destruct o as [item|items|item_id update_data|item_id|]; unfold run.
  - rewrite create_run.
    destruct (encode (stamp_at w (reads w) item)) as [[]|e];
      (split; [|exact Hinj]); unfold ids_issued;
      cbn [snd collection fresh issued].
    + exact (ids_append (fresh w) (collection w) (issued w)
               [stamp_at w (reads w) item] Hinj Hnd Hall).
    + split; [exact Hnd|].
      apply (ids_issued_more (fresh w) (collection w) (issued w));
        [lia|exact Hall].
  - destruct items as [|item items]; [split; [split|]; assumption|].
    rewrite create_many_run.
    destruct (encode_all _) as [[]|e];
      (split; [|exact Hinj]); unfold ids_issued;
      cbn [snd collection fresh issued].
    + pose proof (ids_append (fresh w) (collection w) (issued w)
                    (stamps_from w (reads w) (item :: items))
                    Hinj Hnd Hall) as H.
      rewrite stamps_from_length in H. exact H.
    + split; [exact Hnd|].
      apply (ids_issued_more (fresh w) (collection w) (issued w));
        [lia|exact Hall].
  - rewrite update_run.
    destruct (ObjectId_of_str item_id) as [oid|e];
      [|split; [split|]; assumption].
    destruct (encode _) as [[]|e]; [|split; [split|]; assumption].
    destruct (update_first oid _ (collection w)) as [[l' n]|e] eqn:Eu;
      [|split; [split|]; assumption].
    cbn [snd]. split; [|exact Hinj].
    apply (ids_issued_same_ids w);
      [reflexivity|reflexivity| |split; assumption].
    exact (update_first_ids _ _ _ _ _ Eu).
  - rewrite delete_explicit.
    destruct (ObjectId_of_str item_id) as [oid|e]; [|split; [split|]; assumption].
    split; [|exact Hinj]. unfold ids_issued. cbn [collection fresh issued snd].
    destruct (delete_first_split oid (collection w))
      as [[_ ->]|(pre & d & post & Hl & _ & _ & ->)]; [split; assumption|].
    cbn [fst]. rewrite Hl in Hnd, Hall. split.
    + rewrite map_app in *. simpl in Hnd. exact (NoDup_remove_1 _ _ _ Hnd).
    + apply Forall_app in Hall. destruct Hall as [Hpre Hpost].
      inversion Hpost; subst. apply Forall_app. split; assumption.
  - split; [|exact Hinj]. split; simpl; constructor.
Qed.

Lemma empty_world_fresh_injective : fresh_injective empty_world.
Proof.
  intros i j H. simpl in H. injection H as H. exact H.
Defined.

Lemma empty_world_ids_issued : ids_issued empty_world.
Proof. split; simpl; constructor. Defined.

Lemma one_record_world_fresh_injective : fresh_injective one_record_world.
Proof.
  intros i j H. simpl in H. injection H as H. exact H.
Defined.

Lemma one_record_world_ids_issued : ids_issued one_record_world.
Proof.
  split.
  - simpl. constructor; [intros []|constructor].
  - simpl. constructor; [|constructor].
    exists 0. split; [lia|reflexivity].
Defined.

(** The store with one record, after an update of a field of its dates
    and after the creation of a second record: the identifiers are still
    distinct. *)
Lemma ids_stay_distinct_witness :
  map _id (collection one_record_world) = [fresh one_record_world 0]
  /\ ids_issued
       (@run reference_writes
          (Update "000000000000000000000000"
             [("dates.fabric", PStr "2024-02-01")]) one_record_world)
  /\ ids_issued
       (@run reference_writes (Create sample_item) one_record_world).
Proof.
  split; [reflexivity|]. split.
  - exact (proj1 (@ids_stay_distinct reference_writes
                    (Update "000000000000000000000000"
                       [("dates.fabric", PStr "2024-02-01")])
                    one_record_world one_record_world_fresh_injective
                    one_record_world_ids_issued)).
  - exact (proj1 (@ids_stay_distinct reference_writes (Create sample_item)
                    one_record_world one_record_world_fresh_injective
                    one_record_world_ids_issued)).
Defined.

(** ** Deleting *)

Lemma delete_first_gone (oid : ObjectId) (l : list document) :
  NoDup (map _id l) ->
  List.find (has_id oid) (fst (delete_first oid l)) = None.
Proof.
  intros Hnd.
  destruct (delete_first_split oid l)
    as [[Hf ->]|(pre & d & post & -> & Hd & Hpre & ->)]; [exact Hf|].
  cbn [fst]. apply find_none_all. intros x Hx.
  apply in_app_or in Hx. destruct Hx as [Hx|Hx]; [exact (Hpre x Hx)|].
  apply has_id_neq. intros Heq. apply has_id_eq in Hd.
  rewrite map_app in Hnd. simpl in Hnd. apply NoDup_remove_2 in Hnd.
  apply Hnd. apply in_or_app. right. rewrite <- Hd, Heq.
  apply in_map. exact Hx.
Qed.

(** X6. After [delete_production_item], whatever it answered, the
    identifier is gone from a store with distinct identifiers:
    [get_production_item] on it returns [None] and a second
    [delete_production_item] returns [False]. *)
Theorem delete_then_not_found (item_id : string) (w : World) :
  NoDup (map _id (collection w)) ->
  fst (get_production_item item_id (snd (delete_production_item item_id w)))
  = Ok None
  /\ fst (delete_production_item item_id
            (snd (delete_production_item item_id w)))
     = Ok false.
Proof.
  intros Hnd. rewrite (delete_explicit item_id w).
  destruct (ObjectId_of_str item_id) as [oid|e] eqn:Eo; cbn [snd].
  - rewrite get_explicit, delete_explicit, Eo. cbn [fst collection].
    rewrite (delete_first_gone oid _ Hnd).
    rewrite (delete_first_absent oid _ (delete_first_gone oid _ Hnd)).
    split; reflexivity.
  - rewrite get_explicit, delete_explicit, Eo. split; reflexivity.
Qed.

Lemma sample_world_distinct : NoDup (map _id (collection sample_world)).
Proof. simpl. constructor; [intros []|constructor]. Defined.

(** The sample record, deleted. *)
Lemma delete_then_not_found_witness :
  fst (delete_production_item "507f1f77bcf86cd799439011" sample_world)
  = Ok true
  /\ fst (get_production_item "507f1f77bcf86cd799439011"
            (snd (delete_production_item "507f1f77bcf86cd799439011"
                    sample_world)))
     = Ok None.
Proof.
  split; [reflexivity|].
  exact (proj1 (delete_then_not_found "507f1f77bcf86cd799439011"
                  sample_world sample_world_distinct)).
Defined.

(** X7. [delete_production_item] removes at most one document: it
    answers [True] exactly when the identifier is well formed and some
    stored document has it, and then the first such document is taken out
    and every other stays, in order; otherwise the collection is as it
    was. *)
Theorem delete_removes_at_most_one (item_id : string) (w : World) :
  (fst (delete_production_item item_id w) = Ok true
   /\ exists oid pre d post,
        ObjectId_of_str item_id = Ok oid
        /\ collection w = pre ++ d :: post
        /\ _id d = oid
        /\ (forall x, In x pre -> _id x <> oid)
        /\ collection (snd (delete_production_item item_id w)) = pre ++ post)
  \/ (fst (delete_production_item item_id w) = Ok false
      /\ collection (snd (delete_production_item item_id w)) = collection w
      /\ forall oid, ObjectId_of_str item_id = Ok oid ->
           forall d, In d (collection w) -> _id d <> oid).
Proof.
  rewrite delete_explicit.
  destruct (ObjectId_of_str item_id) as [oid|e] eqn:Eo.
  - destruct (delete_first_split oid (collection w))
      as [[Hf Hd]|(pre & d & post & Hl & Hd & Hpre & Hdel)].
    + right. rewrite Hd. cbn [fst snd collection]. repeat split.
      intros oid' [= <-] d Hin Heq.
      pose proof (find_none _ _ Hf d Hin) as Hn.
      apply has_id_neq in Hn. congruence.
    + left. rewrite Hdel. cbn [fst snd collection]. split; [reflexivity|].
      exists oid, pre, d, post. repeat split.
      * exact Hl.
      * symmetry. apply has_id_eq. exact Hd.
      * intros x Hx Heq. specialize (Hpre x Hx).
        apply has_id_neq in Hpre. congruence.
  - right. cbn [fst snd]. repeat split. intros oid [=].
Qed.

(** X8. [delete_all_production_items] returns the number of stored
    documents and leaves none: afterwards every lookup returns [None],
    and every query the store accepts returns the empty page with total
    zero. *)
Theorem delete_all_empties {E : Engine} (w : World) :
  fst (delete_all_production_items w) = Ok (List.length (collection w))
  /\ collection (snd (delete_all_production_items w)) = []
  /\ (forall item_id,
        fst (get_production_item item_id
               (snd (delete_all_production_items w))) = Ok None)
  /\ (forall skip limit style status order_number items total,
        fst (get_production_items skip limit style status order_number
               (snd (delete_all_production_items w))) = Ok (items, total) ->
        items = [] /\ total = 0).
Proof.
  split; [reflexivity|]. split; [reflexivity|]. split.
  - intros item_id. rewrite get_explicit.
    destruct (ObjectId_of_str item_id); reflexivity.
  - intros skip limit style status order_number items total H.
    rewrite get_production_items_run in H.
    destruct (compile_query _) as [cq|]; [|discriminate].
    destruct (skip <? 0)%Z; [discriminate|].
    destruct (limit <? 0)%Z; [discriminate|].
    injection H as <- <-. unfold page_of, sorted_matching, matching.
    cbn [collection snd]. cbn [filter].
    rewrite (Permutation_nil
               (Permutation_sym (sort_created_at_desc_perm _ []))).
    rewrite skipn_nil, firstn_nil. split; reflexivity.
Qed.

(** ** Updating *)

(** X9. [update_production_item] never adds or removes a document and
    never changes an identifier, whatever keys it is given (names of
    fields or paths below them, accepted by the store or refused), and
    it reads the clock once; on an identifier that is not well formed or
    that no stored document has it answers [False] and leaves every
    document as it was. *)
Theorem update_keeps_the_records {W : Writes} (item_id : string)
    (update_data : dict) (w : World) :
  map _id (collection (snd (update_production_item item_id update_data w)))
  = map _id (collection w)
  /\ reads (snd (update_production_item item_id update_data w))
     = S (reads w)
  /\ ((forall oid, ObjectId_of_str item_id = Ok oid ->
         List.find (has_id oid) (collection w) = None) ->
      fst (update_production_item item_id update_data w) = Ok false
      /\ collection (snd (update_production_item item_id update_data w))
         = collection w).
Proof.
  rewrite update_run.
  destruct (ObjectId_of_str item_id) as [oid|e].
  - destruct (encode _) as [[]|e].
    + destruct (update_first oid _ (collection w)) as [[l' n]|e] eqn:Eu.
      * cbn [fst snd collection reads]. split; [|split; [reflexivity|]].
        -- exact (update_first_ids _ _ _ _ _ Eu).
        -- intros Habs. specialize (Habs oid eq_refl).
           rewrite (update_first_absent oid _ _ Habs) in Eu.
           injection Eu as <- <-. split; reflexivity.
      * cbn [fst snd collection reads]. repeat split.
    + cbn [fst snd collection reads]. repeat split.
  - cbn [fst snd collection reads]. repeat split.
Qed.

(** ** Pages *)

Lemma firstn_add {A : Type} (a b : nat) (l : list A) :
  firstn (a + b) l = firstn a l ++ firstn b (List.skipn a l).
Proof.
  revert l. induction a as [|a IH]; intros l; [reflexivity|].
  destruct l as [|x l]; simpl.
  - rewrite firstn_nil. reflexivity.
  - rewrite IH. reflexivity.
Qed.

(** A query that returns was given a filter the store accepts and a
    [skip] and [limit] that are not negative. *)
Lemma get_production_items_ok {E : Engine} (skip limit : Z)
    (style status order_number : option string) (w : World)
    (items : list dict) (total : nat) :
  fst (get_production_items skip limit style status order_number w)
  = Ok (items, total) ->
  exists cq,
    compile_query (build_query style status order_number) = Some cq
    /\ (0 <= skip)%Z /\ (0 <= limit)%Z
    /\ items = map id_to_str (map as_dict (page_of cq skip limit w))
    /\ total = List.length (matching cq w).
Proof.
  rewrite get_production_items_run.
  destruct (compile_query _) as [cq|]; [|discriminate].
  destruct (skip <? 0)%Z eqn:Es; [discriminate|].
  destruct (limit <? 0)%Z eqn:El; [discriminate|].
  intros [= <- <-]. exists cq.
  apply Z.ltb_ge in Es, El. repeat split; assumption.
Qed.

(** X10. The page of a query holds [limit] documents, or what is left of
    the matches after [skip] when that is less: its length is the
    smaller of [limit] and [total - skip] (zero once [skip] reaches the
    total). *)
Theorem page_length {E : Engine} (skip limit : Z)
    (style status order_number : option string) (w : World)
    (items : list dict) (total : nat) :
  fst (get_production_items skip limit style status order_number w)
  = Ok (items, total) ->
  List.length items = Nat.min (Z.to_nat limit) (total - Z.to_nat skip).
Proof.
  intros H. apply get_production_items_ok in H.
  destruct H as (cq & _ & _ & _ & -> & ->).
  rewrite !length_map. unfold page_of, sorted_matching.
  rewrite length_firstn, length_skipn.
  rewrite (Permutation_length
             (sort_created_at_desc_perm _ (matching cq w))).
  reflexivity.
Qed.

(** The second page of size one of the sample store is empty. *)
Lemma page_length_witness :
  fst (get_production_items 1 1 (Some "classic") None None sample_world)
  = Ok ([], 1)
  /\ List.length (@nil dict) = Nat.min (Z.to_nat 1) (1 - Z.to_nat 1).
Proof.
  split; [reflexivity|].
  exact (page_length 1 1 (Some "classic") None None sample_world [] 1
           eq_refl).
Defined.

Lemma get_production_items_store {E : Engine} (skip limit : Z)
    (style status order_number : option string) (w : World) :
  collection
    (snd (Database.get_production_items skip limit style status
            order_number w))
  = collection w.
Proof.
  unfold Database.get_production_items, bindM, collection_count_documents,
    collection_find_page, bindM, called, get_collection, call_count.
  cbv beta iota.
  destruct (compile_query (build_query style status order_number)) as [cq|];
    [|reflexivity].
  unfold ret. cbv beta iota.
  destruct (skip <? 0)%Z; [reflexivity|].
  destruct (limit <? 0)%Z; reflexivity.
Qed.

(** Documents that all hold a date, no two the same, have one order by
    decreasing date. *)
Lemma sorted_unique (l1 : list document) :
  forall l2,
    Permutation l1 l2 ->
    StronglySorted newer_first l1 -> StronglySorted newer_first l2 ->
    distinct_dates l1 -> l1 = l2.
Proof.
  induction l1 as [|a l1 IH]; intros l2 Hp Hs1 Hs2 [Hall Hnd].
  - apply Permutation_nil in Hp. symmetry. exact Hp.
  - destruct l2 as [|b l2].
    + apply Permutation_sym, Permutation_nil in Hp. discriminate Hp.
    + assert (Hab : a = b).
      { assert (Ha : In a (b :: l2))
          by (apply (Permutation_in _ Hp); left; reflexivity).
        assert (Hb : In b (a :: l1))
          by (apply (Permutation_in _ (Permutation_sym Hp)); left;
              reflexivity).
        destruct Ha as [Ha|Ha]; [symmetry; exact Ha|].
        destruct Hb as [Hb|Hb]; [exact Hb|]. exfalso.
        apply StronglySorted_inv in Hs1, Hs2.
        destruct Hs1 as [_ H1]. destruct Hs2 as [_ H2].
        rewrite Forall_forall in H1, H2, Hall.
        pose proof (H1 b Hb) as Hnab. pose proof (H2 a Ha) as Hnba.
        destruct (created_at_of a) as [x|] eqn:Ex;
          [|exact (Hall a (or_introl eq_refl) Ex)].
        destruct (created_at_of b) as [y|] eqn:Ey;
          [|exact (Hall b (or_intror Hb) Ey)].
        specialize (Hnab x y Ex Ey).
        specialize (Hnba y x Ey Ex).
        assert (x = y) by lia. subst y.
        simpl in Hnd. rewrite Ex in Hnd.
        apply NoDup_cons_iff in Hnd. destruct Hnd as [Hnotin _].
        apply Hnotin. rewrite <- Ey. apply in_map. exact Hb. }
      subst b. f_equal. apply IH.
      * exact (Permutation_cons_inv Hp).
      * apply StronglySorted_inv in Hs1. tauto.
      * apply StronglySorted_inv in Hs2. tauto.
      * split.
        -- inversion Hall; assumption.
        -- simpl in Hnd. apply NoDup_cons_iff in Hnd. tauto.
Qed.

(** With distinct dates, the order the store has is the same at every
    call. *)
Lemma sort_created_at_desc_unique {E : Engine} (n m : nat)
    (l : list document) :
  distinct_dates l ->
  sort_created_at_desc n l = sort_created_at_desc m l.
Proof.
  intros [Hall Hnd]. apply sorted_unique.
  - eapply Permutation_trans; [apply sort_created_at_desc_perm|].
    apply Permutation_sym, sort_created_at_desc_perm.
  - apply sort_created_at_desc_sorted.
  - apply sort_created_at_desc_sorted.
  - split.
    + apply (Permutation_Forall
               (Permutation_sym (sort_created_at_desc_perm n l))).
      exact Hall.
    + apply (Permutation_NoDup
               (Permutation_map created_at_of
                  (Permutation_sym (sort_created_at_desc_perm n l)))).
      exact Hnd.
Qed.

(** X11. Consecutive pages join, when the documents the filters select
    all hold a [created_at] date and no two hold the same: of three
    listings run one after the other, the page of [limit1] documents
    from [skip], then the page of [limit2] from [skip + limit1], then
    the page of [limit1 + limit2] from [skip], the third page is the
    first followed by the second, and the three totals are the same.
    (Among documents with the same date the store fixes no order, and
    the pages of separate listings need not fit together.) *)
Theorem consecutive_pages_join {E : Engine} (skip limit1 limit2 : Z)
    (style status order_number : option string) (w w1 w2 : World)
    (cq : list (string * compiled_cond))
    (page1 page2 : list dict) (total1 total2 : nat) :
  compile_query (build_query style status order_number) = Some cq ->
  distinct_dates (matching cq w) ->
  get_production_items skip limit1 style status order_number w
  = (Ok (page1, total1), w1) ->
  get_production_items (skip + limit1) limit2 style status order_number w1
  = (Ok (page2, total2), w2) ->
  fst (get_production_items skip (limit1 + limit2) style status
         order_number w2) = Ok (page1 ++ page2, total1)
  /\ total2 = total1.
Proof.
  intros Ecq Hd H1 H2.
  assert (Hc1 : collection w1 = collection w).
  { rewrite <- (get_production_items_store skip limit1 style status
                  order_number w), H1. reflexivity. }
  assert (Hc2 : collection w2 = collection w).
  { rewrite <- Hc1,
      <- (get_production_items_store (skip + limit1) limit2 style status
            order_number w1), H2. reflexivity. }
  assert (Hm1 : matching cq w1 = matching cq w)
    by (unfold matching; rewrite Hc1; reflexivity).
  assert (Hm2 : matching cq w2 = matching cq w)
    by (unfold matching; rewrite Hc2; reflexivity).
  apply (f_equal fst) in H1, H2. cbn [fst] in H1, H2.
  apply get_production_items_ok in H1, H2.
  destruct H1 as (cq1 & Ecq1 & Hs & Hl1 & -> & ->).
  destruct H2 as (cq2 & Ecq2 & _ & Hl2 & -> & ->).
  rewrite Ecq in Ecq1, Ecq2. injection Ecq1 as <-. injection Ecq2 as <-.
  split; [|rewrite Hm1; reflexivity].
  rewrite get_production_items_run, Ecq.
  destruct (Z.ltb_spec skip 0) as [Hneg|_]; [lia|].
  destruct (Z.ltb_spec (limit1 + limit2) 0) as [Hneg|_]; [lia|].
  rewrite Hm2. do 2 f_equal. rewrite <- !map_app. do 2 f_equal.
  unfold page_of, sorted_matching. rewrite Hm1, Hm2.
  rewrite (sort_created_at_desc_unique
             (S (List.length (calls w1))) (S (List.length (calls w)))
             _ Hd).
  rewrite (sort_created_at_desc_unique
             (S (List.length (calls w2))) (S (List.length (calls w)))
             _ Hd).
  rewrite (Z2Nat.inj_add limit1 limit2 Hl1 Hl2), firstn_add.
  rewrite skipn_skipn, (Z2Nat.inj_add skip limit1 Hs Hl1).
  rewrite (Nat.add_comm (Z.to_nat limit1)). reflexivity.
Qed.

Lemma two_record_world_distinct_dates :
  distinct_dates (@matching reference_engine [] two_record_world).
Proof.
  split.
  - repeat constructor; discriminate.
  - simpl. repeat constructor; simpl; intuition discriminate.
Defined.

(** A store with two records read one document at a time: the newer
    first. *)
Lemma consecutive_pages_join_witness :
  fst (@get_production_items reference_engine 0 1 None None None
         two_record_world)
  = Ok ([[("_id", PStr "000000000000000000000001");
          ("order_number", PStr "PO1"); ("style", PStr "A1");
          ("fabric", PNone); ("color", PNone); ("quantity", PInt 5);
          ("status", PStr "pending"); ("dates", PDict []);
          ("source_file", PStr "plan.xlsx"); ("additional_data", PDict []);
          ("created_at", PDatetime 20); ("updated_at", PDatetime 30)]], 2)
  /\ exists page1 page2,
       fst (@get_production_items reference_engine 0 2 None None None
              (snd (@get_production_items reference_engine 1 1 None None
                      None
                      (snd (@get_production_items reference_engine 0 1
                              None None None two_record_world)))))
       = Ok (page1 ++ page2, 2)
       /\ List.length page1 = 1 /\ List.length page2 = 1.
Proof.
  split; [reflexivity|]. eexists _, _. split.
  - exact (proj1 (@consecutive_pages_join reference_engine 0 1 1 None None
                    None two_record_world _ _ [] _ _ 2 2 eq_refl
                    two_record_world_distinct_dates eq_refl eq_refl)).
  - split; reflexivity.
Defined.

(* ================================================================== *)
(** * Further properties of the parser *)

Section MoreMaterializerProperties.

Context {LI : LaxInt}.

Lemma materialize_loop_all_fail (filename : string) (l : list value) :
  (forall v, In v l -> is_ok (construct filename v) = false) ->
  forall acc, materialize_loop filename l acc = acc.
Proof.
  induction l as [|v l IH]; intros Hall acc; simpl; [reflexivity|].
  pose proof (Hall v (or_introl eq_refl)) as Hv.
  destruct (construct filename v); [discriminate|].
  apply IH. intros v' Hin. apply Hall. right. exact Hin.
Qed.

(** X12. A reply whose items are not a list gives no record and no
    error: a string is walked character by character and an object key
    by key, none of which is a mapping, so every one is skipped and the
    batch is empty. This is what becomes of any value [normalize_reply]
    returns that is not a list. *)
Theorem items_not_a_list_give_no_record (filename : string) :
  (forall s, materialize filename (PStr s) = Ok [])
  /\ (forall d, materialize filename (PDict d) = Ok [])
  /\ (forall parsed_data items,
        normalize_reply parsed_data = Ok items -> is_list items = false ->
        materialize filename items = Ok []).
Proof.
  assert (Hs : forall s, materialize filename (PStr s) = Ok []).
  { intros s. unfold materialize. simpl.
    rewrite materialize_loop_all_fail; [reflexivity|].
    intros v Hin. induction s as [|c s IH]; simpl in Hin; [contradiction|].
    destruct Hin as [<-|Hin]; [reflexivity|exact (IH Hin)]. }
  assert (Hd : forall d, materialize filename (PDict d) = Ok []).
  { intros d. unfold materialize. simpl.
    rewrite materialize_loop_all_fail; [reflexivity|].
    intros v Hin. apply in_map_iff in Hin. destruct Hin as (k & <- & _).
    reflexivity. }
  split; [exact Hs|]. split; [exact Hd|].
  intros parsed_data items Hn Hl. unfold normalize_reply in Hn.
  destruct (len (select_items parsed_data)) as [n|e] eqn:El;
    simpl in Hn; [|discriminate].
  injection Hn as <-.
  destruct (select_items parsed_data); simpl in El, Hl; try discriminate.
  - apply Hs.
  - apply Hd.
Qed.

(** X13. A reply that is a bare object (no [items], no
    [production_items], no list-valued field) is taken as one raw item:
    the batch holds its record when it constructs and is empty when it
    does not. *)
Theorem bare_object_is_one_item (filename : string) (d : dict) :
  dict_get "items" d = None ->
  dict_get "production_items" d = None ->
  (forall kv, In kv d -> is_list (snd kv) = false) ->
  extracted <- normalize_reply (PDict d) ;; materialize filename extracted
  = Ok match construct filename (PDict d) with
       | Ok r => [r]
       | Raise _ => []
       end.
Proof.
  intros Hi Hp Hall. unfold normalize_reply, select_items.
  rewrite Hi, Hp. unfold dict_values.
  rewrite find_none_all.
  - simpl. destruct (construct filename (PDict d)); reflexivity.
  - intros y Hy. apply in_map_iff in Hy. destruct Hy as (kv & <- & Hin).
    exact (Hall kv Hin).
Qed.

Lemma init_inv_all (o s f c q st : value) (dates : ProductionDates.t)
    (source_file : string) (ad : value) (r : ProductionItemCreate.t) :
  ProductionItemCreate.init o s f c q st dates source_file ad = Ok r ->
  validate_optional validate_str o
  = Some (ProductionItemCreate.order_number r)
  /\ validate_optional validate_str s = Some (ProductionItemCreate.style r)
  /\ validate_optional validate_str f = Some (ProductionItemCreate.fabric r)
  /\ validate_optional validate_str c = Some (ProductionItemCreate.color r)
  /\ validate_optional lax_int q = Some (ProductionItemCreate.quantity r)
  /\ ProductionItemCreate.model_fields_set r
     = ProductionItemCreate.field_names.
Proof.
  unfold ProductionItemCreate.init.
  destruct (validate_optional validate_str o); [|discriminate].
  destruct (validate_optional validate_str s); [|discriminate].
  destruct (validate_optional validate_str f); [|discriminate].
  destruct (validate_optional validate_str c); [|discriminate].
  destruct (validate_optional lax_int q); [|discriminate].
  destruct (validate_optional validate_str st); [|discriminate].
  destruct (validate_optional validate_dict_any ad); [|discriminate].
  intros [= <-]. simpl. repeat split.
Qed.

(** What a record holds of the raw item it was built from. *)
Lemma construct_inv_all (filename : string) (v : value)
    (r : ProductionItemCreate.t) :
  construct filename v = Ok r ->
  exists d,
    v = PDict d
    /\ validate_optional validate_str (dict_get_default "order_number" PNone d)
       = Some (ProductionItemCreate.order_number r)
    /\ validate_optional validate_str (dict_get_default "style" PNone d)
       = Some (ProductionItemCreate.style r)
    /\ validate_optional validate_str (dict_get_default "fabric" PNone d)
       = Some (ProductionItemCreate.fabric r)
    /\ validate_optional validate_str (dict_get_default "color" PNone d)
       = Some (ProductionItemCreate.color r)
    /\ validate_optional lax_int (dict_get_default "quantity" PNone d)
       = Some (ProductionItemCreate.quantity r)
    /\ ProductionItemCreate.model_fields_set r
       = ProductionItemCreate.field_names
    /\ ProductionItemCreate.source_file r = Some filename
    /\ exists dates, ProductionItemCreate.dates r = Some dates.
Proof.
  intros H. destruct v; try discriminate H. exists d. split; [reflexivity|].
  pose proof H as H'. rewrite construct_dict in H'.
  destruct (dates_of (dict_get_default "dates" (PDict []) d)) as [dates|e];
    simpl in H'; [|discriminate].
  pose proof (init_inv _ _ _ _ _ _ _ _ _ H') as (_ & _ & Hd & Hsf).
  apply init_inv_all in H'.
  destruct H' as (Ho & Hs & Hf & Hc & Hq & Hset).
  unfold dict_get_default in *.
  rewrite dict_get_remove_other in Ho, Hs, Hf, Hc, Hq by discriminate.
  repeat split; try assumption. exists dates. exact Hd.
Qed.

(** X14. Every record of a batch carries the name of the uploaded file
    as [source_file], has [dates] set, and has all nine fields marked as
    set, whatever the raw item held. *)
Theorem batch_records_carry_the_file_name (filename : string) (l : list value)
    (production_items : list ProductionItemCreate.t) :
  materialize filename (PList l) = Ok production_items ->
  Forall (fun r =>
            ProductionItemCreate.source_file r = Some filename
            /\ ProductionItemCreate.dates r <> None
            /\ ProductionItemCreate.model_fields_set r
               = ProductionItemCreate.field_names)
    production_items.
Proof.
  unfold materialize. simpl. rewrite materialize_loop_successes. simpl.
  intros [= <-]. apply Forall_forall. intros r Hr.
  unfold successes in Hr. apply in_flat_map in Hr.
  destruct Hr as (v & _ & Hr).
  destruct (construct filename v) as [r'|e] eqn:Ec; [|contradiction].
  destruct Hr as [<-|[]].
  apply construct_inv_all in Ec.
  destruct Ec as (d & _ & _ & _ & _ & _ & _ & Hset & Hsf & dates & Hd).
  split; [exact Hsf|]. split; [rewrite Hd; discriminate|exact Hset].
Qed.

(** X15. The text fields are copied as they are: a record's
    [order_number], [style], [fabric] and [color] are the strings the raw
    item holds under those keys, and null where the key is absent or
    null; a raw item that holds anything else there (a number, a list)
    builds no record. *)
Theorem text_fields_are_copied (filename : string) (d : dict) :
  (forall r, construct filename (PDict d) = Ok r ->
     forall k get,
       In (k, get)
         [("order_number", ProductionItemCreate.order_number);
          ("style", ProductionItemCreate.style);
          ("fabric", ProductionItemCreate.fabric);
          ("color", ProductionItemCreate.color)] ->
       match dict_get k d with
       | None | Some PNone => get r = None
       | Some (PStr s) => get r = Some s
       | Some _ => False
       end)
  /\ (forall k v,
        In k ["order_number"; "style"; "fabric"; "color"] ->
        dict_get k d = Some v -> validate_optional validate_str v = None ->
        is_ok (construct filename (PDict d)) = false).
Proof.
  assert (Hcopy : forall (o : option value) (x : option string),
             validate_optional validate_str
               (match o with Some v => v | None => PNone end) = Some x ->
             match o with
             | None | Some PNone => x = None
             | Some (PStr s) => x = Some s
             | Some _ => False
             end).
  { intros [v|] x; simpl; [|congruence].
    destruct v; simpl; congruence. }
  split.
  - intros r Hr k get Hin. apply construct_inv_all in Hr.
    destruct Hr as (d' & [= <-] & Ho & Hs & Hf & Hc & _).
    unfold dict_get_default in *. simpl in Hin.
    destruct Hin as [[= <- <-]|[[= <- <-]|[[= <- <-]|[[= <- <-]|[]]]]];
      apply Hcopy; assumption.
  - intros k v Hin Hk Hbad.
    destruct (construct filename (PDict d)) as [r|e] eqn:Ec; [|reflexivity].
    apply construct_inv_all in Ec.
    destruct Ec as (d' & [= <-] & Ho & Hs & Hf & Hc & _).
    unfold dict_get_default in *. simpl in Hin.
    destruct Hin as [<-|[<-|[<-|[<-|[]]]]];
      rewrite Hk in *; congruence.
Qed.

End MoreMaterializerProperties.

(** A bare object with a style. *)
Lemma bare_object_is_one_item_witness :
  exists r,
    extracted <- normalize_reply (PDict [("style", PStr "A1")]) ;;
    materialize "plan.xlsx" extracted = Ok [r]
    /\ ProductionItemCreate.style r = Some "A1".
Proof.
  assert (Hall : forall kv : string * value,
             In kv [("style", PStr "A1")] -> is_list (snd kv) = false).
  { intros kv [<-|[]]. reflexivity. }
  eexists. split.
  - exact (@bare_object_is_one_item int_exact "plan.xlsx"
             [("style", PStr "A1")] eq_refl eq_refl Hall).
  - reflexivity.
Defined.

(** A batch of two raw items, the second not a mapping. *)
Lemma batch_records_carry_the_file_name_witness :
  exists r,
    materialize "plan.xlsx" (PList [PDict [("style", PStr "A1")]; PInt 4])
    = Ok [r]
    /\ ProductionItemCreate.source_file r = Some "plan.xlsx".
Proof.
  eexists. split; [reflexivity|].
  pose proof (@batch_records_carry_the_file_name int_exact "plan.xlsx"
                [PDict [("style", PStr "A1")]; PInt 4] _ eq_refl) as H.
  inversion H as [|r rs Hr _]. exact (proj1 Hr).
Defined.

(** ** What is stored for a record of the parser *)

Lemma dump_keys_all_set (r : ProductionItemCreate.t) :
  ProductionItemCreate.model_fields_set r
  = ProductionItemCreate.field_names ->
  dict_keys (ProductionItemCreate.model_dump_exclude_unset r)
  = ProductionItemCreate.field_names.
Proof.
  intros H. unfold ProductionItemCreate.model_dump_exclude_unset.
  rewrite H. reflexivity.
Qed.

Lemma stamps_from_items (w : World) (items : list ProductionItemCreate.t) :
  forall n doc,
    In doc (stamps_from w n items) ->
    exists m item, In item items /\ doc = stamp_at w m item.
Proof.
  induction items as [|item items IH]; intros n doc; simpl; [intros []|].
  intros [<-|Hin].
  - exists n, item. split; [left; reflexivity|reflexivity].
  - destruct (IH _ _ Hin) as (m & it & Hit & Hdoc).
    exists m, it. split; [right; exact Hit|exact Hdoc].
Qed.

Lemma successes_constructed {LI : LaxInt} (filename : string)
    (l : list value) (r : ProductionItemCreate.t) :
  In r (successes filename l) -> exists v, construct filename v = Ok r.
Proof.
  unfold successes. intros Hr. apply in_flat_map in Hr.
  destruct Hr as (v & _ & Hr).
  destruct (construct filename v) as [r'|e] eqn:Ec; [|contradiction].
  destruct Hr as [<-|[]]. exists v. exact Ec.
Qed.

Lemma dict_keys_get (k : string) (d : dict) :
  In k (dict_keys d) -> exists x, dict_get k d = Some x.
Proof.
  intros Hin.
  destruct (dict_get k d) as [x|] eqn:Eg; [exists x; reflexivity|].
  exfalso. unfold dict_keys in Hin. apply in_map_iff in Hin.
  destruct Hin as ([k' x] & Hfst & Hkv). simpl in Hfst. subst k'.
  exact (dict_get_None_notin k d Eg x Hkv).
Qed.

(** X16. The records the parser builds are stored with all of their nine
    fields: when [create_many_production_items] stores the batch that
    the parser made of a list of raw items, every document it adds to
    the collection has the nine fields in the order of their
    declaration, a field the raw item did not give being stored as an
    explicit null rather than left out, and [created_at] and
    [updated_at] after them. *)
Theorem parser_records_store_every_field {LI : LaxInt} {W : Writes}
    (filename : string) (l : list value)
    (production_items : list ProductionItemCreate.t) (w : World)
    (item_ids : list string) :
  materialize filename (PList l) = Ok production_items ->
  fst (create_many_production_items production_items w) = Ok item_ids ->
  exists new,
    collection (snd (create_many_production_items production_items w))
    = collection w ++ new
    /\ List.length new = List.length production_items
    /\ Forall (fun d =>
                 dict_keys (fields d)
                 = ProductionItemCreate.field_names
                   ++ ["created_at"; "updated_at"]
                 /\ forall k, In k ProductionItemCreate.field_names ->
                      exists x, dict_get k (fields d) = Some x)
         new.
Proof.
  unfold materialize. simpl. rewrite materialize_loop_successes. simpl.
  intros [= <-] Hc.
  assert (Hok : is_ok (fst (create_many_production_items
                              (successes filename l) w)) = true)
    by (rewrite Hc; reflexivity).
  rewrite (create_many_ok _ w Hok). cbn [snd collection].
  eexists. split; [reflexivity|]. split.
  - rewrite docs_from_length, stamps_from_length. reflexivity.
  - apply Forall_forall. intros d Hd.
    assert (Hf : In (fields d)
                   (stamps_from w (reads w) (successes filename l))).
    { rewrite <- (docs_from_fields (fresh w)
                    (stamps_from w (reads w) (successes filename l))
                    (issued w)).
      apply in_map. exact Hd. }
    destruct (stamps_from_items _ _ _ _ Hf) as (m & r & Hr & ->).
    destruct (successes_constructed _ _ _ Hr) as [v Hv].
    apply construct_inv_all in Hv.
    destruct Hv as (d0 & _ & _ & _ & _ & _ & _ & Hset & _).
    assert (Hk : dict_keys (stamp_at w m r)
                 = ProductionItemCreate.field_names
                   ++ ["created_at"; "updated_at"]).
    { rewrite stamp_at_fields. unfold dict_keys. rewrite map_app.
      fold (dict_keys (ProductionItemCreate.model_dump_exclude_unset r)).
      rewrite (dump_keys_all_set r Hset). reflexivity. }
    split; [exact Hk|].
    intros k Hin. apply dict_keys_get. rewrite Hk.
    apply in_or_app. left. exact Hin.
Qed.

(** A raw item with a style only, stored in the empty store. *)
Lemma parser_records_store_every_field_witness :
  exists r,
    @materialize int_exact "plan.xlsx" (PList [PDict [("style", PStr "A1")]])
    = Ok [r]
    /\ map fields
         (collection
            (snd (@create_many_production_items reference_writes [r]
                    empty_world)))
       = [[("order_number", PNone); ("style", PStr "A1"); ("fabric", PNone);
           ("color", PNone); ("quantity", PNone); ("status", PStr "pending");
           ("dates", PDict []); ("source_file", PStr "plan.xlsx");
           ("additional_data", PDict []);
           ("created_at", PDatetime 0); ("updated_at", PDatetime 10)]]
    /\ exists new,
         collection
           (snd (@create_many_production_items reference_writes [r]
                   empty_world))
         = collection empty_world ++ new
         /\ List.length new = 1.
Proof.
  eexists. split; [reflexivity|]. split; [reflexivity|].
  destruct (@parser_records_store_every_field int_exact reference_writes
              "plan.xlsx" [PDict [("style", PStr "A1")]] _ empty_world
              ["000000000000000000000000"] eq_refl eq_refl)
    as (new & Hcol & Hlen & _).
  exists new. split; [exact Hcol|exact Hlen].
Defined.

(* ================================================================== *)
(** * Properties of the endpoints *)

Import Main.

Lemma endswith_nil (suffix : string) :
  endswith EmptyString suffix = String.eqb EmptyString suffix.
Proof. unfold endswith. apply orb_false_r. Qed.

Lemma endswith_cons (c : ascii) (s suffix : string) :
  endswith (String c s) suffix
  = String.eqb (String c s) suffix || endswith s suffix.
Proof. reflexivity. Qed.

Lemma endswith_iff (s suffix : string) :
  endswith s suffix = true <-> exists p, s = (p ++ suffix)%string.
Proof.
  induction s as [|c s IH].
  - rewrite endswith_nil, String.eqb_eq. split.
    + intros <-. exists EmptyString. reflexivity.
    + intros [[|c p] H]; simpl in H; [exact H|discriminate].
  - rewrite endswith_cons, orb_true_iff, String.eqb_eq, IH. split.
    + intros [<-|[p ->]].
      * exists EmptyString. reflexivity.
      * exists (String c p). reflexivity.
    + intros [[|c' p] H]; simpl in H.
      * left. exact H.
      * injection H as <- ->. right. exists p. reflexivity.
Qed.

Lemma spreadsheet_name_iff (file_name : string) :
  endswith file_name ".xlsx" || endswith file_name ".xls" = true
  <-> spreadsheet_name file_name.
Proof.
  rewrite orb_true_iff, !endswith_iff. unfold spreadsheet_name. split.
  - intros [[p H]|[p H]]; exists p; auto.
  - intros [p [H|H]]; [left|right]; exists p; exact H.
Qed.

(** X17. The upload is refused with status 400 exactly when the file
    name does not end in [.xlsx] or [.xls] (the test is on the text of
    the name as given): this is checked before anything else, so such an
    upload gets 400 whatever the state of the services, and nothing is
    read, asked or stored. *)
Theorem upload_checks_the_file_type_first {LI : LaxInt} {X : Externals}
    {W : Writes} (app : App) (file_name file_content : string)
    (w : World) :
  (~ spreadsheet_name file_name ->
   upload_file app file_name file_content w
   = (HTTPException 400
        (Message
           "Invalid file type. Please upload an Excel file (.xlsx or .xls)"),
      w))
  /\ (spreadsheet_name file_name ->
      forall d w', upload_file app file_name file_content w
                   <> (HTTPException 400 d, w')).
Proof.
  unfold upload_file. split.
  - intros Hn.
    destruct (endswith file_name ".xlsx" || endswith file_name ".xls")
      eqn:Ee; [|reflexivity].
    exfalso. apply Hn. apply spreadsheet_name_iff. exact Ee.
  - intros Hs d w'. apply spreadsheet_name_iff in Hs. rewrite Hs.
    cbn [negb].
    destruct (parser app); [|discriminate].
    destruct (database app); cbn [negb]; [|discriminate].
    destruct (Parser.parse_excel_to_production_items file_content file_name)
      as [[|r rs]|e]; try discriminate.
    destruct (create_many_production_items (r :: rs) w) as [[ids|e] w1];
      discriminate.
Qed.

(** X18. An upload that is answered has stored what it processed: the
    parsing returned a batch, [items_processed] and [items_stored] are
    both the size of the batch, the collection grew by that many
    documents and kept the others, the name of the file is echoed, and
    [errors] is given exactly when the batch is empty (and then the store
    is not touched). *)
Theorem upload_stores_what_it_processed {LI : LaxInt} {X : Externals}
    {W : Writes} (app : App) (file_name file_content : string)
    (w w' : World) (r : FileUploadResponse) :
  upload_file app file_name file_content w = (Reply r, w') ->
  exists production_items new,
    Parser.parse_excel_to_production_items file_content file_name
    = Ok production_items
    /\ items_processed r = List.length production_items
    /\ items_stored r = List.length production_items
    /\ collection w' = collection w ++ new
    /\ List.length new = List.length production_items
    /\ filename r = file_name
    /\ status r = "completed"
    /\ (errors r <> None <-> production_items = [])
    /\ (production_items = [] -> w' = w).
Proof.
  unfold upload_file.
  destruct (negb _); [discriminate|].
  destruct (parser app); [|discriminate].
  destruct (negb _); [discriminate|].
  destruct (Parser.parse_excel_to_production_items file_content file_name)
    as [[|x xs]|e]; [| |discriminate].
  - intros [= <- <-]. exists [], []. rewrite app_nil_r. cbn.
    repeat split; try discriminate; reflexivity.
  - pose proof (create_many_ok (x :: xs) w) as Hok.
    destruct (create_many_production_items (x :: xs) w) as [[ids|e] w1];
      [|discriminate].
    specialize (Hok eq_refl). injection Hok as -> ->.
    intros [= <- <-].
    exists (x :: xs),
      (docs_from (fresh w) (issued w) (stamps_from w (reads w) (x :: xs))).
    cbn [items_processed items_stored filename status errors collection].
    rewrite !length_map, docs_from_length, stamps_from_length.
    repeat split; try discriminate.
    + rewrite docs_from_length, stamps_from_length. reflexivity.
    + intros H. exfalso. apply H. reflexivity.
Qed.


(** One sheet, one item extracted, one document stored. *)
Lemma upload_stores_what_it_processed_witness :
  fst (@upload_file int_exact sample_externals reference_writes sample_app
         "plan.xlsx" "bytes" empty_world)
  = Reply (MkUpload "File processed successfully" "plan.xlsx" 1 1
             "completed" None)
  /\ exists production_items new,
       @Parser.parse_excel_to_production_items int_exact sample_externals
         "bytes" "plan.xlsx" = Ok production_items
       /\ 1 = List.length production_items
       /\ 1 = List.length production_items
       /\ collection
            (snd (@upload_file int_exact sample_externals reference_writes
                    sample_app "plan.xlsx" "bytes" empty_world))
          = collection empty_world ++ new
       /\ List.length new = List.length production_items
       /\ "plan.xlsx" = "plan.xlsx"
       /\ "completed" = "completed"
       /\ (@None (list string) <> None <-> production_items = [])
       /\ (production_items = [] ->
           snd (@upload_file int_exact sample_externals reference_writes
                  sample_app "plan.xlsx" "bytes" empty_world)
           = empty_world).
Proof.
  split; [reflexivity|].
  exact (@upload_stores_what_it_processed int_exact sample_externals
           reference_writes sample_app "plan.xlsx" "bytes" empty_world
           (snd (@upload_file int_exact sample_externals reference_writes
                   sample_app "plan.xlsx" "bytes" empty_world))
           (MkUpload "File processed successfully" "plan.xlsx" 1 1
              "completed" None)
           eq_refl).
Defined.


(** A sheet with a number for a column label: the digest cannot be
    written, the upload is answered 500 and nothing at all is done. *)
Example upload_with_numeric_label :
  @upload_file int_exact numeric_label_externals reference_writes sample_app
    "plan.xlsx" "bytes" sample_world
  = (HTTPException 500 (Quoting "Error processing file: " TypeError),
     sample_world).
Proof. reflexivity. Qed.

Lemma given_idem (key : option string) (k : string) :
  Database.given key = Some k -> Database.given (Some k) = Some k.
Proof.
  unfold Database.given. destruct key as [s|]; [|discriminate].
  destruct (truthy (PStr s)) eqn:E; [|discriminate].
  intros [= <-]. rewrite E. reflexivity.
Qed.

Lemma init_given (key : option string) (k : string) :
  Database.given key = Some k ->
  Parser.init key key = Ok (Parser.MkParser k "gpt-4o-mini").
Proof.
  intros H. unfold Parser.init. rewrite H.
  rewrite (given_idem key k H). reflexivity.
Qed.

(** X20. What startup leaves behind: the database handle is set exactly
    when the client was built and the server answered, and the parser is
    set exactly when, moreover, the key is given and not empty; the
    parser is never set without the database. So an upload of a
    spreadsheet after a startup that could not reach the store is
    answered 503 with the message about the parser and the API key, even
    when the key is configured, and the message about the database is
    never reached after [startup]. *)
Theorem parser_needs_the_store {LI : LaxInt} {X : Externals}
    {W : Writes} (connects reachable : bool)
    (OPENAI_API_KEY : option string) :
  database (startup connects reachable OPENAI_API_KEY)
  = connects && reachable
  /\ (parser (startup connects reachable OPENAI_API_KEY) <> None
      <-> connects && reachable = true
          /\ Database.given OPENAI_API_KEY <> None)
  /\ (forall file_name file_content w,
        spreadsheet_name file_name ->
        connects && reachable = false ->
        upload_file (startup connects reachable OPENAI_API_KEY)
          file_name file_content w
        = (HTTPException 503
             (Message
                "Parser not available. Please configure OpenAI API key."),
           w))
  /\ (forall file_name file_content w,
        upload_file (startup connects reachable OPENAI_API_KEY)
          file_name file_content w
        <> (HTTPException 503 (Message "Database not available."), w)).
Proof.
  assert (Hdb : database (startup connects reachable OPENAI_API_KEY)
                = connects && reachable).
  { unfold startup. destruct connects, reachable; cbn [negb andb];
      try reflexivity.
    destruct (Database.given OPENAI_API_KEY) as [k|] eqn:Eg;
      [|reflexivity].
    rewrite (init_given _ k Eg). reflexivity. }
  assert (Hp : parser (startup connects reachable OPENAI_API_KEY) <> None
               <-> connects && reachable = true
                   /\ Database.given OPENAI_API_KEY <> None).
  { unfold startup. destruct connects, reachable; cbn [negb andb parser];
      try (split; [intros H; exfalso; apply H; reflexivity
                  |intros [H _]; discriminate H]).
    destruct (Database.given OPENAI_API_KEY) as [k|] eqn:Eg.
    - rewrite (init_given _ k Eg). cbn [parser].
      split; [intros _; split; [reflexivity|discriminate]|discriminate].
    - cbn [parser]. split; [intros H; exfalso; apply H; reflexivity|].
      intros [_ H]. exfalso. apply H. reflexivity. }
  split; [exact Hdb|]. split; [exact Hp|]. split.
  - intros file_name file_content w Hs Hc.
    unfold upload_file. apply spreadsheet_name_iff in Hs. rewrite Hs.
    cbn [negb].
    destruct (parser (startup connects reachable OPENAI_API_KEY)) eqn:Ep;
      [|reflexivity].
    exfalso.
    assert (Hn : Some p <> None) by discriminate.
    apply Hp in Hn. destruct Hn as [Hn _]. congruence.
  - intros file_name file_content w. unfold upload_file.
    destruct (negb _); [discriminate|].
    destruct (parser (startup connects reachable OPENAI_API_KEY)) eqn:Ep;
      [|discriminate].
    assert (Hn : Some p <> None) by discriminate.
    apply Hp in Hn. destruct Hn as [Hn _].
    rewrite Hdb, Hn. cbn [negb].
    destruct (Parser.parse_excel_to_production_items _ _) as [[|x xs]|e];
      try discriminate.
    destruct (Database.create_many_production_items (x :: xs) w)
      as [[ids|e] w1]; discriminate.
Qed.

Lemma id_to_str_as_dict (d : document) :
  Database.id_to_str (as_dict d)
  = ("_id", PStr (str_of_ObjectId (_id d))) :: fields d.
Proof. reflexivity. Qed.

(** X21. The two item endpoints answer 404, with the identifier quoted
    as it was given, for an identifier that is not the text of an
    [ObjectId] and for one that no stored document has; neither is an
    internal error, and the deletion leaves the collection as it was. *)
Theorem unknown_item_is_404 {IM : ItemModel} (app : App)
    (item_id : string) (w : World) :
  database app = true ->
  (forall oid, ObjectId_of_str item_id = Ok oid ->
               List.find (has_id oid) (collection w) = None) ->
  fst (Main.get_production_item app item_id w) = not_found item_id
  /\ fst (Main.delete_production_item app item_id w) = not_found item_id
  /\ collection (snd (Main.delete_production_item app item_id w))
     = collection w.
Proof.
  intros Hdb Hfind.
  unfold Main.get_production_item, Main.delete_production_item.
  rewrite Hdb. cbn [negb].
  rewrite (get_explicit item_id w), (delete_explicit item_id w).
  destruct (ObjectId_of_str item_id) as [oid|e].
  - rewrite (Hfind oid eq_refl).
    rewrite (delete_first_absent oid _ (Hfind oid eq_refl)).
    repeat split.
  - repeat split.
Qed.

(** An identifier that is not hexadecimal, on the sample store. *)
Lemma unknown_item_is_404_witness :
  fst (@Main.get_production_item documents_as_items sample_app "not-an-id"
         sample_world)
  = not_found "not-an-id"
  /\ fst (Main.delete_production_item sample_app "not-an-id" sample_world)
     = not_found "not-an-id"
  /\ collection
       (snd (Main.delete_production_item sample_app "not-an-id"
               sample_world))
     = collection sample_world.
Proof.
  apply (@unknown_item_is_404 documents_as_items sample_app "not-an-id"
           sample_world eq_refl).
  intros oid H. discriminate H.
Defined.

(** X22. For the identifier of a stored document the item endpoint
    validates that document, its [_id] written as the lower-case text of
    the identifier (whatever the case it was asked in), and answers an
    internal error only if the validation fails; the deletion endpoint
    answers with the identifier as it was given and takes the document
    out. *)
Theorem stored_item_is_served {IM : ItemModel} (app : App)
    (item_id : string) (oid : ObjectId) (d : document) (w : World) :
  database app = true ->
  ObjectId_of_str item_id = Ok oid ->
  List.find (has_id oid) (collection w) = Some d ->
  fst (Main.get_production_item app item_id w)
  = match ProductionItem_of
            (("_id", PStr (str_of_ObjectId oid)) :: fields d) with
    | Ok m => Reply m
    | Raise e => HTTPException 500 (Quoting "Error retrieving item: " e)
    end
  /\ collection (snd (Main.get_production_item app item_id w))
     = collection w
  /\ fst (Main.delete_production_item app item_id w)
     = Reply (("Item " ++ item_id ++ " deleted successfully")%string,
              item_id)
  /\ List.length (collection
                    (snd (Main.delete_production_item app item_id w)))
     = pred (List.length (collection w)).
Proof.
  intros Hdb Ho Hf.
  unfold Main.get_production_item, Main.delete_production_item.
  rewrite Hdb. cbn [negb].
  rewrite (get_explicit item_id w), (delete_explicit item_id w), Ho, Hf.
  cbn [option_map]. rewrite id_to_str_as_dict.
  assert (Hid : _id d = oid).
  { apply find_some in Hf. destruct Hf as [_ Hh].
    symmetry. apply has_id_eq. exact Hh. }
  rewrite Hid. cbn [truthy negb].
  destruct (delete_first_split oid (collection w))
    as [[Hnone _]|(pre & d' & post & Hcol & Hd' & Hpre & Hdel)];
    [congruence|].
  rewrite Hdel. cbn [fst snd Nat.ltb Nat.leb].
  repeat split.
  - destruct (ProductionItem_of _); reflexivity.
  - destruct (ProductionItem_of _); reflexivity.
  - cbn [snd collection]. rewrite Hcol, !length_app. simpl. lia.
Qed.

(** The sample record, asked for in upper case. *)
Lemma stored_item_is_served_witness :
  fst (@Main.get_production_item documents_as_items sample_app
         "507F1F77BCF86CD799439011" sample_world)
  = Reply [("_id", PStr "507f1f77bcf86cd799439011");
           ("style", PStr "Classic-Fit"); ("status", PStr "pending");
           ("created_at", PDatetime 10); ("updated_at", PDatetime 20)].
Proof.
  exact (proj1 (@stored_item_is_served documents_as_items sample_app
                  "507F1F77BCF86CD799439011" sample_oid
                  (Document sample_oid
                     [("style", PStr "Classic-Fit");
                      ("status", PStr "pending");
                      ("created_at", PDatetime 10);
                      ("updated_at", PDatetime 20)])
                  sample_world eq_refl eq_refl eq_refl)).
Defined.

Lemma to_models_length {IM : ItemModel} (l : list dict) :
  forall ms, to_models l = Ok ms -> List.length ms = List.length l.
Proof.
  induction l as [|d l IH]; simpl; intros ms H.
  - injection H as <-. reflexivity.
  - destruct (ProductionItem_of d) as [m|e]; [|discriminate].
    simpl in H. destruct (to_models l) as [ms'|e]; [|discriminate].
    simpl in H. injection H as <-. simpl. rewrite (IH ms' eq_refl).
    reflexivity.
Qed.

(** X23. A listing that is answered echoes [skip] and [limit], gives as
    [total] the number of stored documents the filters select, which
    does not depend on the page, holds the smaller of [limit] and
    [total - skip] items, and leaves the collection as it was; it is
    answered only for a [skip] and a [limit] that are not negative. *)
Theorem listing_reply {E : Engine} {IM : ItemModel} (app : App)
    (skip limit : Z) (style status order_number : option string)
    (w w' : World) (r : ProductionItemsResponse) :
  Main.get_production_items app skip limit style status order_number w
  = (Reply r, w') ->
  Main.skip r = skip /\ Main.limit r = limit
  /\ (0 <= skip)%Z /\ (0 <= limit)%Z
  /\ (exists cq,
        compile_query (build_query style status order_number) = Some cq
        /\ total r = List.length (matching cq w))
  /\ List.length (items r)
     = Nat.min (Z.to_nat limit) (total r - Z.to_nat skip)
  /\ collection w' = collection w.
Proof.
  unfold Main.get_production_items.
  destruct (negb (database app)); [discriminate|].
  pose proof (get_production_items_store skip limit style status
                order_number w) as Hst.
  pose proof (get_production_items_ok skip limit style status
                order_number w) as Hok.
  destruct (Database.get_production_items skip limit style status
              order_number w) as [[[its tot]|e] w1]; [|discriminate].
  cbn [fst snd] in Hst, Hok.
  destruct (Hok its tot eq_refl) as (cq & Ecq & Hs & Hl & Hits & Htot).
  destruct (to_models its) as [ms|e] eqn:Em; [|discriminate].
  intros [= <- <-]. cbn [Main.skip Main.limit total items].
  apply to_models_length in Em.
  repeat split; try assumption.
  - exists cq. split; assumption.
  - rewrite Em, Hits, Htot, !length_map. unfold page_of, sorted_matching.
    rewrite length_firstn, length_skipn.
    rewrite (Permutation_length
               (sort_created_at_desc_perm _ (matching cq w))).
    reflexivity.
Qed.

(** The sample store listed by style. *)
Lemma listing_reply_witness :
  fst (@Main.get_production_items reference_engine documents_as_items
         sample_app 0 10 (Some "classic") None None sample_world)
  = Reply (MkItems
             [[("_id", PStr "507f1f77bcf86cd799439011");
               ("style", PStr "Classic-Fit"); ("status", PStr "pending");
               ("created_at", PDatetime 10); ("updated_at", PDatetime 20)]]
             1 0 10)
  /\ List.length
       [[("_id", PStr "507f1f77bcf86cd799439011");
         ("style", PStr "Classic-Fit"); ("status", PStr "pending");
         ("created_at", PDatetime 10); ("updated_at", PDatetime 20)]]
     = Nat.min (Z.to_nat 10) (1 - Z.to_nat 0).
Proof.
  split; [reflexivity|].
  pose proof (@listing_reply reference_engine documents_as_items
                sample_app 0 10 (Some "classic") None None sample_world
                (snd (@Main.get_production_items reference_engine
                        documents_as_items sample_app 0 10
                        (Some "classic") None None sample_world))
                (MkItems
                   [[("_id", PStr "507f1f77bcf86cd799439011");
                     ("style", PStr "Classic-Fit");
                     ("status", PStr "pending");
                     ("created_at", PDatetime 10);
                     ("updated_at", PDatetime 20)]]
                   1 0 10)
                eq_refl) as (_ & _ & _ & _ & _ & H & _).
  exact H.
Defined.

(* ================================================================== *)
(** * Properties of the parsing pipeline *)

Lemma str_items_is_ok (l : list value) :
  is_ok (Parser.str_items l) = forallb is_str l.
Proof.
  induction l as [|v l IH]; [reflexivity|].
  destruct v; try reflexivity.
  simpl. rewrite <- IH. destruct (Parser.str_items l); reflexivity.
Qed.

Lemma str_items_raise (l : list value) (e : exn) :
  Parser.str_items l = Raise e -> e = TypeError.
Proof.
  induction l as [|v l IH]; [discriminate|].
  destruct v; simpl; try (intros [= <-]; reflexivity).
  destruct (Parser.str_items l) as [r|e']; simpl; [discriminate|].
  intros [= <-]. apply IH. reflexivity.
Qed.

Lemma dataframe_to_text_is_ok {X : Externals} (df : DataFrame) :
  is_ok (Parser.dataframe_to_text df) = forallb is_str (columns df).
Proof.
  unfold Parser.dataframe_to_text, Parser.join.
  rewrite <- str_items_is_ok.
  destruct (Parser.str_items (columns df)); reflexivity.
Qed.

Lemma dataframe_to_text_raise {X : Externals} (df : DataFrame) (e : exn) :
  Parser.dataframe_to_text df = Raise e -> e = TypeError.
Proof.
  unfold Parser.dataframe_to_text, Parser.join.
  destruct (Parser.str_items (columns df)) as [r|e'] eqn:Es; simpl;
    [discriminate|].
  intros [= <-]. exact (str_items_raise _ _ Es).
Qed.

(** X24. The digest of a sheet is written exactly when every column
    label is a string: a sheet with a label of another type (a number, a
    date) makes [dataframe_to_text] raise a [TypeError], and the
    pipeline raises it before the oracle is asked, whatever the sheet
    holds; so does a reply of the oracle with no content. *)
Theorem sheet_needs_text_labels {LI : LaxInt} {X : Externals}
    (df : DataFrame) :
  is_ok (Parser.dataframe_to_text df) = forallb is_str (columns df)
  /\ (forall e, Parser.dataframe_to_text df = Raise e -> e = TypeError)
  /\ (forall file_content filename,
        read_excel file_content = Ok df ->
        forallb is_str (columns df) = false ->
        Parser.parse_excel_to_production_items file_content filename
        = Raise TypeError)
  /\ (forall file_content filename excel_text,
        read_excel file_content = Ok df ->
        Parser.dataframe_to_text df = Ok excel_text ->
        chat_completion excel_text = Ok None ->
        Parser.parse_excel_to_production_items file_content filename
        = Raise TypeError).
Proof.
  split; [apply dataframe_to_text_is_ok|].
  split; [apply dataframe_to_text_raise|]. split.
  - intros file_content filename Hr Hf.
    unfold Parser.parse_excel_to_production_items. rewrite Hr. simpl.
    pose proof (dataframe_to_text_is_ok df) as Hok. rewrite Hf in Hok.
    destruct (Parser.dataframe_to_text df) as [t|e] eqn:Et;
      [discriminate|].
    simpl. rewrite (dataframe_to_text_raise df e Et). reflexivity.
  - intros file_content filename excel_text Hr Ht Hc.
    unfold Parser.parse_excel_to_production_items,
      Parser.extract_production_data.
    rewrite Hr. simpl. rewrite Ht. simpl. rewrite Hc. reflexivity.
Qed.

(** X25. When the sheet is read, its digest written and the reply of
    the oracle decodes to a value whose items are a list, the pipeline
    returns, whatever the items are: the records of the items that
    construct, in order, so no more records than items. An upload of
    such a sheet is never an internal error. *)
Theorem decoded_list_always_parses {LI : LaxInt} {X : Externals}
    (file_content filename excel_text reply : string) (df : DataFrame)
    (parsed_data : value) (extracted_items : list value) :
  read_excel file_content = Ok df ->
  Parser.dataframe_to_text df = Ok excel_text ->
  chat_completion excel_text = Ok (Some reply) ->
  json_loads reply = Ok parsed_data ->
  select_items parsed_data = PList extracted_items ->
  Parser.parse_excel_to_production_items file_content filename
  = Ok (successes filename extracted_items)
  /\ List.length (successes filename extracted_items)
     <= List.length extracted_items.
Proof.
  intros Hr Ht Hc Hj Hs. split.
  - unfold Parser.parse_excel_to_production_items,
      Parser.extract_production_data, normalize_reply.
    rewrite Hr. simpl. rewrite Ht. simpl. rewrite Hc. simpl.
    rewrite Hj. simpl. rewrite Hs. simpl.
    unfold materialize. simpl.
    rewrite materialize_loop_successes. reflexivity.
  - pose proof (successes_length filename extracted_items). lia.
Qed.

(** The sample sheet and the reply of the sample oracle. *)
Lemma decoded_list_always_parses_witness :
  exists production_items,
    @Parser.parse_excel_to_production_items int_exact sample_externals
      "bytes" "plan.xlsx" = Ok production_items
    /\ List.length production_items <= 1.
Proof.
  eexists.
  exact (@decoded_list_always_parses int_exact sample_externals
           "bytes" "plan.xlsx"
           (match @Parser.dataframe_to_text sample_externals sample_frame
            with Ok t => t | Raise _ => "" end)
           "reply" sample_frame
           (PDict [("items",
                    PList [PDict [("order_number", PStr "PO1");
                                  ("style", PStr "A1");
                                  ("quantity", PInt 5);
                                  ("status", PStr "pending")]])])
           [PDict [("order_number", PStr "PO1"); ("style", PStr "A1");
                   ("quantity", PInt 5); ("status", PStr "pending")]]
           eq_refl eq_refl eq_refl eq_refl eq_refl).
Defined.

(** X26. The parser takes the key it is given unless that is [None] or
    empty, and then the key of the environment; it is refused with a
    [ValueError] exactly when neither gives a key that is not empty, and
    then [parse_uploaded_file] raises it without reading the file. The
    model is always [gpt-4o-mini]. *)
Theorem api_key_precedence {LI : LaxInt} {X : Externals}
    (openai_api_key env_OPENAI_API_KEY : option string) :
  (forall k, Database.given openai_api_key = Some k ->
     Parser.init openai_api_key env_OPENAI_API_KEY
     = Ok (Parser.MkParser k "gpt-4o-mini"))
  /\ (forall k, Database.given openai_api_key = None ->
        Database.given env_OPENAI_API_KEY = Some k ->
        Parser.init openai_api_key env_OPENAI_API_KEY
        = Ok (Parser.MkParser k "gpt-4o-mini"))
  /\ (Parser.init openai_api_key env_OPENAI_API_KEY = Raise ValueError
      <-> Database.given openai_api_key = None
          /\ Database.given env_OPENAI_API_KEY = None)
  /\ (forall file_content filename,
        Parser.parse_uploaded_file file_content filename openai_api_key
          env_OPENAI_API_KEY
        = if is_ok (Parser.init openai_api_key env_OPENAI_API_KEY)
          then Parser.parse_excel_to_production_items file_content filename
          else Raise ValueError).
Proof.
  assert (H1 : forall k, Database.given openai_api_key = Some k ->
            Parser.init openai_api_key env_OPENAI_API_KEY
            = Ok (Parser.MkParser k "gpt-4o-mini")).
  { intros k Hk. unfold Parser.init. rewrite Hk.
    rewrite (given_idem _ k Hk). reflexivity. }
  assert (H2 : forall k, Database.given openai_api_key = None ->
            Database.given env_OPENAI_API_KEY = Some k ->
            Parser.init openai_api_key env_OPENAI_API_KEY
            = Ok (Parser.MkParser k "gpt-4o-mini")).
  { intros k Hn Hk. unfold Parser.init. rewrite Hn, Hk. reflexivity. }
  assert (H3 : Database.given openai_api_key = None ->
               Database.given env_OPENAI_API_KEY = None ->
               Parser.init openai_api_key env_OPENAI_API_KEY
               = Raise ValueError).
  { intros Hn Hk. unfold Parser.init. rewrite Hn, Hk. reflexivity. }
  split; [exact H1|]. split; [exact H2|]. split.
  - split.
    + intros Hr.
      destruct (Database.given openai_api_key) as [k|] eqn:E1.
      * rewrite (H1 k eq_refl) in Hr. discriminate.
      * destruct (Database.given env_OPENAI_API_KEY) as [k|] eqn:E2.
        -- rewrite (H2 k eq_refl eq_refl) in Hr. discriminate.
        -- split; reflexivity.
    + intros [Hn Hk]. exact (H3 Hn Hk).
  - intros file_content filename. unfold Parser.parse_uploaded_file.
    destruct (Database.given openai_api_key) as [k|] eqn:E1.
    + rewrite (H1 k eq_refl). reflexivity.
    + destruct (Database.given env_OPENAI_API_KEY) as [k|] eqn:E2.
      * rewrite (H2 k eq_refl eq_refl). reflexivity.
      * rewrite (H3 eq_refl eq_refl). reflexivity.
Qed.

(* ================================================================== *)
(** * An upload, then a listing *)

Lemma upload_reply_store {LI : LaxInt} {X : Externals} {W : Writes}
    (app : App) (file_name file_content : string) (w w' : World)
    (r : FileUploadResponse) :
  upload_file app file_name file_content w = (Reply r, w') ->
  List.length (collection w')
  = List.length (collection w) + items_stored r.
Proof.
  unfold upload_file.
  destruct (negb _); [discriminate|].
  destruct (parser app); [|discriminate].
  destruct (negb _); [discriminate|].
  destruct (Parser.parse_excel_to_production_items file_content file_name)
    as [[|x xs]|e]; [| |discriminate].
  - intros [= <- <-]. cbn [items_stored]. lia.
  - pose proof (create_many_ok (x :: xs) w) as Hok.
    destruct (create_many_production_items (x :: xs) w) as [[ids|e] w1];
      [|discriminate].
    specialize (Hok eq_refl). injection Hok as -> ->.
    intros [= <- <-]. cbn [items_stored collection].
    rewrite length_app, !length_map. reflexivity.
Qed.

Lemma matching_all {E : Engine} (w : World) : matching [] w = collection w.
Proof.
  unfold matching. induction (collection w) as [|d l IH]; [reflexivity|].
  simpl. rewrite IH. reflexivity.
Qed.

(** X27. What an upload reports as stored is what the listing grows by:
    after an upload that is answered, the total of a listing without
    filters is the number of documents there were before plus
    [items_stored]. *)
Theorem upload_grows_the_listing {LI : LaxInt} {X : Externals}
    {W : Writes} {E : Engine} (app : App) (file_name file_content : string)
    (w w' : World) (r : FileUploadResponse) (skip limit : Z) :
  upload_file app file_name file_content w = (Reply r, w') ->
  (0 <= skip)%Z -> (0 <= limit)%Z ->
  exists page,
    fst (Database.get_production_items skip limit None None None w')
    = Ok (page, List.length (collection w) + items_stored r).
Proof.
  intros Hu Hs Hl. apply upload_reply_store in Hu.
  rewrite get_production_items_run. cbn [build_query given List.app].
  cbn [compile_query].
  destruct (Z.ltb_spec skip 0) as [Hneg|_]; [lia|].
  destruct (Z.ltb_spec limit 0) as [Hneg|_]; [lia|].
  eexists. rewrite matching_all, Hu. reflexivity.
Qed.

(** The sample sheet uploaded into the sample store. *)
Lemma upload_grows_the_listing_witness :
  exists page,
    fst (@Database.get_production_items reference_engine 0 10 None None None
           (snd (@upload_file int_exact sample_externals reference_writes
                   sample_app "plan.xlsx" "bytes" sample_world)))
    = Ok (page, 1 + 1).
Proof.
  exact (@upload_grows_the_listing int_exact sample_externals
           reference_writes reference_engine sample_app "plan.xlsx" "bytes"
           sample_world
           (snd (@upload_file int_exact sample_externals reference_writes
                   sample_app "plan.xlsx" "bytes" sample_world))
           (MkUpload "File processed successfully" "plan.xlsx" 1 1
              "completed" None)
           0 10 eq_refl ltac:(lia) ltac:(lia)).
Defined.

(* ================================================================== *)
(** * Properties of the dates of a record *)

Lemma dict_get_filter_keys (names : list string) (d : dict) (k : string) :
  dict_get k
    (filter (fun kv => existsb (String.eqb (fst kv)) names) d)
  = if existsb (String.eqb k) names then dict_get k d else None.
Proof.
  induction d as [|[k0 v0] d IH]; simpl.
  - destruct (existsb (String.eqb k) names); reflexivity.
  - destruct (existsb (String.eqb k0) names) eqn:E0; simpl;
      destruct (String.eqb k k0) eqn:Ek; try exact IH.
    + apply String.eqb_eq in Ek. subst k0. rewrite E0. reflexivity.
    + apply String.eqb_eq in Ek. subst k0. rewrite IH, E0. reflexivity.
Qed.

Lemma existsb_eqb_filter (p : string -> bool) (names : list string)
    (k : string) :
  existsb (String.eqb k) (filter p names)
  = existsb (String.eqb k) names && p k.
Proof.
  induction names as [|n names IH]; [reflexivity|].
  simpl. destruct (String.eqb k n) eqn:Ek.
  - apply String.eqb_eq in Ek. subst n.
    destruct (p k) eqn:Ep; simpl.
    + rewrite String.eqb_refl. reflexivity.
    + rewrite IH. rewrite ?Ep.
      destruct (existsb (String.eqb k) names); reflexivity.
  - destruct (p n); simpl; [rewrite Ek|]; exact IH.
Qed.

Lemma dump_str_validate (v : value) (o : option string) :
  validate_optional validate_str v = Some o -> dump_str o = v.
Proof.
  destruct v; simpl; try discriminate; intros [= <-]; reflexivity.
Qed.

Lemma validate_str_items_dump (d : dict) :
  forall l, validate_str_items d = Some l ->
            map (fun ks => (fst ks, PStr (snd ks))) l = d.
Proof.
  induction d as [|[k v] d IH]; simpl; intros l H.
  - injection H as <-. reflexivity.
  - destruct v; simpl in H; try discriminate.
    destruct (validate_str_items d) as [r|]; [|discriminate].
    injection H as <-. simpl. rewrite (IH r eq_refl). reflexivity.
Qed.

Lemma dump_milestones_validate (v : value)
    (o : option (list (string * string))) :
  validate_optional validate_dict_str v = Some o ->
  match o with
  | Some l => PDict (map (fun ks => (fst ks, PStr (snd ks))) l)
  | None => PNone
  end = v.
Proof.
  destruct v; simpl; try discriminate.
  - intros [= <-]. reflexivity.
  - destruct (validate_str_items d) as [l|] eqn:E; simpl; [|discriminate].
    intros [= <-]. rewrite (validate_str_items_dump d l E). reflexivity.
Qed.

Lemma dates_init_inv (kwargs : dict) (m : ProductionDates.t) :
  ProductionDates.init kwargs = Ok m ->
  field (validate_optional validate_str) None "fabric" kwargs
  = Some (ProductionDates.fabric m)
  /\ field (validate_optional validate_str) None "cutting" kwargs
     = Some (ProductionDates.cutting m)
  /\ field (validate_optional validate_str) None "sewing" kwargs
     = Some (ProductionDates.sewing m)
  /\ field (validate_optional validate_str) None "finishing" kwargs
     = Some (ProductionDates.finishing m)
  /\ field (validate_optional validate_str) None "packing" kwargs
     = Some (ProductionDates.packing m)
  /\ field (validate_optional validate_str) None "shipping" kwargs
     = Some (ProductionDates.shipping m)
  /\ field (validate_optional validate_str) None "delivery" kwargs
     = Some (ProductionDates.delivery m)
  /\ field (validate_optional validate_dict_str) (Some [])
       "other_milestones" kwargs
     = Some (ProductionDates.other_milestones m)
  /\ ProductionDates.model_fields_set m
     = filter (fun n => dict_contains n kwargs)
         ProductionDates.field_names.
Proof.
  unfold ProductionDates.init.
  destruct (field _ None "fabric" kwargs); [|discriminate].
  destruct (field _ None "cutting" kwargs); [|discriminate].
  destruct (field _ None "sewing" kwargs); [|discriminate].
  destruct (field _ None "finishing" kwargs); [|discriminate].
  destruct (field _ None "packing" kwargs); [|discriminate].
  destruct (field _ None "shipping" kwargs); [|discriminate].
  destruct (field _ None "delivery" kwargs); [|discriminate].
  destruct (field _ (Some []) "other_milestones" kwargs); [|discriminate].
  intros [= <-]. repeat split.
Qed.

Lemma field_given {A : Type} (validate : value -> option A) (default : A)
    (name : string) (kwargs : dict) (v : value) (a : A) :
  field validate default name kwargs = Some a ->
  dict_get name kwargs = Some v -> validate v = Some a.
Proof. unfold field. intros H E. rewrite E in H. exact H. Qed.

(** X28. The dates of a record are the dates it was given: when
    [ProductionDates] takes a mapping, what it dumps (unset fields left
    out) has, under each of the eight declared names, exactly the value
    the mapping has there, absent when the mapping has none, and nothing
    under any other name: a key that names no field is dropped, a value
    is never changed. *)
Theorem dates_keep_what_was_given (kwargs : dict) (m : ProductionDates.t)
    (k : string) :
  ProductionDates.init kwargs = Ok m ->
  dict_get k (ProductionDates.model_dump_exclude_unset m)
  = if existsb (String.eqb k) ProductionDates.field_names
    then dict_get k kwargs else None.
Proof.
  intros H. apply dates_init_inv in H.
  destruct H as (Hfa & Hcu & Hse & Hfi & Hpa & Hsh & Hde & Hom & Hset).
  unfold ProductionDates.model_dump_exclude_unset.
  rewrite dict_get_filter_keys, Hset, existsb_eqb_filter.
  destruct (existsb (String.eqb k) ProductionDates.field_names) eqn:Ef;
    [|reflexivity].
  cbn [andb]. unfold dict_contains.
  destruct (dict_get k kwargs) as [v|] eqn:Eg; [|reflexivity].
  unfold ProductionDates.field_names in Ef. cbn [existsb] in Ef.
  cbn [dict_get].
  destruct (String.eqb k "fabric") eqn:E1.
  { apply String.eqb_eq in E1. subst k. f_equal.
    exact (dump_str_validate v _ (field_given _ _ _ _ v _ Hfa Eg)). }
  destruct (String.eqb k "cutting") eqn:E2.
  { apply String.eqb_eq in E2. subst k. f_equal.
    exact (dump_str_validate v _ (field_given _ _ _ _ v _ Hcu Eg)). }
  destruct (String.eqb k "sewing") eqn:E3.
  { apply String.eqb_eq in E3. subst k. f_equal.
    exact (dump_str_validate v _ (field_given _ _ _ _ v _ Hse Eg)). }
  destruct (String.eqb k "finishing") eqn:E4.
  { apply String.eqb_eq in E4. subst k. f_equal.
    exact (dump_str_validate v _ (field_given _ _ _ _ v _ Hfi Eg)). }
  destruct (String.eqb k "packing") eqn:E5.
  { apply String.eqb_eq in E5. subst k. f_equal.
    exact (dump_str_validate v _ (field_given _ _ _ _ v _ Hpa Eg)). }
  destruct (String.eqb k "shipping") eqn:E6.
  { apply String.eqb_eq in E6. subst k. f_equal.
    exact (dump_str_validate v _ (field_given _ _ _ _ v _ Hsh Eg)). }
  destruct (String.eqb k "delivery") eqn:E7.
  { apply String.eqb_eq in E7. subst k. f_equal.
    exact (dump_str_validate v _ (field_given _ _ _ _ v _ Hde Eg)). }
  destruct (String.eqb k "other_milestones") eqn:E8.
  { apply String.eqb_eq in E8. subst k. f_equal.
    exact (dump_milestones_validate v _
             (field_given _ _ _ _ v _ Hom Eg)). }
  discriminate Ef.
Qed.

(** A cutting date and a key that names no field. *)
Lemma dates_keep_what_was_given_witness :
  exists m,
    ProductionDates.init
      [("cutting", PStr "2024-01-05"); ("note", PStr "x")] = Ok m
    /\ ProductionDates.model_dump_exclude_unset m
       = [("cutting", PStr "2024-01-05")]
    /\ dict_get "cutting" (ProductionDates.model_dump_exclude_unset m)
       = Some (PStr "2024-01-05")
    /\ dict_get "note" (ProductionDates.model_dump_exclude_unset m) = None.
Proof.
  eexists. split; [reflexivity|]. split; [reflexivity|]. split.
  - exact (dates_keep_what_was_given
             [("cutting", PStr "2024-01-05"); ("note", PStr "x")] _
             "cutting" eq_refl).
  - exact (dates_keep_what_was_given
             [("cutting", PStr "2024-01-05"); ("note", PStr "x")] _
             "note" eq_refl).
Defined.
